(** * RawBufferStreamer: pixel codec, frame transforms and streaming pipeline

    A shallow embedding of
    [libMotionCam/libMotionCam/source/RawBufferStreamer.cpp].

    Conventions of the embedding.
    - C++ [int], [size_t] and [uint32_t] values are integers of [Z]; signed
      overflow is undefined behaviour in C++ and is not modelled.  The
      narrowing conversions that the source writes out ([uint16_t] locals,
      [static_cast<uint8_t>]) are modelled by [u16] and [u8].
    - [uint8_t* data] is a list of bytes, read with [load] and written with
      [store].  An access outside the region is undefined behaviour in C++;
      in the model a [load] there yields 0 and a [store] there does nothing.
    - Integer division [/] of C++ truncates ([Z.quot]), [%] is [Z.rem],
      [>>] on an [int] is [Z.shiftr].
    - The [double] arithmetic of the crop amounts is modelled bit for bit
      (IEEE 754 binary64, round to nearest, ties to even) in [Module
      Double]. *)

From Stdlib Require Import ZArith List Lia Bool Floats.
From stdpp Require Import base tactics option list.
Import ListNotations.

Local Open Scope Z_scope.

(** ** Enumerations (declared in headers that are not part of the sources) *)

Module PixelFormat.
(** Modelled from the spec: the enumeration [PixelFormat] of
    [motioncam/RawImageBuffer.h].  The source names the tags [RAW10],
    [RAW12] and [RAW16] and has a final [else] branch for every other tag;
    the other tags are kept apart by a number. *)
Inductive t : Set :=
| RAW10
| RAW12
| RAW16
| Other (tag : nat).

Definition eqb (a b : t) : bool :=
  match a, b with
  | RAW10, RAW10 | RAW12, RAW12 | RAW16, RAW16 => true
  | Other m, Other n => Nat.eqb m n
  | _, _ => false
  end.

Definition supported (a : t) : bool :=
  match a with
  | Other _ => false
  | _ => true
  end.
End PixelFormat.

Module CompressionType.
(** Modelled from the spec: the enumeration [CompressionType]; the source
    uses the tags [UNCOMPRESSED] and [BITNZPACK_2]. *)
Inductive t : Set :=
| UNCOMPRESSED
| BITNZPACK_2.
End CompressionType.

(** ** Bytes and narrowing conversions *)

Definition u8 (v : Z) : Z := Z.land v 255.
Definition u16 (v : Z) : Z := Z.land v 65535.

Definition load (data : list Z) (i : Z) : Z :=
  if 0 <=? i then default 0 (data !! Z.to_nat i) else 0.

Definition store (data : list Z) (i : Z) (v : Z) : list Z :=
  if 0 <=? i then <[Z.to_nat i := v]> data else data.

(** [std::vector<uint16_t>] indexed with [operator[]]. *)
Definition vget (row : list Z) (i : Z) : Z := load row i.
Definition vset (row : list Z) (i : Z) (v : Z) : list Z := store row i (u16 v).

(** [for(int i = start; i < stop; i += step) body], for a positive [step].
    The loop runs at most [stop - start] times, which is the fuel given by
    [for_range]. *)
Fixpoint for_loop {St : Type} (fuel : nat) (i stop step : Z)
    (body : Z -> St -> St) (s : St) : St :=
  match fuel with
  | O => s
  | S fuel' =>
      if i <? stop then for_loop fuel' (i + step) stop step body (body i s)
      else s
  end.

Definition for_range {St : Type} (start stop step : Z)
    (body : Z -> St -> St) (s : St) : St :=
  for_loop (Z.to_nat (stop - start)) start stop step body s.

(** ** Pixel codec: the three read primitives *)

Definition RAW10 (data : list Z) (x y stride : Z) : Z :=
  let X := Z.shiftl (Z.shiftr x 2) 2 in
  let xoffset := y * stride + Z.shiftr (10 * X) 3 in
  let p := x - X in
  let shift := u8 (Z.shiftl p 1) in
  u16 (Z.lor (Z.shiftl (load data (xoffset + p)) 2)
             (Z.land (Z.shiftr (load data (xoffset + 4)) shift) 3)).

Definition RAW12 (data : list Z) (x y stride : Z) : Z :=
  let X := Z.shiftl (Z.shiftr x 1) 1 in
  let xoffset := y * stride + Z.shiftr (12 * X) 3 in
  let p := x - X in
  let shift := u8 (Z.shiftl p 2) in
  u16 (Z.lor (Z.shiftl (load data (xoffset + p)) 4)
             (Z.land (Z.shiftr (load data (xoffset + 2)) shift) 15)).

Definition RAW16 (data : list Z) (x y stride : Z) : Z :=
  let offset := y * stride + x * 2 in
  u16 (Z.lor (load data offset) (Z.shiftl (load data (offset + 1)) 8)).

(** ** Packing a column-split row back into RAW10 / RAW12 groups

    The [else] branches of [if(doCompress)] in [cropAndBin_RAW10],
    [cropAndBin_RAW12] and [cropAndBin_RAW16].  The state of each loop is the
    byte region and the running [offset]. *)

Definition pack10_body (row : list Z) (rowSize_2 : Z) (i : Z)
    (s : list Z * Z) : list Z * Z :=
  let '(data, offset) := s in
  let p0 := u8 (Z.shiftr (vget row i) 2) in
  let p1 := u8 (Z.shiftr (vget row (i + rowSize_2)) 2) in
  let p2 := u8 (Z.shiftr (vget row (i + 1)) 2) in
  let p3 := u8 (Z.shiftr (vget row (i + rowSize_2 + 1)) 2) in
  let upper :=
    Z.lor (Z.lor (Z.lor
      (u8 (Z.land (vget row i) 3))
      (u8 (Z.shiftl (Z.land (vget row (i + 1)) 3) 2)))
      (u8 (Z.shiftl (Z.land (vget row (i + 2)) 3) 4)))
      (u8 (Z.shiftl (Z.land (vget row (i + 3)) 3) 6)) in
  let data := store data offset p0 in
  let data := store data (offset + 1) p1 in
  let data := store data (offset + 2) p2 in
  let data := store data (offset + 3) p3 in
  let data := store data (offset + 4) upper in
  (data, offset + 5).

Definition pack_RAW10 (row : list Z) (s : list Z * Z) : list Z * Z :=
  let rowSize_2 := Z.quot (Z.of_nat (length row)) 2 in
  for_range 0 rowSize_2 2 (pack10_body row rowSize_2) s.

Definition pack12_body (row : list Z) (rowSize_2 : Z) (i : Z)
    (s : list Z * Z) : list Z * Z :=
  let '(data, offset) := s in
  let p0 := vget row i in
  let p1 := vget row (i + rowSize_2) in
  let upper :=
    Z.lor (u8 (Z.land p0 15)) (u8 (Z.shiftl (Z.land p1 15) 4)) in
  let data := store data offset (u8 (Z.shiftr p0 4)) in
  let data := store data (offset + 1) (u8 (Z.shiftr p1 4)) in
  let data := store data (offset + 2) upper in
  (data, offset + 3).

Definition pack_RAW12 (row : list Z) (s : list Z * Z) : list Z * Z :=
  let rowSize_2 := Z.quot (Z.of_nat (length row)) 2 in
  for_range 0 rowSize_2 1 (pack12_body row rowSize_2) s.

(** ** Byte-range helpers *)

(** The bytes [data[src .. src+n)]. *)
Definition read_bytes (data : list Z) (src : Z) (n : nat) : list Z :=
  map (fun k => load data (src + Z.of_nat k)) (seq 0 n).

(** Writes [bs] to [data[offset ..]], one byte after the other. *)
Fixpoint write_bytes (data : list Z) (offset : Z) (bs : list Z) : list Z :=
  match bs with
  | [] => data
  | b :: bs' => write_bytes (store data offset b) (offset + 1) bs'
  end.

(** [std::memmove(data+dst, data+src, n)]: the source range is read before
    anything is written, so overlapping ranges are handled.  A negative [n]
    (converted to a huge [size_t] in C++) copies nothing in the model. *)
Definition memmove (data : list Z) (dst src n : Z) : list Z :=
  write_bytes data dst (read_bytes data src (Z.to_nat n)).

(** ** The binning kernel

    One output sample of the unrolled blocks of [cropAndBin_RAW10],
    [cropAndBin_RAW12] and [cropAndBin_RAW16]; [read] is the read primitive
    of the format.  [p0] .. [p8] are [uint16_t] locals, their sum is an
    [int], and [out] is again a [uint16_t]. *)
Definition bin_sample (read : list Z -> Z -> Z -> Z -> Z) (data : list Z)
    (width height rowStride ix iy : Z) : Z :=
  let ix_m2 := Z.max 0 (ix - 2) in
  let ix_p2 := Z.rem (ix + 2) width in
  let iy_m2 := Z.max 0 (iy - 2) in
  let iy_p2 := Z.rem (iy + 2) height in
  let p0 := u16 (read data ix_m2 iy_m2 rowStride) in
  let p1 := u16 (Z.shiftl (read data ix iy_m2 rowStride) 1) in
  let p2 := u16 (read data ix_p2 iy_m2 rowStride) in
  let p3 := u16 (Z.shiftl (read data ix_m2 iy rowStride) 1) in
  let p4 := u16 (Z.shiftl (read data ix iy rowStride) 2) in
  let p5 := u16 (Z.shiftl (read data ix_p2 iy rowStride) 1) in
  let p6 := u16 (read data ix_m2 iy_p2 rowStride) in
  let p7 := u16 (Z.shiftl (read data ix iy_p2 rowStride) 1) in
  let p8 := u16 (read data ix_p2 iy_p2 rowStride) in
  u16 (Z.shiftr (p0 + p1 + p2 + p3 + p4 + p5 + p6 + p7 + p8) 4).

(** The body of [for(int x = xstart; x < xend; x+=4)]: four samples, two
    into [row0] (image row [y]) and two into [row1] (image row [y+1]), each
    row column-split as [even || odd].  [idx0] is the conversion applied to
    the index into [row0]: [cropAndBin_RAW10] declares it [const uint16_t X],
    the other two functions [const int X]. *)
Definition bin_body (read : list Z -> Z -> Z -> Z -> Z) (idx0 : Z -> Z)
    (data : list Z) (width height rowStride xstart binnedWidth y : Z)
    (x : Z) (rows : list Z * list Z) : list Z * list Z :=
  let '(row0, row1) := rows in
  let sample := bin_sample read data width height rowStride in
  let row0 := vset row0 (idx0 (Z.shiftr (x - xstart) 2)) (sample x y) in
  let row0 :=
    vset row0 (idx0 (Z.shiftr (x - xstart) 2 + Z.shiftr binnedWidth 1))
         (sample (x + 1) y) in
  let row1 := vset row1 (Z.shiftr (x - xstart) 2) (sample x (y + 1)) in
  let row1 :=
    vset row1 (Z.shiftr (x - xstart) 2 + Z.shiftr binnedWidth 1)
         (sample (x + 1) (y + 1)) in
  (row0, row1).

Definition bin_rows (read : list Z -> Z -> Z -> Z -> Z) (idx0 : Z -> Z)
    (data : list Z) (width height rowStride xstart xend binnedWidth y : Z)
    (rows : list Z * list Z) : list Z * list Z :=
  for_range xstart xend 4
    (bin_body read idx0 data width height rowStride xstart binnedWidth y)
    rows.

(** [std::vector<uint16_t> row(n)]: [n] zeros.  (A negative [n] makes the
    C++ constructor throw; the model gives the empty vector.) *)
Definition new_row (n : Z) : list Z := replicate (Z.to_nat n) 0.

(** ** Buffers *)

(** Modelled from the spec: the lockable byte region [buffer.data] (class
    [NativeBuffer], declared outside the sources): "owned, lockable byte
    region with a validRange = (start, end) sub-window".  [lock] hands out
    the bytes and [unlock] releases them; [lockCount] counts the calls of
    [lock] so that a path that never locks can be told from one that locks
    and unlocks. *)
Record NativeBuffer : Type := mkNativeBuffer {
  bytes : list Z;
  validRange : Z * Z;
  locked : bool;
  lockCount : nat
}.

Definition lock (d : NativeBuffer) : NativeBuffer :=
  mkNativeBuffer (bytes d) (validRange d) true (S (lockCount d)).

Definition unlock (d : NativeBuffer) : NativeBuffer :=
  mkNativeBuffer (bytes d) (validRange d) false (lockCount d).

Definition setBytes (d : NativeBuffer) (bs : list Z) : NativeBuffer :=
  mkNativeBuffer bs (validRange d) (locked d) (lockCount d).

Definition setValidRange (d : NativeBuffer) (s e : Z) : NativeBuffer :=
  mkNativeBuffer (bytes d) (s, e) (locked d) (lockCount d).

(** ** The [double] arithmetic of the crop amounts

    A non-negative finite [double] is a pair [(m, e)] that stands for
    [m * 2^e]: zero is [(0, 0)], and otherwise [2^52 <= m <= 2^53] (a
    mantissa that rounding has carried to [2^53] denotes the [double]
    [2^52 * 2^(e+1)]; it is left as it is, since only the value matters to
    the operations below).  Every operation computes the exact rational
    result and rounds it once, to nearest with ties to the even mantissa, as
    IEEE 754 prescribes for binary64.  The values that the transforms
    compute come from [int] operands and lie between [2^-7] and [2^56], far
    inside the exponent range of binary64, so that neither overflow nor
    subnormal numbers arise and the exponent is left unbounded. *)
Module Double.

Definition t : Type := Z * Z.

(** The integer nearest to [n/d], ties to the even one ([0 <= n], [0 < d]). *)
Definition rne (n d : Z) : Z :=
  let q := n / d in
  let r := n mod d in
  if 2 * r <? d then q
  else if d <? 2 * r then q + 1
  else if Z.even q then q else q + 1.

(** The [double] nearest to the rational [n/d] ([0 <= n], [0 < d]): the
    quotient is scaled by a power of two until its integer part has 53 or
    54 bits, and rounded to 53 bits. *)
Definition of_ratio (n d : Z) : t :=
  if n =? 0 then (0, 0)
  else
    let s := Z.log2 n - Z.log2 d - 53 in
    let n' := if 0 <=? s then n else n * 2 ^ (- s) in
    let d' := if 0 <=? s then d * 2 ^ s else d in
    if n' / d' <? 2 ^ 53 then (rne n' d', s) else (rne n' (2 * d'), s + 1).

(** [a / b] on the [double]s of two [int]s: both convert exactly, and the
    quotient is correctly rounded. *)
Definition div_int (a b : Z) : t := of_ratio a b.

(** [x * k] for a [double] [x] and the [double] of an [int] [k]: the exact
    product, correctly rounded. *)
Definition mul_int (x : t) (k : Z) : t :=
  let '(m, e) := x in
  if 0 <=? e then of_ratio (m * k * 2 ^ e) 1 else of_ratio (m * k) (2 ^ (- e)).

(** [0.5 * x] is exact. *)
Definition half (x : t) : t := (fst x, snd x - 1).

(** [lround]: the nearest integer, halfway cases away from zero. *)
Definition lround (x : t) : Z :=
  let '(m, e) := x in
  if 0 <=? e then m * 2 ^ e else (m + 2 ^ (- e - 1)) / 2 ^ (- e).

(** [x <= N] for an integer [N]. *)
Definition le_int (x : t) (N : Z) : Prop :=
  if 0 <=? snd x then fst x * 2 ^ snd x <= N else fst x <= N * 2 ^ (- snd x).

End Double.

(** The largest [int]. *)
Definition INT_MAX : Z := 2147483647.

Section Transforms.

(** The per-frame side-band data, passed through untouched. *)
Context {Metadata : Type}.

(** The row codec [bitnzpack16] of the TurboPFor library, taken as a
    parameter: [encodeFunc row] is the byte stream that
    [bitnzpack16(row.data(), row.size(), out)] writes to [out]; the C
    function returns its length. *)
Variable encodeFunc : list Z -> list Z.

Record RawImageBuffer : Type := mkRawImageBuffer {
  data : NativeBuffer;
  width : Z;
  height : Z;
  rowStride : Z;
  pixelFormat : PixelFormat.t;
  compressionType : CompressionType.t;
  isBinned : bool;
  isCompressed : bool;
  metadata : Metadata
}.

Definition setData (b : RawImageBuffer) (d : NativeBuffer) : RawImageBuffer :=
  mkRawImageBuffer d (width b) (height b) (rowStride b) (pixelFormat b)
    (compressionType b) (isBinned b) (isCompressed b) (metadata b).

(** [writtenBytes = encodeFunc(row.data(), row.size(), data+offset);
    offset += writtenBytes]. *)
Definition encode_row (row : list Z) (s : list Z * Z) : list Z * Z :=
  let '(data, offset) := s in
  let out := encodeFunc row in
  (write_bytes data offset out, offset + Z.of_nat (length out)).

(** *** cropAndBin_RAW10 / _RAW12 / _RAW16

    The body of [for(int y = ystart; y < yend; y+=4)].  The state is the
    two row vectors (declared before the loop, so they keep their contents
    from one iteration to the next), the byte region and [offset].  The
    samples are read from the region as it is at that point: the packed
    output of earlier iterations has already been written over its
    beginning. *)
Definition cropAndBin_body (read : list Z -> Z -> Z -> Z -> Z)
    (idx0 : Z -> Z) (pack : list Z -> list Z * Z -> list Z * Z)
    (doCompress : bool)
    (width height rowStride xstart xend binnedWidth : Z)
    (y : Z) (s : (list Z * list Z) * (list Z * Z))
    : (list Z * list Z) * (list Z * Z) :=
  let '(rows, mem) := s in
  let rows :=
    bin_rows read idx0 (fst mem) width height rowStride
             xstart xend binnedWidth y rows in
  let mem :=
    if doCompress then encode_row (snd rows) (encode_row (fst rows) mem)
    else pack (snd rows) (pack (fst rows) mem) in
  (rows, mem).

Definition cropAndBin_loop (read : list Z -> Z -> Z -> Z -> Z)
    (idx0 : Z -> Z) (pack : list Z -> list Z * Z -> list Z * Z)
    (buffer : RawImageBuffer) (data : list Z)
    (ystart yend xstart xend binnedWidth : Z) (doCompress : bool)
    : list Z * Z :=
  snd (for_range ystart yend 4
         (cropAndBin_body read idx0 pack doCompress
            (width buffer) (height buffer) (rowStride buffer)
            xstart xend binnedWidth)
         ((new_row binnedWidth, new_row binnedWidth), (data, 0))).

(** Each returns the region as written and the final [offset]. *)
Definition cropAndBin_RAW10 := cropAndBin_loop RAW10 u16 pack_RAW10.
Definition cropAndBin_RAW12 := cropAndBin_loop RAW12 id pack_RAW12.
(** [cropAndBin_RAW16] packs into RAW12. *)
Definition cropAndBin_RAW16 := cropAndBin_loop RAW16 id pack_RAW12.

(** *** The streamer object

    The fields of [class RawBufferStreamer] that the code below reads or
    writes: the [running] flag, the configuration, the counters and the
    two queues.  (The audio interface and the thread handles are left
    out; the threads are modelled in [Module Pipeline] below.) *)
Record RawBufferStreamer : Type := mkRawBufferStreamer {
  mRunning : bool;
  mCropHeight : Z;
  mCropWidth : Z;
  mBin : bool;
  mEnableCompression : bool;
  mWrittenFrames : Z;
  mAcceptedFrames : Z;
  mWrittenBytes : Z;
  mUnprocessedBuffers : list RawImageBuffer;
  mReadyBuffers : list RawImageBuffer
}.

(** [lround(0.5f * (pct/100.0 * dim))], as [cropAndBin] and [crop] write
    it ([cropAndCompress] writes [0.5] for [0.5f]; both are the same
    [double]).  The operands are [int]s: [pct/100.0] is the [double] nearest
    to [pct/100], the product with [dim] is rounded once more, the product
    with one half is exact, and [lround] rounds to the nearest integer,
    halfway cases away from zero.  The operations are symmetric in the
    sign, which is put back at the end. *)
Definition lround_half_percent (pct dim : Z) : Z :=
  let q := Double.div_int (Z.abs pct) 100 in
  let p := Double.mul_int q (Z.abs dim) in
  let r := Double.lround (Double.half p) in
  if 0 <=? pct * dim then r else - r.

(** The same expression evaluated with the binary64 floats of the kernel
    ([PrimFloat]), which are the [double]s of the machine. *)
Definition float_of_int (z : Z) : float :=
  if 0 <=? z then PrimFloat.of_uint63 (Uint63.of_Z z)
  else (- PrimFloat.of_uint63 (Uint63.of_Z (- z)))%float.

Definition lround_float (x : float) : Z :=
  match Prim2SF x with
  | S754_finite s m e =>
      let r := Double.lround (Z.pos m, e) in if s then - r else r
  | _ => 0
  end.

Definition lround_half_percent_float (pct dim : Z) : Z :=
  lround_float (0.5 * (float_of_int pct / 100 * float_of_int dim))%float.

Definition horizontalCrop (c : RawBufferStreamer) (buffer : RawImageBuffer) : Z :=
  4 * Z.quot (lround_half_percent (mCropWidth c) (width buffer)) 4.

Definition verticalCrop (c : RawBufferStreamer) (buffer : RawImageBuffer) : Z :=
  2 * Z.quot (lround_half_percent (mCropHeight c) (height buffer)) 2.

Definition croppedWidth (c : RawBufferStreamer) (buffer : RawImageBuffer) : Z :=
  width buffer - horizontalCrop c buffer * 2.

Definition croppedHeight (c : RawBufferStreamer) (buffer : RawImageBuffer) : Z :=
  height buffer - verticalCrop c buffer * 2.

(** *** cropAndBin *)
Definition cropAndBin_finish (c : RawBufferStreamer) (buffer : RawImageBuffer)
    (out : list Z * Z) : RawImageBuffer :=
  let '(bs, e) := out in
  let d := unlock (setBytes (lock (data buffer)) bs) in
  let width' := Z.quot (croppedWidth c buffer) 2 in
  let height' := Z.quot (croppedHeight c buffer) 2 in
  if mEnableCompression c then
    mkRawImageBuffer (setValidRange d 0 e) width' height' (2 * width')
      PixelFormat.RAW16 CompressionType.BITNZPACK_2 true true
      (metadata buffer)
  else
    mkRawImageBuffer (setValidRange d 0 e) width' height'
      (if PixelFormat.eqb (pixelFormat buffer) PixelFormat.RAW10
       then Z.quot (10 * width') 8 else Z.quot (12 * width') 8)
      (if PixelFormat.eqb (pixelFormat buffer) PixelFormat.RAW16
       then PixelFormat.RAW12 else pixelFormat buffer)
      CompressionType.UNCOMPRESSED true false
      (metadata buffer).

Definition cropAndBin (c : RawBufferStreamer) (buffer : RawImageBuffer)
    : RawImageBuffer :=
  let ystart := verticalCrop c buffer in
  let yend := height buffer - ystart in
  let xstart := horizontalCrop c buffer in
  let xend := width buffer - horizontalCrop c buffer in
  let binnedWidth := Z.quot (croppedWidth c buffer) 2 in
  let bs := bytes (lock (data buffer)) in
  match pixelFormat buffer with
  | PixelFormat.RAW10 =>
      cropAndBin_finish c buffer
        (cropAndBin_RAW10 buffer bs ystart yend xstart xend binnedWidth
           (mEnableCompression c))
  | PixelFormat.RAW12 =>
      cropAndBin_finish c buffer
        (cropAndBin_RAW12 buffer bs ystart yend xstart xend binnedWidth
           (mEnableCompression c))
  | PixelFormat.RAW16 =>
      cropAndBin_finish c buffer
        (cropAndBin_RAW16 buffer bs ystart yend xstart xend binnedWidth
           (mEnableCompression c))
  | PixelFormat.Other _ =>
      (* Not supported *)
      setData buffer (unlock (lock (data buffer)))
  end.

(** *** cropAndCompress *)

(** The body of [for(int x = xstart; x < xend; x+=2)]: the row is
    rearranged as [even-column samples || odd-column samples]. *)
Definition split_body (read : list Z -> Z -> Z -> Z -> Z) (data : list Z)
    (rowStride xstart croppedWidth_2 y : Z) (x : Z) (row : list Z)
    : list Z :=
  let p0 := read data x y rowStride in
  let p1 := read data (x + 1) y rowStride in
  let X := Z.shiftr (x - xstart) 1 in
  let row := vset row X p0 in
  vset row (croppedWidth_2 + X) p1.

Definition split_row (read : list Z -> Z -> Z -> Z -> Z) (data : list Z)
    (rowStride xstart xend croppedWidth_2 y : Z) (row : list Z) : list Z :=
  for_range xstart xend 2
    (split_body read data rowStride xstart croppedWidth_2 y) row.

(** The body of [for(int y = ystart; y < yend; y++)]; the state is the
    vector [row], the byte region and [offset]. *)
Definition cropAndCompress_body (read : list Z -> Z -> Z -> Z -> Z)
    (rowStride xstart xend croppedWidth_2 : Z)
    (y : Z) (s : list Z * (list Z * Z)) : list Z * (list Z * Z) :=
  let '(row, mem) := s in
  let row :=
    split_row read (fst mem) rowStride xstart xend croppedWidth_2 y row in
  (row, encode_row row mem).

Definition cropAndCompress_loop (read : list Z -> Z -> Z -> Z -> Z)
    (c : RawBufferStreamer) (buffer : RawImageBuffer) (bs : list Z)
    : list Z * Z :=
  let xstart := horizontalCrop c buffer in
  let xend := width buffer - xstart in
  let ystart := verticalCrop c buffer in
  let yend := height buffer - ystart in
  let croppedWidth_2 := Z.shiftr (croppedWidth c buffer) 1 in
  snd (for_range ystart yend 1
         (cropAndCompress_body read (rowStride buffer)
            xstart xend croppedWidth_2)
         (new_row (croppedWidth c buffer), (bs, 0))).

Definition cropAndCompress_finish (c : RawBufferStreamer)
    (buffer : RawImageBuffer) (out : list Z * Z) : RawImageBuffer :=
  let '(bs, offset) := out in
  let d := unlock (setBytes (lock (data buffer)) bs) in
  mkRawImageBuffer (setValidRange d 0 offset)
    (croppedWidth c buffer) (croppedHeight c buffer)
    (croppedWidth c buffer * 2)
    PixelFormat.RAW16 CompressionType.BITNZPACK_2
    (isBinned buffer) true (metadata buffer).

Definition cropAndCompress (c : RawBufferStreamer) (buffer : RawImageBuffer)
    : RawImageBuffer :=
  let bs := bytes (lock (data buffer)) in
  match pixelFormat buffer with
  | PixelFormat.RAW10 =>
      cropAndCompress_finish c buffer (cropAndCompress_loop RAW10 c buffer bs)
  | PixelFormat.RAW12 =>
      cropAndCompress_finish c buffer (cropAndCompress_loop RAW12 c buffer bs)
  | PixelFormat.RAW16 =>
      cropAndCompress_finish c buffer (cropAndCompress_loop RAW16 c buffer bs)
  | PixelFormat.Other _ =>
      (* Not supported *)
      setData buffer (unlock (lock (data buffer)))
  end.

(** *** crop *)

(** The row loops of the RAW10 and RAW12 branches: a byte-wise
    [memmove] per row.  Both branches compute the source column offset
    [xstart] as [10*horizontalCrop/8]. *)
Definition crop_move_body (rowStride croppedRowStride ystart xstart : Z)
    (y : Z) (bs : list Z) : list Z :=
  let srcOffset := rowStride * y in
  let dstOffset := croppedRowStride * (y - ystart) in
  memmove bs dstOffset (srcOffset + xstart) croppedRowStride.

Definition crop_RAW10_loop (c : RawBufferStreamer) (buffer : RawImageBuffer)
    (bs : list Z) : list Z :=
  let ystart := verticalCrop c buffer in
  let yend := height buffer - ystart in
  let croppedRowStride := Z.quot (10 * croppedWidth c buffer) 8 in
  for_range ystart yend 1
    (crop_move_body (rowStride buffer) croppedRowStride ystart
       (Z.quot (10 * horizontalCrop c buffer) 8))
    bs.

Definition crop_RAW12_loop (c : RawBufferStreamer) (buffer : RawImageBuffer)
    (bs : list Z) : list Z :=
  let ystart := verticalCrop c buffer in
  let yend := height buffer - ystart in
  let croppedRowStride := Z.quot (12 * croppedWidth c buffer) 8 in
  for_range ystart yend 1
    (crop_move_body (rowStride buffer) croppedRowStride ystart
       (Z.quot (10 * horizontalCrop c buffer) 8))
    bs.

(** The RAW16 branch packs into RAW12 while it crops; the state of both
    loops is the byte region and [dstOffset]. *)
Definition crop_RAW16_body (rowStride y : Z) (x : Z) (s : list Z * Z)
    : list Z * Z :=
  let '(data, dstOffset) := s in
  let p0 := RAW16 data x y rowStride in
  let p1 := RAW16 data (x + 1) y rowStride in
  let upper :=
    Z.lor (u8 (Z.land p0 15)) (u8 (Z.shiftl (Z.land p1 15) 4)) in
  let data := store data dstOffset (u8 (Z.shiftr p0 4)) in
  let data := store data (dstOffset + 1) (u8 (Z.shiftr p1 4)) in
  let data := store data (dstOffset + 2) upper in
  (data, dstOffset + 3).

Definition crop_RAW16_loop (c : RawBufferStreamer) (buffer : RawImageBuffer)
    (bs : list Z) : list Z :=
  let ystart := verticalCrop c buffer in
  let yend := height buffer - ystart in
  fst (for_range ystart yend 1
         (fun y =>
            for_range (horizontalCrop c buffer)
              (width buffer - horizontalCrop c buffer) 2
              (crop_RAW16_body (rowStride buffer) y))
         (bs, 0)).

Definition crop_finish (c : RawBufferStreamer) (buffer : RawImageBuffer)
    (bs : list Z) (croppedRowStride : Z) (fmt : PixelFormat.t)
    : RawImageBuffer :=
  let d := unlock (setBytes (lock (data buffer)) bs) in
  mkRawImageBuffer
    (setValidRange d 0 (croppedRowStride * croppedHeight c buffer))
    (croppedWidth c buffer) (croppedHeight c buffer) croppedRowStride
    fmt CompressionType.UNCOMPRESSED (isBinned buffer) false
    (metadata buffer).

Definition crop (c : RawBufferStreamer) (buffer : RawImageBuffer)
    : RawImageBuffer :=
  if (mCropWidth c =? 0) && (mCropHeight c =? 0)
     && negb (PixelFormat.eqb (pixelFormat buffer) PixelFormat.RAW16)
  then
    (* Nothing to do *)
    buffer
  else
    let bs := bytes (lock (data buffer)) in
    match pixelFormat buffer with
    | PixelFormat.RAW10 =>
        crop_finish c buffer (crop_RAW10_loop c buffer bs)
          (Z.quot (10 * croppedWidth c buffer) 8) PixelFormat.RAW10
    | PixelFormat.RAW12 =>
        crop_finish c buffer (crop_RAW12_loop c buffer bs)
          (Z.quot (12 * croppedWidth c buffer) 8) PixelFormat.RAW12
    | PixelFormat.RAW16 =>
        crop_finish c buffer (crop_RAW16_loop c buffer bs)
          (Z.quot (12 * croppedWidth c buffer) 8) PixelFormat.RAW12
    | PixelFormat.Other _ =>
        (* Not supported *)
        setData buffer (unlock (lock (data buffer)))
    end.

(** *** processBuffer *)
Definition processBuffer (c : RawBufferStreamer) (buffer : RawImageBuffer)
    : RawImageBuffer :=
  if mBin c then cropAndBin c buffer
  else if mEnableCompression c then cropAndCompress c buffer
  else crop c buffer.

(** *** The setters and [add] *)
Definition setCropAmount (c : RawBufferStreamer) (width height : Z)
    : RawBufferStreamer :=
  (* Only allow cropping when not running *)
  if negb (mRunning c) then
    mkRawBufferStreamer (mRunning c) height width (mBin c)
      (mEnableCompression c) (mWrittenFrames c) (mAcceptedFrames c)
      (mWrittenBytes c) (mUnprocessedBuffers c) (mReadyBuffers c)
  else c.

Definition setBin (c : RawBufferStreamer) (bin : bool) : RawBufferStreamer :=
  mkRawBufferStreamer (mRunning c) (mCropHeight c) (mCropWidth c) bin
    (mEnableCompression c) (mWrittenFrames c) (mAcceptedFrames c)
    (mWrittenBytes c) (mUnprocessedBuffers c) (mReadyBuffers c).

Definition add (c : RawBufferStreamer) (frame : RawImageBuffer)
    : RawBufferStreamer :=
  mkRawBufferStreamer (mRunning c) (mCropHeight c) (mCropWidth c) (mBin c)
    (mEnableCompression c) (mWrittenFrames c) (mAcceptedFrames c + 1)
    (mWrittenBytes c) (mUnprocessedBuffers c ++ [frame]) (mReadyBuffers c).

End Transforms.

(** ** The streaming pipeline

    [doProcess] and [doStream] run on threads of their own.  The model is an
    interleaving of atomic steps: every step is one access to the shared
    state (the [running] flag or one of the two concurrent queues) together
    with the thread-local code that follows it. *)
Module Pipeline.
Section Model.

Context {Metadata : Type}.
Variable encodeFunc : list Z -> list Z.

Local Abbreviation Buffer := (@RawImageBuffer Metadata).
Local Abbreviation Streamer := (@RawBufferStreamer Metadata).

(** Where a [doProcess] thread stands. *)
Inductive process_pc : Type :=
| PLoop                 (* about to test [while(mRunning)] *)
| PWait                 (* inside the loop, about to call [wait_dequeue_timed] *)
| PHold (b : Buffer)    (* dequeued [b], about to process and enqueue it *)
| PDone.                (* left the loop: the thread can be joined *)

(** Where a [doStream] thread stands. *)
Inductive stream_pc : Type :=
| WLoop                 (* about to test [while(mRunning)] *)
| WWait                 (* about to call [wait_dequeue_timed] on the ready queue *)
| WFlushReady           (* [while(mReadyBuffers.try_dequeue(buffer))] *)
| WFlushUnprocessed     (* [while(mUnprocessedBuffers.try_dequeue(buffer))] *)
| WCommit               (* about to call [container->commit()] *)
| WDone.

(** A [doStream] thread with its container: the frames added to it, in
    order, and whether it has been committed. *)
Record io_thread : Type := mkIo {
  pc : stream_pc;
  container : list Buffer;
  committed : bool
}.

(** [transformed] is not a field of the class: it counts the calls of
    [processBuffer] that have returned. *)
Record state : Type := mkState {
  streamer : Streamer;
  processThreads : list process_pc;
  ioThreads : list io_thread;
  transformed : Z
}.

Definition setRunning (c : Streamer) (r : bool) : Streamer :=
  mkRawBufferStreamer r (mCropHeight c) (mCropWidth c) (mBin c)
    (mEnableCompression c) (mWrittenFrames c) (mAcceptedFrames c)
    (mWrittenBytes c) (mUnprocessedBuffers c) (mReadyBuffers c).

Definition setUnprocessed (c : Streamer) (q : list Buffer) : Streamer :=
  mkRawBufferStreamer (mRunning c) (mCropHeight c) (mCropWidth c) (mBin c)
    (mEnableCompression c) (mWrittenFrames c) (mAcceptedFrames c)
    (mWrittenBytes c) q (mReadyBuffers c).

Definition setReady (c : Streamer) (q : list Buffer) : Streamer :=
  mkRawBufferStreamer (mRunning c) (mCropHeight c) (mCropWidth c) (mBin c)
    (mEnableCompression c) (mWrittenFrames c) (mAcceptedFrames c)
    (mWrittenBytes c) (mUnprocessedBuffers c) q.

(** [mWrittenBytes += (end - start); mWrittenFrames++]. *)
Definition account (c : Streamer) (b : Buffer) : Streamer :=
  let '(s, e) := validRange (data b) in
  mkRawBufferStreamer (mRunning c) (mCropHeight c) (mCropWidth c) (mBin c)
    (mEnableCompression c) (mWrittenFrames c + 1) (mAcceptedFrames c)
    (mWrittenBytes c + (e - s)) (mUnprocessedBuffers c) (mReadyBuffers c).

(** The constructor [RawBufferStreamer::RawBufferStreamer()]. *)
Definition new_streamer : Streamer :=
  mkRawBufferStreamer false 0 0 false false 0 0 0 [] [].

(** [start], after its call of [stop()] has returned: [numFds] is
    [fds.size()].  With no descriptor nothing is started. *)
Definition start (c : Streamer) (numFds : nat) (enableCompression : bool)
    (numThreads : Z) : state :=
  match numFds with
  | O => mkState (setRunning c false) [] [] 0
  | _ =>
      mkState
        (mkRawBufferStreamer true (mCropHeight c) (mCropWidth c) (mBin c)
           enableCompression 0 0 0
           (mUnprocessedBuffers c) (mReadyBuffers c))
        (replicate (Z.to_nat (Z.max numThreads 1)) PLoop)
        (replicate numFds (mkIo WLoop [] false))
        0
  end.

(** One step of [doProcess] on thread [i]. *)
Definition doProcess_step (i : nat) (st : state) : state :=
  let c := streamer st in
  match processThreads st !! i with
  | Some PLoop =>
      mkState c
        (<[i := if mRunning c then PWait else PDone]> (processThreads st))
        (ioThreads st) (transformed st)
  | Some PWait =>
      match mUnprocessedBuffers c with
      | b :: q =>
          mkState (setUnprocessed c q)
            (<[i := PHold b]> (processThreads st))
            (ioThreads st) (transformed st)
      | [] =>
          (* timed out: [continue] *)
          mkState c (<[i := PLoop]> (processThreads st))
            (ioThreads st) (transformed st)
      end
  | Some (PHold b) =>
      let b' := processBuffer encodeFunc c b in
      mkState (setReady c (mReadyBuffers c ++ [b']))
        (<[i := PLoop]> (processThreads st))
        (ioThreads st) (transformed st + 1)
  | Some PDone | None => st
  end.

(** [container->add] of the buffer followed by the accounting, on the
    thread [w] that is moved to [next]. *)
Definition write_frame (w : io_thread) (next : stream_pc) (b : Buffer)
    : io_thread :=
  mkIo next (container w ++ [b]) (committed w).

(** One step of [doStream] on thread [j]. *)
Definition doStream_step (j : nat) (st : state) : state :=
  let c := streamer st in
  match ioThreads st !! j with
  | Some w =>
      match pc w with
      | WLoop =>
          mkState c (processThreads st)
            (<[j := mkIo (if mRunning c then WWait else WFlushReady)
                      (container w) (committed w)]> (ioThreads st))
            (transformed st)
      | WWait =>
          match mReadyBuffers c with
          | b :: q =>
              mkState (account (setReady c q) b) (processThreads st)
                (<[j := write_frame w WLoop b]> (ioThreads st))
                (transformed st)
          | [] =>
              mkState c (processThreads st)
                (<[j := mkIo WLoop (container w) (committed w)]>
                   (ioThreads st))
                (transformed st)
          end
      | WFlushReady =>
          match mReadyBuffers c with
          | b :: q =>
              mkState (account (setReady c q) b) (processThreads st)
                (<[j := write_frame w WFlushReady b]> (ioThreads st))
                (transformed st)
          | [] =>
              mkState c (processThreads st)
                (<[j := mkIo WFlushUnprocessed (container w) (committed w)]>
                   (ioThreads st))
                (transformed st)
          end
      | WFlushUnprocessed =>
          match mUnprocessedBuffers c with
          | b :: q =>
              let b' := processBuffer encodeFunc c b in
              mkState (account (setUnprocessed c q) b') (processThreads st)
                (<[j := write_frame w WFlushUnprocessed b']> (ioThreads st))
                (transformed st + 1)
          | [] =>
              mkState c (processThreads st)
                (<[j := mkIo WCommit (container w) (committed w)]>
                   (ioThreads st))
                (transformed st)
          end
      | WCommit =>
          mkState c (processThreads st)
            (<[j := mkIo WDone (container w) true]> (ioThreads st))
            (transformed st)
      | WDone => st
      end
  | None => st
  end.

(** What can happen next: the producer calls [add], the caller's [stop()]
    clears [mRunning] (it then only waits for the threads), one of the
    threads takes a step, or a caller changes the settings with [setBin] or
    [setCropAmount], which take no lock and can come between any two steps
    of the threads. *)
Inductive action : Type :=
| Add (frame : Buffer)
| Stop
| Process (i : nat)
| Stream (j : nat)
| SetBin (bin : bool)
| SetCropAmount (width height : Z).

Definition step (a : action) (st : state) : state :=
  match a with
  | Add frame =>
      mkState (add (streamer st) frame) (processThreads st) (ioThreads st)
        (transformed st)
  | Stop =>
      mkState (setRunning (streamer st) false) (processThreads st)
        (ioThreads st) (transformed st)
  | Process i => doProcess_step i st
  | Stream j => doStream_step j st
  | SetBin bin =>
      mkState (setBin (streamer st) bin) (processThreads st) (ioThreads st)
        (transformed st)
  | SetCropAmount width height =>
      mkState (setCropAmount (streamer st) width height) (processThreads st)
        (ioThreads st) (transformed st)
  end.

Definition run (tr : list action) (st : state) : state :=
  fold_left (fun s a => step a s) tr st.

(** The frames the producer has submitted in a run. *)
Definition submitted (tr : list action) : list Buffer :=
  omap (fun a => match a with Add f => Some f | _ => None end) tr.

(** Every [Add] of the run comes before its first [Stop]. *)
Fixpoint adds_before_stop (tr : list action) : bool :=
  match tr with
  | [] => true
  | Stop :: tr' =>
      forallb (fun a => match a with Add _ => false | _ => true end) tr'
  | _ :: tr' => adds_before_stop tr'
  end.

Definition process_done (p : process_pc) : bool :=
  match p with PDone => true | _ => false end.

Definition stream_done (w : io_thread) : bool :=
  match pc w with WDone => true | _ => false end.

(** All threads have returned: [stop()] has joined them. *)
Definition joined (st : state) : bool :=
  forallb process_done (processThreads st)
  && forallb stream_done (ioThreads st).

(** The frames a [doProcess] thread holds between dequeue and enqueue. *)
Definition held (ps : list process_pc) : list Buffer :=
  omap (fun p => match p with PHold b => Some b | _ => None end) ps.

(** The frames written, over all containers. *)
Definition written (st : state) : list Buffer :=
  concat (map container (ioThreads st)).

End Model.
End Pipeline.

(** * Definitions used by the statements

    Loop invariants, the reference formulas of the specification, and
    sample inputs. *)

(** The three bytes of the RAW12 group that holds the samples [p0], [p1]. *)
Definition grp12 (p0 p1 : Z) (k : Z) : Z :=
  if k =? 0 then u8 (Z.shiftr p0 4)
  else if k =? 1 then u8 (Z.shiftr p1 4)
  else Z.lor (u8 (Z.land p0 15)) (u8 (Z.shiftl (Z.land p1 15) 4)).

(** Invariant of the loop of [pack_RAW12] after [j] iterations, started on
    the region [data0] at offset [off0]: groups [0 .. j) are in place, the
    rest of the region is as it was. *)
Definition packed12_inv (row : list Z) (n : Z) (data0 : list Z) (off0 : Z)
    (j : Z) (s : list Z * Z) : Prop :=
  0 <= j /\
  snd s = off0 + 3 * j /\
  length (fst s) = length data0 /\
  (forall a, a < off0 \/ off0 + 3 * j <= a -> load (fst s) a = load data0 a) /\
  (forall g k, 0 <= g < j -> 0 <= k < 3 ->
     load (fst s) (off0 + 3 * g + k) = grp12 (vget row g) (vget row (g + n)) k).

(** Every element of the region is a byte. *)
Definition is_bytes (data : list Z) : Prop :=
  Forall (fun b => 0 <= b < 256) data.

(** ** The binning formula of the specification

    "a separable 3x3 weighted sum with weights [[1,2,1],[2,4,2],[1,2,1]]
    over the like-colour neighbourhood (pixels at -2, 0, +2 in x and y),
    divided by 16; the left/top neighbour index is clamped to 0, the
    right/bottom one is (i+2) % width (resp. height)". *)
Definition kernel_weights : list (list Z) := [[1; 2; 1]; [2; 4; 2]; [1; 2; 1]].

Definition sumZ (l : list Z) : Z := foldr Z.add 0 l.

Definition weighted_sum (read : list Z -> Z -> Z -> Z -> Z) (data : list Z)
    (width height rowStride ix iy : Z) : Z :=
  let xs := [Z.max 0 (ix - 2); ix; (ix + 2) mod width] in
  let ys := [Z.max 0 (iy - 2); iy; (iy + 2) mod height] in
  sumZ (zip_with
          (fun y wrow =>
             sumZ (zip_with (fun x w => w * read data x y rowStride) xs wrow))
          ys kernel_weights).

Definition binned_reference (read : list Z -> Z -> Z -> Z -> Z)
    (data : list Z) (width height rowStride ix iy : Z) : Z :=
  weighted_sum read data width height rowStride ix iy / 16.

(** The two rows that the block loop has filled hold, column-split as
    [even || odd], the reference samples of the [half] blocks of image rows
    [y] and [y+1]. *)
Definition block_samples_match (read : list Z -> Z -> Z -> Z -> Z)
    (rows : list Z * list Z) (data : list Z)
    (width height rowStride xstart half y : Z) : Prop :=
  forall X, 0 <= X < half ->
    let ref := binned_reference read data width height rowStride in
    vget (fst rows) X = ref (xstart + 4 * X) y /\
    vget (fst rows) (X + half) = ref (xstart + 4 * X + 1) y /\
    vget (snd rows) X = ref (xstart + 4 * X) (y + 1) /\
    vget (snd rows) (X + half) = ref (xstart + 4 * X + 1) (y + 1).

(** Invariant of the block loop [bin_rows] when it stands at column [j]. *)
Definition bin_rows_inv (read : list Z -> Z -> Z -> Z -> Z) (data : list Z)
    (width height rowStride xstart half y : Z)
    (j : Z) (rows : list Z * list Z) : Prop :=
  xstart <= j /\ (j - xstart) mod 4 = 0 /\
  Z.of_nat (length (fst rows)) = 2 * half /\
  Z.of_nat (length (snd rows)) = 2 * half /\
  forall X, 0 <= X -> xstart + 4 * X < j ->
    let sample := bin_sample read data width height rowStride in
    vget (fst rows) X = sample (xstart + 4 * X) y /\
    vget (fst rows) (X + half) = sample (xstart + 4 * X + 1) y /\
    vget (snd rows) X = sample (xstart + 4 * X) (y + 1) /\
    vget (snd rows) (X + half) = sample (xstart + 4 * X + 1) (y + 1).

(** A RAW16 frame of 4x4 samples, all equal to 0x4000 (little-endian). *)
Definition bright_RAW16_4x4 : list Z := concat (replicate 16 [0; 64]).

(** The same samples as a frame at rest: 4x4 pixels, 8 bytes per row. *)
Definition bright_RAW16_frame : @RawImageBuffer unit :=
  mkRawImageBuffer (mkNativeBuffer bright_RAW16_4x4 (0, 32) false 0)
    4 4 8 PixelFormat.RAW16 CompressionType.UNCOMPRESSED false false tt.

(** ** Frames compared field by field *)

(** [b'] has the data bytes, valid range, dimensions, stride, format,
    compression, flags and metadata of [b]. *)
Definition same_frame {Metadata : Type} (b b' : @RawImageBuffer Metadata)
    : Prop :=
  bytes (data b') = bytes (data b) /\
  validRange (data b') = validRange (data b) /\
  width b' = width b /\
  height b' = height b /\
  rowStride b' = rowStride b /\
  pixelFormat b' = pixelFormat b /\
  compressionType b' = compressionType b /\
  isBinned b' = isBinned b /\
  isCompressed b' = isCompressed b /\
  metadata b' = metadata b.

(** ** Sample inputs *)

(** The bytes 0, 1, 2, ... (modulo 256). *)
Definition sample_region (n : nat) : list Z :=
  map (fun k => Z.of_nat k mod 256) (seq 0 n).

(** An unlocked, uncompressed frame of [w] x [h] pixels with [stride] bytes
    per row. *)
Definition sample_buffer (fmt : PixelFormat.t) (w h stride : Z)
    : @RawImageBuffer unit :=
  mkRawImageBuffer
    (mkNativeBuffer (sample_region (Z.to_nat (stride * h))) (0, stride * h)
       false 0)
    w h stride fmt CompressionType.UNCOMPRESSED false false tt.


(** A streamer that is not running, with the given configuration. *)
Definition sample_streamer (cropWidth cropHeight : Z) (bin compress : bool)
    : @RawBufferStreamer unit :=
  mkRawBufferStreamer false cropHeight cropWidth bin compress 0 0 0 [] [].

(** A stand-in for the row codec, used to run the transforms on the sample
    inputs: two bytes per sample, little-endian. *)
Definition two_byte_codec (row : list Z) : list Z :=
  flat_map (fun v => [Z.land v 255; Z.shiftr v 8]) row.

(** ** Cropping *)

(** The position of a pixel in the 2x2 Bayer mosaic. *)
Definition bayer_phase (x y : Z) : Z * Z := (x mod 2, y mod 2).

(** The width after cropping as the specification gives it:
    [width - 2*floor(cropWidth% * width / 2 / 4)*4]. *)
Definition claimed_newWidth (cropWidth width : Z) : Z :=
  width - 2 * (cropWidth * width / (100 * 2 * 4)) * 4.

(** ** Compressing row by row *)

(** The read primitive that the transforms apply to a frame of a supported
    format. *)
Definition reader_of (fmt : PixelFormat.t) : list Z -> Z -> Z -> Z -> Z :=
  match fmt with
  | PixelFormat.RAW10 => RAW10
  | PixelFormat.RAW12 => RAW12
  | _ => RAW16
  end.

(** Row [y] of the crop window that starts at column [xstart] and is
    [2*half] pixels wide, rearranged as
    [even-column samples || odd-column samples]. *)
Definition split_reference (read : list Z -> Z -> Z -> Z -> Z)
    (data : list Z) (rowStride xstart half y : Z) : list Z :=
  map (fun X => read data (xstart + 2 * X) y rowStride) (seqZ 0 half) ++
  map (fun X => read data (xstart + 2 * X + 1) y rowStride) (seqZ 0 half).

(** One row after the other is split, encoded and written at the running
    offset, which grows by the encoded length. *)
Definition compress_rows_reference (encodeFunc : list Z -> list Z)
    (read : list Z -> Z -> Z -> Z -> Z) (rowStride xstart half : Z)
    (ys : list Z) (mem : list Z * Z) : list Z * Z :=
  fold_left
    (fun mem y =>
       let out :=
         encodeFunc (split_reference read (fst mem) rowStride xstart half y) in
       (write_bytes (fst mem) (snd mem) out,
        snd mem + Z.of_nat (length out)))
    ys mem.

(** ** Frames in the pipeline *)

(** The frames that are in the pipeline and not yet written: in the
    unprocessed queue, held by a [doProcess] thread, or in the ready queue. *)
Definition in_flight {Metadata : Type} (st : @Pipeline.state Metadata)
    : list (@RawImageBuffer Metadata) :=
  mUnprocessedBuffers (Pipeline.streamer st)
  ++ Pipeline.held (Pipeline.processThreads st)
  ++ mReadyBuffers (Pipeline.streamer st).

(** [frames], the frames submitted so far, are accounted for: each of them
    (told apart by its metadata, which carries the timestamp) is in flight or
    has been written to one container, once; [mWrittenFrames] counts the
    frames written, and every frame that has completed [processBuffer] is in
    the ready queue or has been written. *)
Definition conserved {Metadata : Type}
    (frames : list (@RawImageBuffer Metadata))
    (st : @Pipeline.state Metadata) : Prop :=
  mWrittenFrames (Pipeline.streamer st)
  = Z.of_nat (length (Pipeline.written st)) /\
  Pipeline.transformed st
  = Z.of_nat (length (mReadyBuffers (Pipeline.streamer st)))
    + Z.of_nat (length (Pipeline.written st)) /\
  metadata <$> frames ≡ₚ metadata <$> (in_flight st ++ Pipeline.written st).

(** The schedule on which a frame is left behind: the frame is submitted, a
    [doProcess] thread dequeues it, [stop()] clears [mRunning], the only
    [doStream] thread finds both queues empty, commits and returns, and only
    then the [doProcess] thread finishes [processBuffer] and enqueues the
    frame on the ready queue. *)
Definition stranding_schedule {Metadata : Type}
    (frame : @RawImageBuffer Metadata) : list Pipeline.action :=
  [ Pipeline.Add frame;
    Pipeline.Process 0; Pipeline.Process 0;
    Pipeline.Stop;
    Pipeline.Stream 0; Pipeline.Stream 0; Pipeline.Stream 0; Pipeline.Stream 0;
    Pipeline.Process 0; Pipeline.Process 0 ].

(** ** Cropping a RAW16 frame into RAW12 *)

(** The [k]-th pair of samples, in raster order, of the crop window of
    [2*half] columns that starts at column [hc] and row [vc]. *)
Definition pair16 (d0 : list Z) (rowStride hc vc half : Z) (k : Z) : Z * Z :=
  let y := vc + k / half in
  let x := hc + 2 * (k mod half) in
  (RAW16 d0 x y rowStride, RAW16 d0 (x + 1) y rowStride).

(** Invariant of the loops of the RAW16 branch of [crop] after [n] pairs:
    the first [n] RAW12 groups hold the first [n] pairs of the original
    region [d0], and the region from byte [3*n] on is still the original. *)
Definition packed16_inv (d0 : list Z) (rowStride hc vc half : Z)
    (n : Z) (s : list Z * Z) : Prop :=
  snd s = 3 * n /\
  length (fst s) = length d0 /\
  (forall a, 3 * n <= a -> load (fst s) a = load d0 a) /\
  (forall k t, 0 <= k < n -> 0 <= t < 3 ->
     load (fst s) (3 * k + t)
     = grp12 (fst (pair16 d0 rowStride hc vc half k))
             (snd (pair16 d0 rowStride hc vc half k)) t).

(** As [compress_rows_reference], but with every row taken from the
    original region [d0] instead of the region as it is when the row is
    reached. *)
Definition compress_rows_original (encodeFunc : list Z -> list Z)
    (read : list Z -> Z -> Z -> Z -> Z) (d0 : list Z)
    (rowStride xstart half : Z)
    (ys : list Z) (mem : list Z * Z) : list Z * Z :=
  fold_left
    (fun mem y =>
       let out :=
         encodeFunc (split_reference read d0 rowStride xstart half y) in
       (write_bytes (fst mem) (snd mem) out,
        snd mem + Z.of_nat (length out)))
    ys mem.

(** ** Binning a whole frame *)

(** The sample of the binned frame at column [x'] and row [y']: the
    reference sample at the pixel of the same colour in the 4x4 block
    [(x'/2, y'/2)] of the crop window that starts at [(hc, vc)]. *)
Definition binned_pixel (read : list Z -> Z -> Z -> Z -> Z) (d0 : list Z)
    (width height rowStride hc vc : Z) (x' y' : Z) : Z :=
  binned_reference read d0 width height rowStride
    (hc + 4 * (x' / 2) + x' mod 2) (vc + 4 * (y' / 2) + y' mod 2).

(** Invariant of the block-row loop of [cropAndBin_RAW12] and
    [cropAndBin_RAW16] without compression, after [k] block rows of a crop
    window of [4*half] columns: the first [2*k] packed rows hold the binned
    samples of the original region [d0], and the region from the current
    offset on is still the original. *)
Definition binned_inv (read : list Z -> Z -> Z -> Z -> Z) (d0 : list Z)
    (width height rowStride hc vc half : Z)
    (k : Z) (s : (list Z * list Z) * (list Z * Z)) : Prop :=
  Z.of_nat (length (fst (fst s))) = 2 * half /\
  Z.of_nat (length (snd (fst s))) = 2 * half /\
  snd (snd s) = 6 * half * k /\
  length (fst (snd s)) = length d0 /\
  (forall a, 6 * half * k <= a -> load (fst (snd s)) a = load d0 a) /\
  (forall r g t, 0 <= r < 2 * k -> 0 <= g < half -> 0 <= t < 3 ->
     load (fst (snd s)) (3 * half * r + 3 * g + t)
     = grp12 (binned_pixel read d0 width height rowStride hc vc (2 * g) r)
             (binned_pixel read d0 width height rowStride hc vc (2 * g + 1) r)
             t).

(** ** Definitions for the further properties *)

(** A RAW16 frame of 4x4 samples, all equal to 0x1000 (little-endian). *)
Definition flat_RAW16_4x4 : list Z := concat (replicate 16 [0; 16]).

(** The low-bit byte of a RAW10 group as the packing loop of
    [cropAndBin_RAW10] builds it from four samples. *)
Definition low10 (a b c d : Z) : Z :=
  Z.lor (Z.lor (Z.lor
    (u8 (Z.land a 3))
    (u8 (Z.shiftl (Z.land b 3) 2)))
    (u8 (Z.shiftl (Z.land c 3) 4)))
    (u8 (Z.shiftl (Z.land d 3) 6)).

(** The five bytes of the [g]-th RAW10 group that the packing loop writes
    for a column-split row with halves of [n] samples. *)
Definition grp10 (row : list Z) (n g : Z) (k : Z) : Z :=
  if k =? 0 then u8 (Z.shiftr (vget row (2 * g)) 2)
  else if k =? 1 then u8 (Z.shiftr (vget row (2 * g + n)) 2)
  else if k =? 2 then u8 (Z.shiftr (vget row (2 * g + 1)) 2)
  else if k =? 3 then u8 (Z.shiftr (vget row (2 * g + n + 1)) 2)
  else low10 (vget row (2 * g)) (vget row (2 * g + 1))
             (vget row (2 * g + 2)) (vget row (2 * g + 3)).

(** Invariant of the loop of [pack_RAW10] when it stands at index [j],
    started on the region [data0] at offset [off0]: the groups below [j/2]
    are in place, the rest of the region is as it was. *)
Definition packed10_inv (row : list Z) (n : Z) (data0 : list Z) (off0 : Z)
    (j : Z) (s : list Z * Z) : Prop :=
  0 <= j /\ j mod 2 = 0 /\
  snd s = off0 + 5 * (j / 2) /\
  length (fst s) = length data0 /\
  (forall a, a < off0 \/ off0 + 5 * (j / 2) <= a ->
     load (fst s) a = load data0 a) /\
  (forall g k, 0 <= g -> 2 * g < j -> 0 <= k < 5 ->
     load (fst s) (off0 + 5 * g + k) = grp10 row n g k).

(** The settings of the streamer that [processBuffer] reads. *)
Definition config {Metadata : Type} (c : @RawBufferStreamer Metadata)
    : bool * bool * Z * Z :=
  (mBin c, mEnableCompression c, mCropWidth c, mCropHeight c).

(** [end - start] of the valid range of a frame, as [doStream] adds it to
    [mWrittenBytes]. *)
Definition valid_bytes {Metadata : Type} (b : @RawImageBuffer Metadata) : Z :=
  snd (validRange (data b)) - fst (validRange (data b)).

(** The counters agree with what has happened: [n] frames have been
    submitted, and [mWrittenBytes] is the sum of the valid ranges of the
    frames written. *)
Definition counted {Metadata : Type} (n : nat)
    (st : @Pipeline.state Metadata) : Prop :=
  mAcceptedFrames (Pipeline.streamer st) = Z.of_nat n /\
  mWrittenBytes (Pipeline.streamer st)
  = sumZ (valid_bytes <$> Pipeline.written st).

(** The settings are those of [c0], and there are frames [done] such that
    the submitted [frames] are those of the unprocessed queue, those held
    by a [doProcess] thread and [done], while the ready queue and the
    containers hold [processBuffer] of each frame of [done]. *)
Definition processed_once {Metadata : Type} (encodeFunc : list Z -> list Z)
    (c0 : @RawBufferStreamer Metadata)
    (frames : list (@RawImageBuffer Metadata))
    (st : @Pipeline.state Metadata) : Prop :=
  config (Pipeline.streamer st) = config c0 /\
  exists done,
    frames ≡ₚ mUnprocessedBuffers (Pipeline.streamer st)
               ++ Pipeline.held (Pipeline.processThreads st) ++ done /\
    mReadyBuffers (Pipeline.streamer st) ++ Pipeline.written st
    ≡ₚ processBuffer encodeFunc c0 <$> done.


(** No [Stop] among the actions. *)
Definition no_stop {Metadata : Type}
    (tr : list (@Pipeline.action Metadata)) : bool :=
  forallb (fun a => match a with Pipeline.Stop => false | _ => true end) tr.

(** No [Add] among the actions. *)
Definition no_add {Metadata : Type}
    (tr : list (@Pipeline.action Metadata)) : bool :=
  forallb (fun a => match a with Pipeline.Add _ => false | _ => true end) tr.

(** Neither [setBin] nor [setCropAmount] among the actions. *)
Definition settings_untouched {Metadata : Type}
    (tr : list (@Pipeline.action Metadata)) : bool :=
  forallb
    (fun a =>
       match a with
       | Pipeline.SetBin _ | Pipeline.SetCropAmount _ _ => false
       | _ => true
       end) tr.

(** The settings that only [start] and [setCropAmount] write. *)
Definition crop_settings {Metadata : Type} (c : @RawBufferStreamer Metadata)
    : bool * Z * Z :=
  (mEnableCompression c, mCropWidth c, mCropHeight c).

(** The writer is inside [while(mRunning)]. *)
Definition waiting_writer {Metadata : Type}
    (w : @Pipeline.io_thread Metadata) : bool :=
  match Pipeline.pc w with
  | Pipeline.WLoop | Pipeline.WWait => true
  | _ => false
  end.

(** The writer has left both flush loops. *)
Definition past_flush {Metadata : Type}
    (w : @Pipeline.io_thread Metadata) : bool :=
  match Pipeline.pc w with
  | Pipeline.WCommit | Pipeline.WDone => true
  | _ => false
  end.

(** There is a writer; while [mRunning] is set every writer is inside its
    loop; once a writer has left its flush loops the unprocessed queue is
    empty. *)
Definition shutdown_inv {Metadata : Type}
    (st : @Pipeline.state Metadata) : Prop :=
  Pipeline.ioThreads st <> [] /\
  forall k w, Pipeline.ioThreads st !! k = Some w ->
    if mRunning (Pipeline.streamer st) then waiting_writer w = true
    else past_flush w = true ->
         mUnprocessedBuffers (Pipeline.streamer st) = [].


(** [row] holds, column-split as [even || odd], the samples of row [r] of
    the binned frame, which is [2*half] pixels wide. *)
Definition binned_row_matches (read : list Z -> Z -> Z -> Z -> Z)
    (d0 : list Z) (width height rowStride hc vc half : Z)
    (r : Z) (row : list Z) : Prop :=
  forall X, 0 <= X < half ->
    vget row X
    = binned_pixel read d0 width height rowStride hc vc (2 * X) r /\
    vget row (X + half)
    = binned_pixel read d0 width height rowStride hc vc (2 * X + 1) r.

(** Invariant of the block-row loop of [cropAndBin_RAW10] without
    compression, after [k] block rows of a crop window of [8*m] columns:
    the first [2*k] packed rows are the RAW10 groups that the packing loop
    makes of the binned rows of the original region [d0], and the region
    from the current offset on is still the original. *)
Definition binned10_inv (d0 : list Z) (width height rowStride hc vc m : Z)
    (k : Z) (s : (list Z * list Z) * (list Z * Z)) : Prop :=
  Z.of_nat (length (fst (fst s))) = 4 * m /\
  Z.of_nat (length (snd (fst s))) = 4 * m /\
  snd (snd s) = 10 * m * k /\
  length (fst (snd s)) = length d0 /\
  (forall a, 10 * m * k <= a -> load (fst (snd s)) a = load d0 a) /\
  (forall r, 0 <= r < 2 * k ->
     exists row,
       binned_row_matches RAW10 d0 width height rowStride hc vc (2 * m) r row /\
       forall g t, 0 <= g < m -> 0 <= t < 5 ->
         load (fst (snd s)) (5 * m * r + 5 * g + t) = grp10 row (2 * m) g t).


(** The writer has not yet reached the loop that flushes the unprocessed
    queue. *)
Definition before_unprocessed {Metadata : Type}
    (w : @Pipeline.io_thread Metadata) : bool :=
  match Pipeline.pc w with
  | Pipeline.WLoop | Pipeline.WWait | Pipeline.WFlushReady => true
  | _ => false
  end.

(** The frames that the writer [w] can still come to write, in the order in
    which it would write them. *)
Definition pending_for {Metadata : Type} (st : @Pipeline.state Metadata)
    (w : @Pipeline.io_thread Metadata) : list (@RawImageBuffer Metadata) :=
  (if before_unprocessed w
   then mReadyBuffers (Pipeline.streamer st)
        ++ Pipeline.held (Pipeline.processThreads st)
   else [])
  ++ mUnprocessedBuffers (Pipeline.streamer st).

(** There is at most one [doProcess] thread, and for every writer the
    frames of its container followed by those it can still come to write
    are, by their metadata, a subsequence of the submitted [frames]. *)
Definition in_order {Metadata : Type}
    (frames : list (@RawImageBuffer Metadata))
    (st : @Pipeline.state Metadata) : Prop :=
  (length (Pipeline.processThreads st) <= 1)%nat /\
  forall j w, Pipeline.ioThreads st !! j = Some w ->
    metadata <$> (Pipeline.container w ++ pending_for st w)
    `sublist_of` metadata <$> frames.


(** The binned samples of image row [y] for the [half] blocks of a crop
    window that starts at column [xstart], column-split as
    [even || odd]. *)
Definition binned_row_reference (read : list Z -> Z -> Z -> Z -> Z)
    (data : list Z) (width height rowStride xstart half y : Z) : list Z :=
  map (fun X => bin_sample read data width height rowStride
                  (xstart + 4 * X) y) (seqZ 0 half) ++
  map (fun X => bin_sample read data width height rowStride
                  (xstart + 4 * X + 1) y) (seqZ 0 half).

(** One block row after the other: the binned rows [y] and [y+1] are taken
    from the region as it is, encoded, and written one after the other at
    the running offset. *)
Definition compress_blocks_reference (encodeFunc : list Z -> list Z)
    (read : list Z -> Z -> Z -> Z -> Z) (width height rowStride xstart half : Z)
    (ys : list Z) (mem : list Z * Z) : list Z * Z :=
  fold_left
    (fun mem y =>
       let r0 :=
         binned_row_reference read (fst mem) width height rowStride
           xstart half y in
       let r1 :=
         binned_row_reference read (fst mem) width height rowStride
           xstart half (y + 1) in
       encode_row encodeFunc r1 (encode_row encodeFunc r0 mem))
    ys mem.


(** * Lemmas and theorems *)

(** ** Arithmetic of the narrowing conversions and of the bit operations *)

Lemma u8_mod v : u8 v = v mod 256.
Proof.
  unfold u8. change 255 with (Z.ones 8). rewrite Z.land_ones by lia.
  reflexivity.
Qed.

Lemma u16_mod v : u16 v = v mod 65536.
Proof.
  unfold u16. change 65535 with (Z.ones 16). rewrite Z.land_ones by lia.
  reflexivity.
Qed.

(** An OR of a value shifted left by [k] with a value below [2^k] is their
    sum. *)
Lemma lor_shifted_add hi lo k :
  0 <= k -> 0 <= lo < 2 ^ k -> Z.lor (hi * 2 ^ k) lo = hi * 2 ^ k + lo.
Proof.
  intros Hk Hlo.
  rewrite <- Z.lxor_lor, <- Z.add_nocarry_lxor; try reflexivity.
  all: apply Z.bits_inj'; intros n Hn; rewrite Z.land_spec, Z.bits_0.
  all: destruct (Z.lt_ge_cases n k).
  all: try (rewrite Z.mul_pow2_bits_low by lia; reflexivity).
  all: destruct (Z.eq_dec lo 0) as [-> | ]; [rewrite Z.bits_0; apply andb_false_r|].
  all: rewrite (Z.bits_above_log2 lo n); [apply andb_false_r|lia|].
  all: apply Z.log2_lt_pow2; try lia.
  all: apply Z.lt_le_trans with (2^k); try lia; apply Z.pow_le_mono_r; lia.
Qed.

(** ** Reading and writing the byte region *)

Lemma load_store_eq d i v :
  0 <= i < Z.of_nat (length d) -> load (store d i v) i = v.
Proof.
  intros H. unfold load, store. destruct (Z.leb_spec 0 i); [|lia].
  rewrite list_lookup_insert_eq by lia. reflexivity.
Qed.

Lemma load_store_ne d i k v : k <> i -> load (store d i v) k = load d k.
Proof.
  intros H. unfold load, store. destruct (Z.leb_spec 0 i); [|reflexivity].
  destruct (Z.leb_spec 0 k); [|reflexivity].
  rewrite list_lookup_insert_ne by lia. reflexivity.
Qed.

Lemma length_store d i v : length (store d i v) = length d.
Proof. unfold store. destruct (0 <=? i); [apply length_insert|reflexivity]. Qed.

(** ** Loops

    A loop that is given enough fuel runs until its index reaches [stop], and
    an invariant of its body holds of the final state. *)
Lemma for_loop_inv {St : Type} (P : Z -> St -> Prop) (stop step : Z)
    (body : Z -> St -> St) :
  0 < step ->
  (forall j s, j < stop -> P j s -> P (j + step) (body j s)) ->
  forall fuel i s,
    stop - i <= Z.of_nat fuel -> P i s ->
    exists j, stop <= j /\ (j = i \/ j - step < stop) /\
              P j (for_loop fuel i stop step body s).
Proof.
  intros Hstep Hbody fuel.
  induction fuel as [|fuel IH]; intros i s Hfuel HP; simpl.
  - exists i. split; [lia|]. split; [now left|assumption].
  - destruct (Z.ltb_spec i stop) as [Hlt|Hge].
    + destruct (IH (i + step) (body i s)) as (j & Hj1 & Hj2 & Hj3);
        [lia|auto|].
      exists j. split; [assumption|]. split; [right; lia|assumption].
    + exists i. split; [lia|]. split; [now left|assumption].
Qed.

Lemma for_range_inv {St : Type} (P : Z -> St -> Prop) (start stop step : Z)
    (body : Z -> St -> St) (s : St) :
  0 < step ->
  P start s ->
  (forall j s, j < stop -> P j s -> P (j + step) (body j s)) ->
  exists j, stop <= j /\ (j = start \/ j - step < stop) /\
            P j (for_range start stop step body s).
Proof.
  intros Hstep HP Hbody. unfold for_range.
  apply for_loop_inv; auto. lia.
Qed.

(** ** Packing into RAW12 and reading back *)

Lemma pack12_body_inv row n data0 off0 j s :
  0 <= off0 -> j < n -> off0 + 3 * n <= Z.of_nat (length data0) ->
  packed12_inv row n data0 off0 j s ->
  packed12_inv row n data0 off0 (j + 1) (pack12_body row n j s).
Proof.
  intros Hoff Hj Hlen (Hj0 & Hs & Hl & Hframe & Hgrp).
  destruct s as [d o]; simpl in *. subst o.
  unfold packed12_inv; simpl. repeat split.
  - lia.
  - lia.
  - rewrite !length_store. assumption.
  - intros a Ha. rewrite !load_store_ne by lia. apply Hframe. lia.
  - intros g k Hg Hk.
    destruct (Z.eq_dec g j) as [-> | Hne].
    + assert (k = 0 \/ k = 1 \/ k = 2) as [-> | [-> | ->]] by lia; unfold grp12; simpl.
      * rewrite !load_store_ne by lia. rewrite Z.add_0_r, load_store_eq by lia. reflexivity.
      * rewrite load_store_ne by lia. rewrite load_store_eq by (rewrite !length_store; lia). reflexivity.
      * rewrite load_store_eq by (rewrite !length_store; lia). reflexivity.
    + rewrite !load_store_ne by lia. apply Hgrp; lia.
Qed.

Lemma land_mask15 v : Z.land v 15 = v mod 16.
Proof. change 15 with (Z.ones 4). rewrite Z.land_ones by lia. reflexivity. Qed.
Lemma land_mask3 v : Z.land v 3 = v mod 4.
Proof. change 3 with (Z.ones 2). rewrite Z.land_ones by lia. reflexivity. Qed.

Lemma upper12_val p0 p1 :
  Z.lor (u8 (Z.land p0 15)) (u8 (Z.shiftl (Z.land p1 15) 4))
  = (p1 mod 16) * 2 ^ 4 + p0 mod 16.
Proof.
  rewrite !u8_mod, !land_mask15, Z.shiftl_mul_pow2 by lia.
  rewrite Z.lor_comm.
  rewrite (Z.mod_small (p1 mod 16 * 2 ^ 4)) by (pose proof (Z.mod_pos_bound p1 16); lia).
  rewrite (Z.mod_small (p0 mod 16)) by (pose proof (Z.mod_pos_bound p0 16); lia).
  apply lor_shifted_add; [lia|]. pose proof (Z.mod_pos_bound p0 16). lia.
Qed.

Lemma raw12_decode_even p0 p1 :
  0 <= p0 < 4096 ->
  u16 (Z.lor (Z.shiftl (grp12 p0 p1 0) 4)
             (Z.land (Z.shiftr (grp12 p0 p1 2) 0) 15)) = p0.
Proof.
  intros H. unfold grp12; simpl.
  rewrite upper12_val, Z.shiftr_0_r, land_mask15, u8_mod, u16_mod.
  rewrite Z.shiftr_div_pow2, Z.shiftl_mul_pow2 by lia.
  rewrite lor_shifted_add; [|lia|apply Z.mod_pos_bound; lia].
  change (2 ^ 4) with 16.
  Z.to_euclidean_division_equations; lia.
Qed.

Lemma raw12_decode_odd p0 p1 :
  0 <= p1 < 4096 ->
  u16 (Z.lor (Z.shiftl (grp12 p0 p1 1) 4)
             (Z.land (Z.shiftr (grp12 p0 p1 2) 4) 15)) = p1.
Proof.
  intros H. unfold grp12; simpl.
  rewrite upper12_val, land_mask15, u8_mod, u16_mod.
  rewrite !Z.shiftr_div_pow2, Z.shiftl_mul_pow2 by lia.
  rewrite lor_shifted_add; [|lia|apply Z.mod_pos_bound; lia].
  change (2 ^ 4) with 16.
  Z.to_euclidean_division_equations; lia.
Qed.

Lemma RAW12_group data x y stride :
  0 <= x ->
  RAW12 data x y stride =
    u16 (Z.lor (Z.shiftl (load data (y * stride + 3 * (x / 2) + x mod 2)) 4)
               (Z.land (Z.shiftr (load data (y * stride + 3 * (x / 2) + 2))
                                 (4 * (x mod 2))) 15)).
Proof.
  intros Hx. unfold RAW12.
  rewrite !Z.shiftr_div_pow2, !Z.shiftl_mul_pow2, u8_mod by lia.
  change (2 ^ 1) with 2. change (2 ^ 2) with 4. change (2 ^ 3) with 8.
  assert (E1 : 12 * (x / 2 * 2) / 8 = 3 * (x / 2))
    by (Z.to_euclidean_division_equations; lia).
  assert (E2 : x - x / 2 * 2 = x mod 2)
    by (Z.to_euclidean_division_equations; lia).
  rewrite E1, E2.
  assert (E3 : (x mod 2 * 4) mod 256 = 4 * (x mod 2))
    by (Z.to_euclidean_division_equations; lia).
  rewrite E3. reflexivity.
Qed.

Lemma vget_range (bound : Z) (row : list Z) i :
  0 < bound ->
  Forall (fun v => 0 <= v < bound) row -> 0 <= vget row i < bound.
Proof.
  intros Hb Hrow. unfold vget, load.
  destruct (0 <=? i); [|lia].
  destruct (row !! Z.to_nat i) as [v|] eqn:E; simpl; [|lia].
  eapply Forall_lookup_1 in Hrow; eauto.
Qed.

Lemma pack_RAW12_inv row data off :
  0 <= off ->
  off + 3 * (Z.of_nat (length row) / 2) <= Z.of_nat (length data) ->
  packed12_inv row (Z.of_nat (length row) / 2) data off
    (Z.of_nat (length row) / 2) (pack_RAW12 row (data, off)).
Proof.
  intros Hoff Hlen. unfold pack_RAW12.
  rewrite Z.quot_div_nonneg by lia.
  set (n := Z.of_nat (length row) / 2) in *.
  assert (0 <= n) by (subst n; apply Z.div_pos; lia).
  destruct (for_range_inv (packed12_inv row n data off) 0 n 1
              (pack12_body row n) (data, off)) as (j & Hj1 & Hj2 & HP).
  - lia.
  - unfold packed12_inv; simpl. repeat split; intros; try reflexivity; lia.
  - intros j s Hj HP. apply pack12_body_inv; auto.
  - assert (j = n) as -> by lia. exact HP.
Qed.

(** X3.  The RAW12 half of the round trip: a row of 12-bit samples packed
    by [pack_RAW12] at row [y] of a region reads back, pixel by pixel, as
    the even-half value for an even column and the odd-half value for an odd
    one. *)
Theorem pack_RAW12_roundtrip (row data : list Z) (x y stride : Z) :
  Forall (fun v => 0 <= v < 4096) row ->
  0 <= y * stride ->
  y * stride + 3 * (Z.of_nat (length row) / 2) <= Z.of_nat (length data) ->
  0 <= x < 2 * (Z.of_nat (length row) / 2) ->
  RAW12 (fst (pack_RAW12 row (data, y * stride))) x y stride =
    vget row (if Z.even x then x / 2 else Z.of_nat (length row) / 2 + x / 2).
Proof.
  intros Hrow Hoff Hlen Hx.
  destruct (pack_RAW12_inv row data (y * stride) Hoff Hlen)
    as (_ & _ & _ & _ & Hgrp).
  set (n := Z.of_nat (length row) / 2) in *.
  rewrite RAW12_group by lia.
  assert (Hg : 0 <= x / 2 < n) by (Z.to_euclidean_division_equations; lia).
  rewrite (Hgrp (x / 2) 2) by lia.
  rewrite Zmod_even. destruct (Z.even x) eqn:Ev.
  - rewrite (Hgrp (x / 2) 0) by lia.
    apply raw12_decode_even. apply vget_range; [lia|assumption].
  - rewrite (Hgrp (x / 2) 1) by lia.
    rewrite (Z.add_comm n). 
    apply raw12_decode_odd. apply vget_range; [lia|assumption].
Qed.

Lemma pack_RAW12_roundtrip_witness :
  let row := [100; 200; 300; 4095] in
  RAW12 (fst (pack_RAW12 row (replicate 12 0, 1 * 6))) 3 1 6 = 4095 /\
  RAW12 (fst (pack_RAW12 row (replicate 12 0, 1 * 6))) 2 1 6 = 200.
Proof.
  intros row.
  assert (Hrow : Forall (fun v => 0 <= v < 4096) row)
    by (repeat constructor; lia).
  split.
  - apply (pack_RAW12_roundtrip row (replicate 12 0) 3 1 6 Hrow);
      vm_compute; intuition congruence.
  - apply (pack_RAW12_roundtrip row (replicate 12 0) 2 1 6 Hrow);
      vm_compute; intuition congruence.
Defined.

(** C1, at the failing input.  The RAW10 packing loop takes the four high
    bytes of a group from the column-split positions [i], [i+rowSize_2],
    [i+1], [i+rowSize_2+1], but the low bits from [i], [i+1], [i+2], [i+3]:
    the row [0; 1 || 2; 0] reads back as 0, 1, 2, 0 where the samples of
    columns 0..3 are 0, 2, 1, 0. *)
Theorem pack_RAW10_mixes_low_bits :
  let row := [0; 1; 2; 0] in
  let data := fst (pack_RAW10 row (replicate 5 0, 0)) in
  Forall (fun v => 0 <= v < 1024) row /\
  RAW10 data 1 0 5 = 1 /\
  vget row (Z.of_nat (length row) / 2 + 1 / 2) = 2 /\
  map (fun x => RAW10 data x 0 5) [0; 1; 2; 3] = [0; 1; 2; 0].
Proof.
  cbv zeta. split; [repeat constructor; lia|]. vm_compute. auto.
Qed.

(** ** The read primitives and the binning kernel *)

Lemma load_bytes data i : is_bytes data -> 0 <= load data i < 256.
Proof.
  intros H. unfold load. destruct (0 <=? i); [|lia].
  destruct (data !! Z.to_nat i) as [v|] eqn:E; simpl; [|lia].
  eapply Forall_lookup_1 in H; eauto.
Qed.

Lemma RAW10_bound data x y stride :
  is_bytes data -> 0 <= RAW10 data x y stride < 1024.
Proof.
  intros H. unfold RAW10.
  set (a := load data _). set (b := load data _).
  pose proof (load_bytes data (y * stride + Z.shiftr (10 * Z.shiftl (Z.shiftr x 2) 2) 3 +
     (x - Z.shiftl (Z.shiftr x 2) 2)) H) as Ha. fold a in Ha.
  rewrite land_mask3, u16_mod, Z.shiftl_mul_pow2 by lia.
  rewrite lor_shifted_add; [|lia|apply Z.mod_pos_bound; lia].
  change (2 ^ 2) with 4.
  pose proof (Z.mod_pos_bound (Z.shiftr b (u8 (Z.shiftl (x - Z.shiftl (Z.shiftr x 2) 2) 1))) 4).
  rewrite Z.mod_small; lia.
Qed.

Lemma RAW12_bound data x y stride :
  is_bytes data -> 0 <= RAW12 data x y stride < 4096.
Proof.
  intros H. unfold RAW12.
  set (a := load data _). set (b := load data _).
  pose proof (load_bytes data (y * stride + Z.shiftr (12 * Z.shiftl (Z.shiftr x 1) 1) 3 +
     (x - Z.shiftl (Z.shiftr x 1) 1)) H) as Ha. fold a in Ha.
  rewrite land_mask15, u16_mod, Z.shiftl_mul_pow2 by lia.
  rewrite lor_shifted_add; [|lia|apply Z.mod_pos_bound; lia].
  change (2 ^ 4) with 16.
  pose proof (Z.mod_pos_bound (Z.shiftr b (u8 (Z.shiftl (x - Z.shiftl (Z.shiftr x 1) 1) 2))) 16).
  rewrite Z.mod_small; lia.
Qed.

Lemma bin_sample_reference read data width height rowStride ix iy :
  (forall x y, 0 <= read data x y rowStride < 16384) ->
  0 < width -> 0 < height -> 0 <= ix -> 0 <= iy ->
  bin_sample read data width height rowStride ix iy
  = binned_reference read data width height rowStride ix iy.
Proof.
  intros Hread Hw Hh Hx Hy.
  unfold bin_sample, binned_reference, weighted_sum, kernel_weights, sumZ; simpl.
  rewrite !Z.rem_mod_nonneg by lia.
  set (xm := Z.max 0 (ix - 2)). set (xp := (ix + 2) mod width).
  set (ym := Z.max 0 (iy - 2)). set (yp := (iy + 2) mod height).
  pose proof (Hread xm ym). pose proof (Hread ix ym). pose proof (Hread xp ym).
  pose proof (Hread xm iy). pose proof (Hread ix iy). pose proof (Hread xp iy).
  pose proof (Hread xm yp). pose proof (Hread ix yp). pose proof (Hread xp yp).
  rewrite !Z.shiftl_mul_pow2, Z.shiftr_div_pow2 by lia.
  change (2 ^ 1) with 2. change (2 ^ 2) with 4. change (2 ^ 4) with 16.
  rewrite !u16_mod.
  rewrite !(Z.mod_small _ 65536) by (try lia; Z.to_euclidean_division_equations; lia).
  f_equal. lia.
Qed.

Lemma u16_idem v : u16 (u16 v) = u16 v.
Proof. rewrite !u16_mod. apply Z.mod_mod. lia. Qed.

Lemma vget_vset_eq row i v :
  0 <= i < Z.of_nat (length row) -> vget (vset row i v) i = u16 v.
Proof. intros H. unfold vget, vset. apply load_store_eq. assumption. Qed.

Lemma vget_vset_ne row i k v : k <> i -> vget (vset row i v) k = vget row k.
Proof. intros H. unfold vget, vset. apply load_store_ne. assumption. Qed.

Lemma length_vset row i v : length (vset row i v) = length row.
Proof. apply length_store. Qed.

Lemma bin_sample_u16 read data width height rowStride ix iy :
  u16 (bin_sample read data width height rowStride ix iy)
  = bin_sample read data width height rowStride ix iy.
Proof. unfold bin_sample. apply u16_idem. Qed.

Lemma bin_body_inv read idx0 data width height rowStride xstart half y j rows :
  (forall i, 0 <= i < 2 * half -> idx0 i = i) ->
  j < xstart + 4 * half ->
  bin_rows_inv read data width height rowStride xstart half y j rows ->
  bin_rows_inv read data width height rowStride xstart half y (j + 4)
    (bin_body read idx0 data width height rowStride xstart (2 * half) y j rows).
Proof.
  intros Hidx Hj (Hge & Hmod & Hl0 & Hl1 & Hrows).
  destruct rows as [row0 row1]; simpl in *.
  assert (Hm : exists m, j - xstart = 4 * m /\ 0 <= m < half).
  { exists ((j - xstart) / 4). Z.to_euclidean_division_equations; lia. }
  destruct Hm as (m & Hjm & Hm).
  assert (EX : Z.shiftr (j - xstart) 2 = m).
  { rewrite Z.shiftr_div_pow2 by lia. change (2 ^ 2) with 4.
    Z.to_euclidean_division_equations; lia. }
  assert (EH : Z.shiftr (2 * half) 1 = half).
  { rewrite Z.shiftr_div_pow2 by lia. change (2 ^ 1) with 2.
    Z.to_euclidean_division_equations; lia. }
  unfold bin_rows_inv, bin_body; simpl. rewrite EX, EH.
  rewrite !Hidx by lia.
  repeat split.
  - lia.
  - replace (j + 4 - xstart) with (j - xstart + 1 * 4) by lia.
    rewrite Z.mod_add by lia. assumption.
  - rewrite !length_vset. assumption.
  - rewrite !length_vset. assumption.
  - destruct (Z.eq_dec X m) as [-> | Hne].
    + rewrite vget_vset_ne by lia. rewrite vget_vset_eq by lia.
      rewrite bin_sample_u16. f_equal; lia.
    + rewrite !vget_vset_ne by lia. apply Hrows; lia.
  - destruct (Z.eq_dec X m) as [-> | Hne].
    + rewrite vget_vset_eq by (rewrite length_vset; lia).
      rewrite bin_sample_u16. f_equal; lia.
    + rewrite !vget_vset_ne by lia. apply Hrows; lia.
  - destruct (Z.eq_dec X m) as [-> | Hne].
    + rewrite vget_vset_ne by lia. rewrite vget_vset_eq by lia.
      rewrite bin_sample_u16. f_equal; lia.
    + rewrite !vget_vset_ne by lia. apply Hrows; lia.
  - destruct (Z.eq_dec X m) as [-> | Hne].
    + rewrite vget_vset_eq by (rewrite length_vset; lia).
      rewrite bin_sample_u16. f_equal; lia.
    + rewrite !vget_vset_ne by lia. apply Hrows; lia.
Qed.

Lemma bin_rows_samples read idx0 data width height rowStride xstart half y
    row0 row1 :
  (forall i, 0 <= i < 2 * half -> idx0 i = i) ->
  0 <= half ->
  Z.of_nat (length row0) = 2 * half ->
  Z.of_nat (length row1) = 2 * half ->
  bin_rows_inv read data width height rowStride xstart half y
    (xstart + 4 * half)
    (bin_rows read idx0 data width height rowStride xstart
       (xstart + 4 * half) (2 * half) y (row0, row1)).
Proof.
  intros Hidx Hhalf Hl0 Hl1. unfold bin_rows.
  destruct (for_range_inv
              (bin_rows_inv read data width height rowStride xstart half y)
              xstart (xstart + 4 * half) 4
              (bin_body read idx0 data width height rowStride xstart
                 (2 * half) y) (row0, row1))
    as (j & Hj1 & Hj2 & HP).
  - lia.
  - unfold bin_rows_inv; simpl.
    repeat split; intros; first [lia | rewrite Z.sub_diag; reflexivity].
  - intros j s Hj HP. apply bin_body_inv; auto.
  - assert (j = xstart + 4 * half) as ->; [|exact HP].
    destruct HP as (Hge & Hmod & _).
    Z.to_euclidean_division_equations; lia.
Qed.

Lemma RAW16_small data x y stride :
  Forall (fun b => 0 <= b < 64) data -> RAW16 data x y stride < 16384.
Proof.
  intros H. unfold RAW16.
  assert (Hb : forall i, 0 <= load data i < 64).
  { intros i. unfold load. destruct (0 <=? i); [|lia].
    destruct (data !! Z.to_nat i) as [v|] eqn:E; simpl; [|lia].
    eapply Forall_lookup_1 in H; eauto. }
  pose proof (Hb (y * stride + x * 2)) as H0.
  pose proof (Hb (y * stride + x * 2 + 1)) as H1.
  rewrite Z.lor_comm, Z.shiftl_mul_pow2, lor_shifted_add, u16_mod by lia.
  change (2 ^ 8) with 256. rewrite Z.mod_small; lia.
Qed.

(** The block loop on the region as it stands.  Every sample that the block
    loop of [cropAndBin_RAW10], [cropAndBin_RAW12] and [cropAndBin_RAW16]
    stores into [row0] and [row1] is the weighted sum of the 3x3 like-colour
    neighbourhood (offsets -2, 0, +2 in x and y, left/top index clamped to
    0, right/bottom index taken modulo the width resp. height) with weights
    1,2,1 / 2,4,2 / 1,2,1, divided by 16, of the bytes that the region
    holds when the block row is processed, provided the samples are below
    2^14 (RAW10 and RAW12 samples are; a RAW10 row of at most 65536 binned
    samples is assumed). *)
Lemma bin_rows_weighted_sum (data : list Z)
    (width height rowStride xstart half y : Z) (row0 row1 : list Z) :
  is_bytes data ->
  0 < width -> 0 < height -> 0 <= xstart -> 0 <= y -> 0 <= half ->
  Z.of_nat (length row0) = 2 * half ->
  Z.of_nat (length row1) = 2 * half ->
  (2 * half <= 65536 ->
   block_samples_match RAW10
     (bin_rows RAW10 u16 data width height rowStride xstart
        (xstart + 4 * half) (2 * half) y (row0, row1))
     data width height rowStride xstart half y) /\
  block_samples_match RAW12
    (bin_rows RAW12 id data width height rowStride xstart
       (xstart + 4 * half) (2 * half) y (row0, row1))
    data width height rowStride xstart half y /\
  ((forall x' y', RAW16 data x' y' rowStride < 16384) ->
   block_samples_match RAW16
     (bin_rows RAW16 id data width height rowStride xstart
        (xstart + 4 * half) (2 * half) y (row0, row1))
     data width height rowStride xstart half y).
Proof.
  intros Hbytes Hw Hh Hxs Hy Hhalf Hl0 Hl1.
  assert (Hmatch : forall read idx0,
    (forall i, 0 <= i < 2 * half -> idx0 i = i) ->
    (forall x' y', 0 <= read data x' y' rowStride < 16384) ->
    block_samples_match read
      (bin_rows read idx0 data width height rowStride xstart
         (xstart + 4 * half) (2 * half) y (row0, row1))
      data width height rowStride xstart half y).
  { intros read idx0 Hidx Hread.
    destruct (bin_rows_samples read idx0 data width height rowStride xstart
                half y row0 row1 Hidx Hhalf Hl0 Hl1)
      as (_ & _ & _ & _ & Hrows).
    intros X HX. simpl.
    rewrite <- !bin_sample_reference by (auto; lia).
    apply Hrows; lia. }
  split; [|split].
  - intros Hsmall. apply Hmatch.
    + intros i Hi. rewrite u16_mod. apply Z.mod_small. lia.
    + intros x' y'. pose proof (RAW10_bound data x' y' rowStride Hbytes). lia.
  - apply Hmatch.
    + reflexivity.
    + intros x' y'. pose proof (RAW12_bound data x' y' rowStride Hbytes). lia.
  - intros Hsmall. apply Hmatch.
    + reflexivity.
    + intros x' y'. split; [|apply Hsmall].
      unfold RAW16. rewrite u16_mod. apply Z.mod_pos_bound. lia.
Qed.

Lemma bin_rows_weighted_sum_witness :
  let data := replicate 40 1 in
  block_samples_match RAW10
    (bin_rows RAW10 u16 data 8 4 10 0 4 2 0 ([0; 0], [0; 0]))
    data 8 4 10 0 1 0 /\
  block_samples_match RAW12
    (bin_rows RAW12 id data 8 4 10 0 4 2 0 ([0; 0], [0; 0]))
    data 8 4 10 0 1 0 /\
  block_samples_match RAW16
    (bin_rows RAW16 id data 8 4 10 0 4 2 0 ([0; 0], [0; 0]))
    data 8 4 10 0 1 0.
Proof.
  intros data.
  assert (Hb : is_bytes data) by (repeat constructor; lia).
  assert (Hs : Forall (fun b => 0 <= b < 64) data) by (repeat constructor; lia).
  destruct (bin_rows_weighted_sum data 8 4 10 0 1 0 [0; 0] [0; 0])
    as (H10 & H12 & H16); try assumption; try lia; try reflexivity.
  split; [apply H10; lia|]. split; [exact H12|].
  apply H16. intros x' y'. apply RAW16_small. exact Hs.
Defined.

(** On a RAW16 frame whose samples are all 0x4000 the centre tap
    [p4 = sample << 2] wraps to 0 in its [uint16_t] local: the block loop
    stores 12288 where the weighted sum divided by 16 is 16384. *)
Lemma bin_rows_RAW16_wraps :
  ~ block_samples_match RAW16
      (bin_rows RAW16 id bright_RAW16_4x4 4 4 8 0 4 2 0 ([0; 0], [0; 0]))
      bright_RAW16_4x4 4 4 8 0 1 0.
Proof.
  intros H. destruct (H 0 ltac:(lia)) as [H0 _].
  vm_compute in H0. discriminate H0.
Qed.

(** ** Byte ranges and [memmove] *)

Lemma length_write_bytes bs : forall d off, length (write_bytes d off bs) = length d.
Proof.
  induction bs as [|v bs IH]; intros d off; simpl; [reflexivity|].
  rewrite IH. apply length_store.
Qed.

Lemma load_write_bytes_other bs : forall d off a,
  a < off \/ off + Z.of_nat (length bs) <= a ->
  load (write_bytes d off bs) a = load d a.
Proof.
  induction bs as [|v bs IH]; intros d off a Ha; simpl in *; [reflexivity|].
  rewrite IH by lia. apply load_store_ne. lia.
Qed.

Lemma load_write_bytes_at bs : forall d off (k : nat) v,
  0 <= off -> off + Z.of_nat (length bs) <= Z.of_nat (length d) ->
  bs !! k = Some v ->
  load (write_bytes d off bs) (off + Z.of_nat k) = v.
Proof.
  induction bs as [|w bs IH]; intros d off k v Hoff Hlen Hk.
  - discriminate.
  - cbn [length] in Hlen. cbn [write_bytes]. destruct k as [|k].
    + injection Hk as ->. rewrite load_write_bytes_other by lia.
      rewrite Z.add_0_r. apply load_store_eq. lia.
    + replace (off + Z.of_nat (S k)) with (off + 1 + Z.of_nat k) by lia.
      apply IH; [lia|rewrite length_store; lia|exact Hk].
Qed.

Lemma lookup_read_bytes d src n (k : nat) :
  (k < n)%nat -> read_bytes d src n !! k = Some (load d (src + Z.of_nat k)).
Proof.
  intros Hk. unfold read_bytes.
  rewrite list_lookup_fmap, lookup_seq_lt by assumption. reflexivity.
Qed.

Lemma length_read_bytes d src n : length (read_bytes d src n) = n.
Proof. unfold read_bytes. rewrite length_map, length_seq. reflexivity. Qed.

Lemma length_memmove d dst src n : length (memmove d dst src n) = length d.
Proof. apply length_write_bytes. Qed.

Lemma load_memmove_other d dst src n a :
  0 <= n -> a < dst \/ dst + n <= a ->
  load (memmove d dst src n) a = load d a.
Proof.
  intros Hn Ha. unfold memmove. apply load_write_bytes_other.
  rewrite length_read_bytes. lia.
Qed.

Lemma load_memmove_dst d dst src n k :
  0 <= dst -> dst + n <= Z.of_nat (length d) -> 0 <= k < n ->
  load (memmove d dst src n) (dst + k) = load d (src + k).
Proof.
  intros Hdst Hlen Hk. unfold memmove.
  replace k with (Z.of_nat (Z.to_nat k)) at 1 by lia.
  rewrite (load_write_bytes_at _ _ _ _ (load d (src + k))); auto.
  - rewrite length_read_bytes. lia.
  - rewrite lookup_read_bytes by lia. f_equal. f_equal. lia.
Qed.

(** After the row loop of the RAW10/RAW12 branches the first cropped row
    holds the bytes that the first iteration moved there. *)
Lemma crop_move_first_row d0 rowStride cs ystart yend xstart :
  0 < cs -> cs <= Z.of_nat (length d0) -> ystart < yend ->
  forall k, 0 <= k < cs ->
    load (for_range ystart yend 1 (crop_move_body rowStride cs ystart xstart) d0) k
    = load d0 (rowStride * ystart + xstart + k).
Proof.
  intros Hcs Hlen Hy k Hk.
  destruct (for_range_inv
    (fun j d => ystart <= j /\ length d = length d0 /\
       (j = ystart -> d = d0) /\
       (ystart < j -> forall k, 0 <= k < cs ->
          load d k = load d0 (rowStride * ystart + xstart + k)))
    ystart yend 1 (crop_move_body rowStride cs ystart xstart) d0)
    as (j & Hj1 & Hj2 & Hge & Hl & _ & Hrow).
  - lia.
  - repeat split; auto; lia.
  - intros j d Hj (Hge & Hl & Heq & Hrow). unfold crop_move_body.
    split; [lia|]. split; [rewrite length_memmove; assumption|].
    split; [lia|]. intros _ k' Hk'.
    destruct (Z.eq_dec j ystart) as [-> | Hne].
    + rewrite (Heq eq_refl), Z.sub_diag, Z.mul_0_r.
      replace k' with (0 + k') at 1 by lia.
      apply load_memmove_dst; lia.
    + rewrite load_memmove_other by nia. apply Hrow; lia.
  - apply Hrow; lia.
Qed.

Lemma RAW10_group_start d m y s :
  0 <= m ->
  RAW10 d (4 * m) y s =
    u16 (Z.lor (Z.shiftl (load d (y * s + 5 * m)) 2)
               (Z.land (load d (y * s + 5 * m + 4)) 3)).
Proof.
  intros Hm. unfold RAW10.
  rewrite !Z.shiftr_div_pow2, !Z.shiftl_mul_pow2 by lia.
  change (2 ^ 2) with 4. change (2 ^ 3) with 8. change (2 ^ 1) with 2.
  replace (4 * m / 4 * 4) with (4 * m)
    by (Z.to_euclidean_division_equations; lia).
  replace (10 * (4 * m) / 8) with (5 * m)
    by (Z.to_euclidean_division_equations; lia).
  rewrite Z.sub_diag, Z.add_0_r. simpl (u8 (0 * 2)).
  rewrite Z.shiftr_0_r. reflexivity.
Qed.

(** ** Column-split rows *)

Lemma vget_lookup (row : list Z) (i : nat) v :
  row !! i = Some v -> vget row (Z.of_nat i) = v.
Proof.
  intros H. unfold vget, load.
  destruct (Z.leb_spec 0 (Z.of_nat i)); [|lia].
  rewrite Nat2Z.id, H. reflexivity.
Qed.

Lemma vget_ext (l1 l2 : list Z) :
  length l1 = length l2 ->
  (forall i, 0 <= i < Z.of_nat (length l1) -> vget l1 i = vget l2 i) ->
  l1 = l2.
Proof.
  intros Hlen Hget. apply list_eq_same_length with (n := length l1); auto.
  intros i x y Hi Hx Hy.
  specialize (Hget (Z.of_nat i) ltac:(lia)).
  rewrite (vget_lookup _ _ _ Hx), (vget_lookup _ _ _ Hy) in Hget. exact Hget.
Qed.

Lemma length_split_reference read data rowStride xstart half y :
  0 <= half ->
  Z.of_nat (length (split_reference read data rowStride xstart half y))
  = 2 * half.
Proof.
  intros H. unfold split_reference.
  rewrite length_app, !length_map, !length_seqZ. lia.
Qed.

Lemma vget_split_reference read data rowStride xstart half y X :
  0 <= X < half ->
  vget (split_reference read data rowStride xstart half y) X
  = read data (xstart + 2 * X) y rowStride /\
  vget (split_reference read data rowStride xstart half y) (half + X)
  = read data (xstart + 2 * X + 1) y rowStride.
Proof.
  intros HX. unfold split_reference. split.
  - replace X with (Z.of_nat (Z.to_nat X)) at 1 by lia.
    apply vget_lookup.
    rewrite lookup_app_l by (rewrite length_map, length_seqZ; lia).
    rewrite list_lookup_fmap, lookup_seqZ_lt by lia. simpl.
    do 3 f_equal. lia.
  - replace (half + X) with (Z.of_nat (Z.to_nat half + Z.to_nat X)) by lia.
    apply vget_lookup.
    rewrite lookup_app_r by (rewrite length_map, length_seqZ; lia).
    rewrite length_map, length_seqZ.
    replace (Z.to_nat half + Z.to_nat X - Z.to_nat half)%nat
      with (Z.to_nat X) by lia.
    rewrite list_lookup_fmap, lookup_seqZ_lt by lia. simpl.
    do 3 f_equal. lia.
Qed.

Lemma split_row_reference read data rowStride xstart half y row :
  (forall x, u16 (read data x y rowStride) = read data x y rowStride) ->
  0 <= half ->
  Z.of_nat (length row) = 2 * half ->
  split_row read data rowStride xstart (xstart + 2 * half) half y row
  = split_reference read data rowStride xstart half y.
Proof.
  intros Hu16 Hhalf Hlen. unfold split_row.
  destruct (for_range_inv
    (fun j r => xstart <= j /\ (j - xstart) mod 2 = 0 /\
       Z.of_nat (length r) = 2 * half /\
       forall X, 0 <= X -> xstart + 2 * X < j ->
         vget r X = read data (xstart + 2 * X) y rowStride /\
         vget r (half + X) = read data (xstart + 2 * X + 1) y rowStride)
    xstart (xstart + 2 * half) 2
    (split_body read data rowStride xstart half y) row)
    as (j & Hj1 & Hj2 & Hge & Hmod & Hl & Hrow).
  - lia.
  - repeat split; intros; first [lia | rewrite Z.sub_diag; reflexivity].
  - intros j r Hj (Hge & Hmod & Hl & Hrow). unfold split_body.
    assert (Hm : exists m, j - xstart = 2 * m /\ 0 <= m < half).
    { exists ((j - xstart) / 2). Z.to_euclidean_division_equations; lia. }
    destruct Hm as (m & Hjm & Hm).
    assert (EX : Z.shiftr (j - xstart) 1 = m).
    { rewrite Z.shiftr_div_pow2 by lia. change (2 ^ 1) with 2.
      Z.to_euclidean_division_equations; lia. }
    rewrite EX. split; [lia|]. split.
    { replace (j + 2 - xstart) with (j - xstart + 1 * 2) by lia.
      rewrite Z.mod_add by lia. assumption. }
    split; [rewrite !length_vset; assumption|].
    intros X HX0 HX. destruct (Z.eq_dec X m) as [-> | Hne].
    + split.
      * rewrite vget_vset_ne by lia. rewrite vget_vset_eq by lia.
        rewrite Hu16. f_equal. lia.
      * rewrite vget_vset_eq by (rewrite length_vset; lia).
        rewrite Hu16. f_equal. lia.
    + rewrite !vget_vset_ne by lia. apply Hrow; lia.
  - assert (j = xstart + 2 * half) as ->
      by (Z.to_euclidean_division_equations; lia).
    apply vget_ext.
    + apply Nat2Z.inj. rewrite Hl, length_split_reference; auto.
    + intros i Hi. rewrite Hl in Hi.
      destruct (Z.lt_ge_cases i half) as [Hlt | Hge'].
      * destruct (Hrow i ltac:(lia) ltac:(lia)) as [-> _].
        destruct (vget_split_reference read data rowStride xstart half y i
                    ltac:(lia)) as [-> _]. reflexivity.
      * replace i with (half + (i - half)) by lia.
        destruct (Hrow (i - half) ltac:(lia) ltac:(lia)) as [_ ->].
        destruct (vget_split_reference read data rowStride xstart half y
                    (i - half) ltac:(lia)) as [_ ->]. reflexivity.
Qed.

Lemma reader_of_u16 fmt data x y rowStride :
  u16 (reader_of fmt data x y rowStride) = reader_of fmt data x y rowStride.
Proof. destruct fmt; apply u16_idem. Qed.

Lemma length_new_row n : 0 <= n -> Z.of_nat (length (new_row n)) = n.
Proof. intros H. unfold new_row. rewrite length_replicate. lia. Qed.

(** ** Packing RAW16 samples into RAW12 groups *)

Lemma raw12_decode_even_mod p0 p1 :
  0 <= p0 ->
  u16 (Z.lor (Z.shiftl (grp12 p0 p1 0) 4)
             (Z.land (Z.shiftr (grp12 p0 p1 2) 0) 15)) = p0 mod 4096.
Proof.
  intros H. unfold grp12; simpl.
  rewrite upper12_val, Z.shiftr_0_r, land_mask15, u8_mod, u16_mod.
  rewrite Z.shiftr_div_pow2, Z.shiftl_mul_pow2 by lia.
  rewrite lor_shifted_add; [|lia|apply Z.mod_pos_bound; lia].
  change (2 ^ 4) with 16.
  Z.to_euclidean_division_equations; lia.
Qed.

Lemma raw12_decode_odd_mod p0 p1 :
  0 <= p1 ->
  u16 (Z.lor (Z.shiftl (grp12 p0 p1 1) 4)
             (Z.land (Z.shiftr (grp12 p0 p1 2) 4) 15)) = p1 mod 4096.
Proof.
  intros H. unfold grp12; simpl.
  rewrite upper12_val, land_mask15, u8_mod, u16_mod.
  rewrite !Z.shiftr_div_pow2, Z.shiftl_mul_pow2 by lia.
  rewrite lor_shifted_add; [|lia|apply Z.mod_pos_bound; lia].
  change (2 ^ 4) with 16.
  Z.to_euclidean_division_equations; lia.
Qed.

Lemma RAW16_ext d d' x y s :
  load d (y * s + x * 2) = load d' (y * s + x * 2) ->
  load d (y * s + x * 2 + 1) = load d' (y * s + x * 2 + 1) ->
  RAW16 d x y s = RAW16 d' x y s.
Proof. intros H0 H1. unfold RAW16. rewrite H0, H1. reflexivity. Qed.

Lemma RAW16_nonneg d x y s : 0 <= RAW16 d x y s.
Proof. unfold RAW16. rewrite u16_mod. apply Z.mod_pos_bound. lia. Qed.

(** One pair: the body of the column loop. *)
Lemma crop_RAW16_body_inv d0 rowStride hc vc half j m s :
  0 <= hc -> 0 <= vc -> 0 < half -> vc <= j -> 0 <= m < half ->
  2 * (hc + 2 * half) <= rowStride ->
  3 * (half * (j - vc) + m) + 3 <= Z.of_nat (length d0) ->
  packed16_inv d0 rowStride hc vc half (half * (j - vc) + m) s ->
  packed16_inv d0 rowStride hc vc half (half * (j - vc) + (m + 1))
    (crop_RAW16_body rowStride j (hc + 2 * m) s).
Proof.
  intros Hhc Hvc Hhalf Hj Hm Hrs Hlen (Hoff & Hl & Hrest & Hgrp).
  destruct s as [d off]; simpl in *. subst off.
  set (n := half * (j - vc) + m) in *.
  assert (Hn : 0 <= n) by nia.
  assert (Hsrc : 3 * n <= j * rowStride + (hc + 2 * m) * 2) by nia.
  assert (E0 : RAW16 d (hc + 2 * m) j rowStride
               = fst (pair16 d0 rowStride hc vc half n)).
  { unfold pair16; simpl.
    replace (n / half) with (j - vc)
      by (apply (Z.div_unique n half (j - vc) m); lia).
    replace (n mod half) with m
      by (apply (Z.mod_unique n half (j - vc) m); lia).
    replace (vc + (j - vc)) with j by lia.
    apply RAW16_ext; apply Hrest; lia. }
  assert (E1 : RAW16 d (hc + 2 * m + 1) j rowStride
               = snd (pair16 d0 rowStride hc vc half n)).
  { unfold pair16; simpl.
    replace (n / half) with (j - vc)
      by (apply (Z.div_unique n half (j - vc) m); lia).
    replace (n mod half) with m
      by (apply (Z.mod_unique n half (j - vc) m); lia).
    replace (vc + (j - vc)) with j by lia.
    apply RAW16_ext; apply Hrest; lia. }
  unfold packed16_inv; simpl. rewrite E0, E1.
  replace (half * (j - vc) + (m + 1)) with (n + 1) by lia.
  repeat split.
  - lia.
  - rewrite !length_store. assumption.
  - intros a Ha. rewrite !load_store_ne by lia. apply Hrest. lia.
  - intros k t Hk Ht.
    destruct (Z.eq_dec k n) as [-> | Hne].
    + assert (t = 0 \/ t = 1 \/ t = 2) as [-> | [-> | ->]] by lia;
        unfold grp12; simpl.
      * rewrite !load_store_ne by lia.
        rewrite Z.add_0_r, load_store_eq by lia. reflexivity.
      * rewrite load_store_ne by lia.
        rewrite load_store_eq by (rewrite !length_store; lia). reflexivity.
      * rewrite load_store_eq by (rewrite !length_store; lia). reflexivity.
    + rewrite !load_store_ne by lia. apply Hgrp; lia.
Qed.

Lemma crop_RAW16_row_inv d0 rowStride hc vc half j s :
  0 <= hc -> 0 <= vc -> 0 < half -> vc <= j ->
  2 * (hc + 2 * half) <= rowStride ->
  3 * (half * (j - vc + 1)) <= Z.of_nat (length d0) ->
  packed16_inv d0 rowStride hc vc half (half * (j - vc)) s ->
  packed16_inv d0 rowStride hc vc half (half * (j + 1 - vc))
    (for_range hc (hc + 2 * half) 2 (crop_RAW16_body rowStride j) s).
Proof.
  intros Hhc Hvc Hhalf Hj Hrs Hlen Hinv.
  destruct (for_range_inv
    (fun x s' => exists m, x = hc + 2 * m /\ 0 <= m <= half /\
       packed16_inv d0 rowStride hc vc half (half * (j - vc) + m) s')
    hc (hc + 2 * half) 2 (crop_RAW16_body rowStride j) s)
    as (x & Hx1 & Hx2 & m & Hxm & Hm & HP).
  - lia.
  - exists 0. split; [lia|]. split; [lia|]. rewrite Z.add_0_r. assumption.
  - intros x s' Hx (m & -> & Hm & HP). exists (m + 1).
    split; [lia|]. split; [lia|].
    apply crop_RAW16_body_inv; auto; try lia; nia.
  - assert (m = half) as -> by lia.
    replace (half * (j + 1 - vc)) with (half * (j - vc) + half) by lia.
    exact HP.
Qed.

Lemma crop_RAW16_rows_inv d0 rowStride hc vc half rows :
  0 <= hc -> 0 <= vc -> 0 < half -> 0 <= rows ->
  2 * (hc + 2 * half) <= rowStride ->
  3 * (half * rows) <= Z.of_nat (length d0) ->
  packed16_inv d0 rowStride hc vc half (half * rows)
    (for_range vc (vc + rows) 1
       (fun y => for_range hc (hc + 2 * half) 2 (crop_RAW16_body rowStride y))
       (d0, 0)).
Proof.
  intros Hhc Hvc Hhalf Hrows Hrs Hlen.
  destruct (for_range_inv
    (fun j s => vc <= j /\
       packed16_inv d0 rowStride hc vc half (half * (j - vc)) s)
    vc (vc + rows) 1
    (fun y => for_range hc (hc + 2 * half) 2 (crop_RAW16_body rowStride y))
    (d0, 0))
    as (j & Hj1 & Hj2 & Hge & HP).
  - lia.
  - split; [lia|]. rewrite Z.sub_diag, Z.mul_0_r.
    unfold packed16_inv; simpl. repeat split; intros; first [lia | reflexivity].
  - intros j s Hj (Hge & HP). split; [lia|].
    apply crop_RAW16_row_inv; auto; try lia; nia.
  - assert (j = vc + rows) as -> by lia.
    replace (vc + rows - vc) with rows in HP by lia. exact HP.
Qed.

(** The RAW16 branch of [crop]: every pixel of the crop window is read
    back from the packed rows with its low 12 bits. *)
Lemma crop_RAW16_loop_pixels d0 rowStride hc vc half rows x y :
  0 <= hc -> 0 <= vc -> 0 <= rows ->
  2 * (hc + 2 * half) <= rowStride ->
  3 * (half * rows) <= Z.of_nat (length d0) ->
  0 <= x < 2 * half -> 0 <= y < rows ->
  RAW12
    (fst (for_range vc (vc + rows) 1
            (fun y' =>
               for_range hc (hc + 2 * half) 2 (crop_RAW16_body rowStride y'))
            (d0, 0)))
    x y (3 * half)
  = RAW16 d0 (hc + x) (vc + y) rowStride mod 4096.
Proof.
  intros Hhc Hvc Hrows Hrs Hlen Hx Hy.
  assert (Hhalf : 0 < half) by lia.
  destruct (crop_RAW16_rows_inv d0 rowStride hc vc half rows
              Hhc Hvc Hhalf Hrows Hrs Hlen) as (_ & _ & _ & Hgrp).
  rewrite RAW12_group by lia.
  set (k := y * half + x / 2).
  assert (Hx2 : 0 <= x / 2 < half) by (Z.to_euclidean_division_equations; lia).
  assert (Hk : 0 <= k < half * rows) by (unfold k; nia).
  assert (Ediv : k / half = y)
    by (symmetry; apply (Z.div_unique k half y (x / 2)); unfold k; lia).
  assert (Emod : k mod half = x / 2)
    by (symmetry; apply (Z.mod_unique k half y (x / 2)); unfold k; lia).
  replace (y * (3 * half) + 3 * (x / 2) + x mod 2) with (3 * k + x mod 2)
    by (unfold k; lia).
  replace (y * (3 * half) + 3 * (x / 2) + 2) with (3 * k + 2)
    by (unfold k; lia).
  rewrite (Hgrp k 2) by lia.
  assert (Hbit : x mod 2 = 0 \/ x mod 2 = 1)
    by (Z.to_euclidean_division_equations; lia).
  unfold pair16. cbn [fst snd]. rewrite Ediv, Emod.
  destruct Hbit as [E | E]; rewrite E.
  - rewrite (Hgrp k 0) by lia. unfold pair16. cbn [fst snd].
    rewrite Ediv, Emod.
    rewrite raw12_decode_even_mod by apply RAW16_nonneg.
    do 2 f_equal. Z.to_euclidean_division_equations; lia.
  - rewrite (Hgrp k 1) by lia. unfold pair16. cbn [fst snd].
    rewrite Ediv, Emod.
    rewrite raw12_decode_odd_mod by apply RAW16_nonneg.
    do 2 f_equal. Z.to_euclidean_division_equations; lia.
Qed.

(** ** Compressing in place *)

Lemma reader_of_local fmt d d' x y rowStride :
  0 <= x ->
  (forall a, y * rowStride <= a -> load d a = load d' a) ->
  reader_of fmt d x y rowStride = reader_of fmt d' x y rowStride.
Proof.
  intros Hx Hsame.
  assert (H2 : 0 <= Z.shiftr (10 * Z.shiftl (Z.shiftr x 2) 2) 3 /\
               0 <= x - Z.shiftl (Z.shiftr x 2) 2).
  { rewrite !Z.shiftr_div_pow2, Z.shiftl_mul_pow2 by lia.
    change (2 ^ 2) with 4. change (2 ^ 3) with 8.
    Z.to_euclidean_division_equations; lia. }
  assert (H1 : 0 <= Z.shiftr (12 * Z.shiftl (Z.shiftr x 1) 1) 3 /\
               0 <= x - Z.shiftl (Z.shiftr x 1) 1).
  { rewrite !Z.shiftr_div_pow2, Z.shiftl_mul_pow2 by lia.
    change (2 ^ 1) with 2. change (2 ^ 3) with 8.
    Z.to_euclidean_division_equations; lia. }
  destruct fmt; simpl.
  - unfold RAW10. rewrite !Hsame by lia. reflexivity.
  - unfold RAW12. rewrite !Hsame by lia. reflexivity.
  - unfold RAW16. rewrite !Hsame by lia. reflexivity.
  - unfold RAW16. rewrite !Hsame by lia. reflexivity.
Qed.

Lemma split_reference_local fmt d d' rowStride xstart half y :
  0 <= xstart ->
  (forall a, y * rowStride <= a -> load d a = load d' a) ->
  split_reference (reader_of fmt) d rowStride xstart half y
  = split_reference (reader_of fmt) d' rowStride xstart half y.
Proof.
  intros Hxs Hsame. unfold split_reference.
  f_equal; apply map_ext_in; intros X HX;
    apply list_elem_of_In, elem_of_seqZ in HX.
  all: apply reader_of_local; auto; lia.
Qed.

Lemma compress_rows_reference_snoc encodeFunc read rowStride xstart half
    ys y mem :
  compress_rows_reference encodeFunc read rowStride xstart half (ys ++ [y]) mem
  = let m :=
      compress_rows_reference encodeFunc read rowStride xstart half ys mem in
    let out :=
      encodeFunc (split_reference read (fst m) rowStride xstart half y) in
    (write_bytes (fst m) (snd m) out, snd m + Z.of_nat (length out)).
Proof. unfold compress_rows_reference. rewrite fold_left_app. reflexivity. Qed.

Lemma compress_rows_original_snoc encodeFunc read d0 rowStride xstart half
    ys y mem :
  compress_rows_original encodeFunc read d0 rowStride xstart half
    (ys ++ [y]) mem
  = let m :=
      compress_rows_original encodeFunc read d0 rowStride xstart half ys mem in
    let out :=
      encodeFunc (split_reference read d0 rowStride xstart half y) in
    (write_bytes (fst m) (snd m) out, snd m + Z.of_nat (length out)).
Proof. unfold compress_rows_original. rewrite fold_left_app. reflexivity. Qed.

(** As long as the encoded output has not reached the row that is read
    next, the rows are read unharmed: compressing in place encodes the rows
    of the original region. *)
Lemma compress_rows_in_place encodeFunc fmt d0 rowStride xstart half vc :
  0 <= xstart -> 0 <= rowStride -> 0 <= vc ->
  forall n : nat,
    (forall k, 0 < k < Z.of_nat n ->
       snd (compress_rows_original encodeFunc (reader_of fmt) d0
              rowStride xstart half (seqZ vc k) (d0, 0))
       <= (vc + k) * rowStride) ->
    compress_rows_reference encodeFunc (reader_of fmt)
      rowStride xstart half (seqZ vc (Z.of_nat n)) (d0, 0)
    = compress_rows_original encodeFunc (reader_of fmt) d0
        rowStride xstart half (seqZ vc (Z.of_nat n)) (d0, 0) /\
    forall a,
      snd (compress_rows_original encodeFunc (reader_of fmt) d0
             rowStride xstart half (seqZ vc (Z.of_nat n)) (d0, 0)) <= a ->
      load (fst (compress_rows_original encodeFunc (reader_of fmt) d0
                   rowStride xstart half (seqZ vc (Z.of_nat n)) (d0, 0))) a
      = load d0 a.
Proof.
  intros Hxs Hrs Hvc n. induction n as [|n IH]; intros Hfit.
  - simpl. auto.
  - destruct IH as [IHeq IHrest]; [intros k Hk; apply Hfit; lia|].
    rewrite seqZ_S.
    rewrite compress_rows_reference_snoc, compress_rows_original_snoc.
    rewrite IHeq.
    set (mem := compress_rows_original encodeFunc (reader_of fmt) d0
                  rowStride xstart half (seqZ vc (Z.of_nat n)) (d0, 0)) in *.
    assert (Hbelow : snd mem <= (vc + Z.of_nat n) * rowStride).
    { destruct n as [|n'].
      - subst mem. simpl. nia.
      - apply Hfit. lia. }
    cbv zeta.
    rewrite (split_reference_local fmt (fst mem) d0) by
      (auto; intros a Ha; apply IHrest; lia).
    split; [reflexivity|].
    intros a Ha. cbn [fst snd] in *. rewrite load_write_bytes_other by lia.
    apply IHrest. lia.
Qed.

Lemma length_two_byte_codec row :
  length (two_byte_codec row) = (2 * length row)%nat.
Proof.
  unfold two_byte_codec. induction row as [|v row IH]; simpl; [reflexivity|].
  rewrite IH. lia.
Qed.

Lemma compress_rows_original_two_byte read d0 rowStride xstart half ys :
  0 <= half ->
  forall mem,
    snd (compress_rows_original two_byte_codec read d0 rowStride xstart half
           ys mem)
    = snd mem + 4 * half * Z.of_nat (length ys).
Proof.
  intros Hhalf. induction ys as [|y ys IH]; intros mem.
  - simpl. lia.
  - unfold compress_rows_original in *. cbn [fold_left length].
    rewrite IH. cbn [snd]. rewrite length_two_byte_codec.
    pose proof (length_split_reference read d0 rowStride xstart half y Hhalf).
    lia.
Qed.

(** ** Binning a whole frame in place *)

Lemma for_loop_ext {St : Type} (stop step : Z) (f g : Z -> St -> St) :
  0 < step ->
  forall fuel i s,
    (forall j s', i <= j < stop -> f j s' = g j s') ->
    for_loop fuel i stop step f s = for_loop fuel i stop step g s.
Proof.
  intros Hstep fuel. induction fuel as [|fuel IH]; intros i s Hfg; simpl.
  - reflexivity.
  - destruct (Z.ltb_spec i stop); [|reflexivity].
    rewrite Hfg by lia. apply IH. intros j s' Hj. apply Hfg. lia.
Qed.

Lemma bin_sample_local fmt d d' width height rowStride ix iy m :
  0 < width -> 0 < height -> 0 <= rowStride ->
  0 <= ix -> 0 <= m -> m <= iy - 2 \/ m = 0 -> iy + 2 < height -> 0 <= iy ->
  (forall a, m * rowStride <= a -> load d a = load d' a) ->
  bin_sample (reader_of fmt) d width height rowStride ix iy
  = bin_sample (reader_of fmt) d' width height rowStride ix iy.
Proof.
  intros Hw Hh Hrs Hx Hm0 Hm Hy Hy0 Hsame. unfold bin_sample.
  rewrite (Z.rem_small (iy + 2) height) by lia.
  rewrite (Z.rem_mod_nonneg (ix + 2) width) by lia.
  pose proof (Z.mod_pos_bound (ix + 2) width Hw) as Hxp.
  assert (Hloc : forall x y, 0 <= x -> m <= y ->
    reader_of fmt d x y rowStride = reader_of fmt d' x y rowStride).
  { intros x y Hx' Hy'. apply reader_of_local; auto.
    intros a Ha. apply Hsame. nia. }
  rewrite !(Hloc _ (Z.max 0 (iy - 2))) by lia.
  rewrite !(Hloc _ iy) by lia.
  rewrite !(Hloc _ (iy + 2)) by lia.
  reflexivity.
Qed.

Lemma bin_rows_local fmt idx0 d d' width height rowStride xstart xend
    binnedWidth y rows m :
  0 < width -> 0 < height -> 0 <= rowStride -> 0 <= xstart ->
  0 <= m -> m <= y - 2 \/ m = 0 -> y + 3 < height -> 0 <= y ->
  (forall a, m * rowStride <= a -> load d a = load d' a) ->
  bin_rows (reader_of fmt) idx0 d width height rowStride xstart xend
    binnedWidth y rows
  = bin_rows (reader_of fmt) idx0 d' width height rowStride xstart xend
      binnedWidth y rows.
Proof.
  intros Hw Hh Hrs Hxs Hm0 Hm Hy Hy0 Hsame. unfold bin_rows, for_range.
  apply for_loop_ext; [lia|]. intros j [row0 row1] Hj. unfold bin_body.
  rewrite (bin_sample_local fmt d d' width height rowStride j y m)
    by (auto; lia).
  rewrite (bin_sample_local fmt d d' width height rowStride (j + 1) y m)
    by (auto; lia).
  rewrite (bin_sample_local fmt d d' width height rowStride j (y + 1) m)
    by (auto; lia).
  rewrite (bin_sample_local fmt d d' width height rowStride (j + 1) (y + 1) m)
    by (auto; lia).
  reflexivity.
Qed.

Lemma binned_reference_nonneg read d width height rowStride ix iy :
  (forall x y, 0 <= read d x y rowStride) ->
  0 <= binned_reference read d width height rowStride ix iy.
Proof.
  intros Hread. unfold binned_reference, weighted_sum, kernel_weights, sumZ.
  simpl. apply Z.div_pos; [|lia].
  set (xm := Z.max 0 (ix - 2)). set (xp := (ix + 2) mod width).
  set (ym := Z.max 0 (iy - 2)). set (yp := (iy + 2) mod height).
  pose proof (Hread xm ym). pose proof (Hread ix ym). pose proof (Hread xp ym).
  pose proof (Hread xm iy). pose proof (Hread ix iy). pose proof (Hread xp iy).
  pose proof (Hread xm yp). pose proof (Hread ix yp). pose proof (Hread xp yp).
  lia.
Qed.

Section BinnedFrame.
Variable encodeFunc : list Z -> list Z.

(** One block row: bin from the original rows, pack the two binned rows. *)
Lemma cropAndBin_body_inv fmt d0 width height rowStride hc vc half k s :
  (forall x y, 0 <= reader_of fmt d0 x y rowStride < 16384) ->
  0 < width -> 0 < height -> 0 <= hc -> 0 <= vc -> 0 <= half -> 0 <= k ->
  6 * half <= rowStride ->
  vc + 4 * k + 3 < height ->
  6 * half * (k + 1) <= Z.of_nat (length d0) ->
  binned_inv (reader_of fmt) d0 width height rowStride hc vc half k s ->
  binned_inv (reader_of fmt) d0 width height rowStride hc vc half (k + 1)
    (cropAndBin_body encodeFunc (reader_of fmt) id pack_RAW12 false
       width height rowStride hc (hc + 4 * half) (2 * half)
       (vc + 4 * k) s).
Proof.
  intros Hread Hw Hh Hhc Hvc Hhalf Hk Hrs Hrow Hlen
         (Hl0 & Hl1 & Hoff & Hl & Hrest & Hdone).
  destruct s as [[row0 row1] [d off]]. cbn [fst snd] in *. subst off.
  unfold cropAndBin_body. cbn [fst snd].
  set (y := vc + 4 * k).
  (* the block loop reads rows that are still the original *)
  rewrite (bin_rows_local fmt id d d0 width height rowStride hc
             (hc + 4 * half) (2 * half) y (row0, row1)
             (if k =? 0 then 0 else y - 2)).
  2-5: lia.
  2: destruct (Z.eqb_spec k 0); lia.
  2: destruct (Z.eqb_spec k 0); lia.
  2-3: lia.
  2: { intros a Ha. apply Hrest.
       destruct (Z.eqb_spec k 0) as [-> | Hk0]; [lia|].
       unfold y in Ha. nia. }
  destruct (bin_rows_samples (reader_of fmt) id d0 width height rowStride hc
              half y row0 row1 ltac:(reflexivity) Hhalf Hl0 Hl1)
    as (_ & _ & Hr0 & Hr1 & Hrows).
  set (rows := bin_rows (reader_of fmt) id d0 width height rowStride hc
                 (hc + 4 * half) (2 * half) y (row0, row1)) in *.
  (* packing the two rows *)
  assert (Hn0 : Z.of_nat (length (fst rows)) / 2 = half)
    by (rewrite Hr0; Z.to_euclidean_division_equations; lia).
  assert (Hn1 : Z.of_nat (length (snd rows)) / 2 = half)
    by (rewrite Hr1; Z.to_euclidean_division_equations; lia).
  destruct (pack_RAW12_inv (fst rows) d (6 * half * k)) as
    (_ & Ho1 & Hlen1 & Hframe1 & Hgrp1); [nia | rewrite Hn0; nia |].
  rewrite Hn0 in Ho1, Hframe1, Hgrp1.
  destruct (pack_RAW12 (fst rows) (d, 6 * half * k)) as [d1 off1] eqn:E1.
  cbn [fst snd] in *. subst off1.
  destruct (pack_RAW12_inv (snd rows) d1 (6 * half * k + 3 * half)) as
    (_ & Ho2 & Hlen2 & Hframe2 & Hgrp2);
    [nia | rewrite Hn1, Hlen1; nia |].
  rewrite Hn1 in Ho2, Hframe2, Hgrp2.
  destruct (pack_RAW12 (snd rows) (d1, 6 * half * k + 3 * half))
    as [d2 off2] eqn:E2.
  cbn [fst snd] in *. subst off2.
  unfold binned_inv. cbn [fst snd].
  split; [exact Hr0|]. split; [exact Hr1|]. split; [lia|].
  split; [congruence|]. split.
  - intros a Ha. rewrite Hframe2 by lia. rewrite Hframe1 by lia.
    apply Hrest. nia.
  - intros r g t Hr Hg Ht.
    assert (Hsample : forall X, 0 <= X < half ->
      vget (fst rows) X
      = binned_pixel (reader_of fmt) d0 width height rowStride hc vc
          (2 * X) (2 * k) /\
      vget (fst rows) (X + half)
      = binned_pixel (reader_of fmt) d0 width height rowStride hc vc
          (2 * X + 1) (2 * k) /\
      vget (snd rows) X
      = binned_pixel (reader_of fmt) d0 width height rowStride hc vc
          (2 * X) (2 * k + 1) /\
      vget (snd rows) (X + half)
      = binned_pixel (reader_of fmt) d0 width height rowStride hc vc
          (2 * X + 1) (2 * k + 1)).
    { intros X HX. destruct (Hrows X ltac:(lia) ltac:(lia))
        as (S1 & S2 & S3 & S4).
      cbv zeta in S1, S2, S3, S4.
      rewrite S1, S2, S3, S4. unfold binned_pixel.
      rewrite !bin_sample_reference by (auto; unfold y; lia).
      repeat split; f_equal; unfold y;
        Z.to_euclidean_division_equations; lia. }
    destruct (Z.lt_ge_cases r (2 * k)) as [Hold | Hnew].
    + rewrite Hframe2 by nia. rewrite Hframe1 by nia.
      apply Hdone; lia.
    + destruct (Z.eq_dec r (2 * k)) as [-> | Hr1'].
      * rewrite Hframe2 by nia.
        replace (3 * half * (2 * k) + 3 * g + t)
          with (6 * half * k + 3 * g + t) by lia.
        rewrite Hgrp1 by lia.
        destruct (Hsample g Hg) as (-> & -> & _). reflexivity.
      * assert (r = 2 * k + 1) as -> by lia.
        replace (3 * half * (2 * k + 1) + 3 * g + t)
          with (6 * half * k + 3 * half + 3 * g + t) by lia.
        rewrite Hgrp2 by lia.
        destruct (Hsample g Hg) as (_ & _ & -> & ->). reflexivity.
Qed.


Lemma cropAndBin_rows_inv fmt d0 width height rowStride hc vc half K :
  (forall x y, 0 <= reader_of fmt d0 x y rowStride < 16384) ->
  0 < width -> 0 < height -> 0 <= hc -> 0 <= vc -> 0 <= half -> 0 <= K ->
  6 * half <= rowStride ->
  vc + 4 * K <= height ->
  6 * half * K <= Z.of_nat (length d0) ->
  binned_inv (reader_of fmt) d0 width height rowStride hc vc half K
    (for_range vc (vc + 4 * K) 4
       (cropAndBin_body encodeFunc (reader_of fmt) id pack_RAW12 false
          width height rowStride hc (hc + 4 * half) (2 * half))
       ((new_row (2 * half), new_row (2 * half)), (d0, 0))).
Proof.
  intros Hread Hw Hh Hhc Hvc Hhalf HK Hrs Hrows Hlen.
  destruct (for_range_inv
    (fun j s => exists k, j = vc + 4 * k /\ 0 <= k <= K /\
       binned_inv (reader_of fmt) d0 width height rowStride hc vc half k s)
    vc (vc + 4 * K) 4
    (cropAndBin_body encodeFunc (reader_of fmt) id pack_RAW12 false
       width height rowStride hc (hc + 4 * half) (2 * half))
    ((new_row (2 * half), new_row (2 * half)), (d0, 0)))
    as (j & Hj1 & Hj2 & k & Hjk & Hk & HP).
  - lia.
  - exists 0. split; [lia|]. split; [lia|].
    unfold binned_inv. cbn [fst snd]. rewrite length_new_row by lia.
    repeat split; intros; first [lia | reflexivity].
  - intros j s Hj (k & -> & Hk & HP). exists (k + 1).
    split; [lia|]. split; [lia|].
    apply cropAndBin_body_inv; auto; try lia; nia.
  - assert (k = K) as -> by lia. exact HP.
Qed.

End BinnedFrame.

Lemma reader_of_nonneg fmt d x y rowStride :
  0 <= reader_of fmt d x y rowStride.
Proof.
  rewrite <- reader_of_u16, u16_mod. apply Z.mod_pos_bound. lia.
Qed.

Lemma binned_reference_RAW12_bound d width height rowStride ix iy :
  is_bytes d ->
  0 <= binned_reference RAW12 d width height rowStride ix iy < 4096.
Proof.
  intros Hb. unfold binned_reference, weighted_sum, kernel_weights, sumZ.
  simpl.
  set (xm := Z.max 0 (ix - 2)). set (xp := (ix + 2) mod width).
  set (ym := Z.max 0 (iy - 2)). set (yp := (iy + 2) mod height).
  pose proof (RAW12_bound d xm ym rowStride Hb).
  pose proof (RAW12_bound d ix ym rowStride Hb).
  pose proof (RAW12_bound d xp ym rowStride Hb).
  pose proof (RAW12_bound d xm iy rowStride Hb).
  pose proof (RAW12_bound d ix iy rowStride Hb).
  pose proof (RAW12_bound d xp iy rowStride Hb).
  pose proof (RAW12_bound d xm yp rowStride Hb).
  pose proof (RAW12_bound d ix yp rowStride Hb).
  pose proof (RAW12_bound d xp yp rowStride Hb).
  Z.to_euclidean_division_equations; lia.
Qed.

Lemma sample_region_bytes n : is_bytes (sample_region n).
Proof.
  unfold is_bytes, sample_region. apply Forall_forall. intros v Hv.
  apply list_elem_of_In, in_map_iff in Hv. destruct Hv as (k & <- & _).
  apply Z.mod_pos_bound. lia.
Qed.

(** Side conditions on concrete dimensions. *)
Ltac in_bounds := unfold INT_MAX; simpl; lia.

(** ** The rounding of the crop amounts *)

Lemma rne_nonneg n d : 0 <= n -> 0 < d -> 0 <= Double.rne n d.
Proof.
  intros Hn Hd. unfold Double.rne.
  assert (0 <= n / d) by (apply Z.div_pos; lia).
  destruct (_ <? _); [lia|]. destruct (_ <? _); [lia|].
  destruct (Z.even _); lia.
Qed.

(** Rounding to nearest never crosses an integer. *)
Lemma rne_le n d M : 0 <= n -> 0 < d -> n <= M * d -> Double.rne n d <= M.
Proof.
  intros Hn Hd HM. unfold Double.rne.
  pose proof (Z.div_mod n d ltac:(lia)) as E.
  pose proof (Z.mod_pos_bound n d Hd) as Hr.
  assert (Hq : n / d <= M) by (apply Z.div_le_upper_bound; lia).
  assert (Hq1 : 0 < n mod d -> n / d + 1 <= M) by (intros; nia).
  destruct (Z.ltb_spec (2 * (n mod d)) d); [lia|].
  destruct (Z.ltb_spec d (2 * (n mod d))); [lia|].
  destruct (Z.even _); lia.
Qed.

Lemma of_ratio_nonneg n d : 0 <= n -> 0 < d -> 0 <= fst (Double.of_ratio n d).
Proof.
  intros Hn Hd. unfold Double.of_ratio.
  destruct (Z.eqb_spec n 0); [unfold INT_MAX; simpl; lia|].
  set (s := Z.log2 n - Z.log2 d - 53).
  assert (0 < 2 ^ s \/ s < 0)
    by (destruct (Z.lt_ge_cases s 0);
        [right; lia|left; apply Z.pow_pos_nonneg; lia]).
  assert (0 < 2 ^ (- s) \/ 0 < s)
    by (destruct (Z.lt_ge_cases 0 s);
        [right; lia|left; apply Z.pow_pos_nonneg; lia]).
  destruct (_ <? _); cbn [fst]; apply rne_nonneg;
    destruct (Z.leb_spec 0 s); try lia; nia.
Qed.

(** A quotient that is at most the integer [N] (itself a [double]) is still
    at most [N] after rounding to a [double]. *)
Lemma of_ratio_le n d N :
  0 <= n -> 0 < d -> 0 <= N <= 2 ^ 52 -> n <= N * d ->
  Double.le_int (Double.of_ratio n d) N.
Proof.
  intros Hn Hd HN Hle. unfold Double.of_ratio.
  destruct (Z.eqb_spec n 0) as [-> | Hn0].
  { unfold Double.le_int. simpl. lia. }
  assert (Hs : Z.log2 n - Z.log2 d - 53 <= -1).
  { pose proof (Z.log2_spec d Hd) as [_ Hd2].
    assert (Hlt : n < 2 ^ (53 + Z.log2 d)).
    { rewrite Z.pow_add_r by (pose proof (Z.log2_nonneg d); lia).
      change (2 ^ 53) with (2 * 2 ^ 52).
      replace (Z.succ (Z.log2 d)) with (Z.log2 d + 1) in Hd2 by lia.
      rewrite Z.pow_add_r in Hd2 by (pose proof (Z.log2_nonneg d); lia).
      change (2 ^ 1) with 2 in Hd2. nia. }
    apply Z.log2_lt_pow2 in Hlt; lia. }
  set (s := Z.log2 n - Z.log2 d - 53) in *.
  destruct (Z.leb_spec 0 s); [lia|].
  set (k := - s). assert (Hk : 1 <= k) by (unfold k; lia).
  assert (Hp : 0 < 2 ^ k) by (apply Z.pow_pos_nonneg; lia).
  assert (Hp1 : 2 ^ k = 2 * 2 ^ (k - 1)).
  { replace k with (1 + (k - 1)) at 1 by lia.
    rewrite Z.pow_add_r by lia. reflexivity. }
  assert (Hp2 : 0 < 2 ^ (k - 1)) by (apply Z.pow_pos_nonneg; lia).
  destruct (_ <? _); unfold Double.le_int; cbn [fst snd].
  - destruct (Z.leb_spec 0 s); [lia|]. fold k.
    apply rne_le; nia.
  - destruct (Z.leb_spec 0 (s + 1)).
    + assert (s + 1 = 0) as -> by lia. rewrite Z.mul_1_r.
      assert (k = 1) as Ek by (unfold k; lia). rewrite Ek in *.
      change (2 ^ 1) with 2. apply rne_le; lia.
    + replace (- (s + 1)) with (k - 1) by (unfold k; lia).
      apply rne_le; nia.
Qed.

(** For a percentage in [0,100] and an even [int] dimension, the rounded
    half share is at most half the dimension: the two roundings of the
    [double] computation cannot push it beyond. *)
Lemma lround_half_percent_range pct dim :
  0 <= pct <= 100 -> 0 <= dim <= INT_MAX -> Z.even dim = true ->
  0 <= lround_half_percent pct dim /\ 2 * lround_half_percent pct dim <= dim.
Proof.
  unfold INT_MAX. intros Hp Hd He.
  unfold lround_half_percent, Double.div_int.
  rewrite !Z.abs_eq by lia.
  destruct (Z.leb_spec 0 (pct * dim)); [|nia].
  pose proof (of_ratio_le pct 100 1 ltac:(lia) ltac:(lia) ltac:(lia)
                ltac:(lia)) as Hq.
  pose proof (of_ratio_nonneg pct 100 ltac:(lia) ltac:(lia)) as Hq0.
  destruct (Double.of_ratio pct 100) as [mq eq].
  unfold Double.le_int in Hq. cbn [fst snd] in *.
  assert (Hpv : Double.le_int (Double.mul_int (mq, eq) dim) dim /\
                0 <= fst (Double.mul_int (mq, eq) dim)).
  { unfold Double.mul_int. destruct (Z.leb_spec 0 eq).
    - assert (0 < 2 ^ eq) by (apply Z.pow_pos_nonneg; lia).
      split; [apply of_ratio_le|apply of_ratio_nonneg]; try lia; nia.
    - assert (0 < 2 ^ (- eq)) by (apply Z.pow_pos_nonneg; lia).
      split; [apply of_ratio_le|apply of_ratio_nonneg]; try lia; nia. }
  destruct Hpv as [Hpv Hp0].
  destruct (Double.mul_int (mq, eq) dim) as [m e].
  unfold Double.le_int in Hpv.
  cbn [fst snd Double.half Double.lround] in *.
  apply Z.even_spec in He. destruct He as [D ->].
  destruct (Z.leb_spec 0 (e - 1)).
  - destruct (Z.leb_spec 0 e); [|lia].
    assert (2 ^ e = 2 * 2 ^ (e - 1)).
    { replace e with (1 + (e - 1)) at 1 by lia.
      rewrite Z.pow_add_r by lia. reflexivity. }
    assert (0 < 2 ^ (e - 1)) by (apply Z.pow_pos_nonneg; lia).
    nia.
  - replace (- (e - 1) - 1) with (- e) by lia.
    replace (- (e - 1)) with (- e + 1) by lia.
    assert (Hk : 0 < 2 ^ (- e)) by (apply Z.pow_pos_nonneg; lia).
    rewrite Z.pow_add_r by lia. change (2 ^ 1) with 2.
    assert (Hm : m <= 2 * D * 2 ^ (- e)).
    { destruct (Z.leb_spec 0 e); [|exact Hpv].
      assert (e = 0) as -> by lia. simpl in *. lia. }
    split.
    + apply Z.div_pos; lia.
    + assert ((m + 2 ^ (- e)) / (2 ^ (- e) * 2) < D + 1); [|lia].
      apply Z.div_lt_upper_bound; nia.
Qed.

Lemma lround_half_percent_zero dim : lround_half_percent 0 dim = 0.
Proof. reflexivity. Qed.

(** The model of the [double] computation gives what the machine's floats
    give: checked for every percentage from -5 to 119 on the dimensions
    below. *)
Example lround_half_percent_is_binary64 :
  forallb
    (fun pct =>
       forallb
         (fun dim =>
            lround_half_percent pct dim =? lround_half_percent_float pct dim)
         ([0; 2; 4; 6; 16; 20; 40; 60; 80; 100; 120; 140; 180; 200; 220;
           260; 300; 340; 360; 380; 420; 460; 480; 500; 540; 600; 640; 720;
           760; 1000; 1080; 1280; 1440; 1800; 1920; 2000; 2160; 2560; 3000;
           3024; 3840; 4000; 4032; 4096; 4320; 8000; 65536; 1000000;
           12345678; 999999999; 2147483646; 2147483647; -180; -7]))
    (seqZ (-5) 125) = true.
Proof. vm_compute. reflexivity. Qed.

(** A tie: 35% of 180 is 63, half of it 31.5.  The [double] nearest to 0.35
    lies below 0.35, the product with 180 rounds to a [double] below 63,
    and [lround] of its half gives 31, not 32. *)
Example lround_half_percent_tie :
  lround_half_percent 35 180 = 31 /\
  lround_half_percent_float 35 180 = 31 /\
  (35 * 180 + 100) / 200 = 32.
Proof. vm_compute. auto. Qed.

(** ** The frame transforms *)

Section FrameTransforms.
Context {Metadata : Type}.
Variable encodeFunc : list Z -> list Z.
Implicit Types (c : @RawBufferStreamer Metadata) (b : @RawImageBuffer Metadata).

Lemma horizontalCrop_range c b :
  0 <= mCropWidth c <= 100 -> 0 <= width b <= INT_MAX ->
  Z.even (width b) = true ->
  0 <= horizontalCrop c b /\ 2 * horizontalCrop c b <= width b.
Proof.
  intros Hp Hd He. unfold horizontalCrop.
  destruct (lround_half_percent_range _ _ Hp Hd He) as [H0 H1].
  rewrite Z.quot_div_nonneg by lia.
  Z.to_euclidean_division_equations; lia.
Qed.

Lemma verticalCrop_range c b :
  0 <= mCropHeight c <= 100 -> 0 <= height b <= INT_MAX ->
  Z.even (height b) = true ->
  0 <= verticalCrop c b /\ 2 * verticalCrop c b <= height b.
Proof.
  intros Hp Hd He. unfold verticalCrop.
  destruct (lround_half_percent_range _ _ Hp Hd He) as [H0 H1].
  rewrite Z.quot_div_nonneg by lia.
  Z.to_euclidean_division_equations; lia.
Qed.

Lemma horizontalCrop_aligned c b : Z.rem (horizontalCrop c b) 4 = 0.
Proof. unfold horizontalCrop. rewrite Z.mul_comm. apply Z.rem_mul. lia. Qed.

Lemma verticalCrop_aligned c b : Z.rem (verticalCrop c b) 2 = 0.
Proof. unfold verticalCrop. rewrite Z.mul_comm. apply Z.rem_mul. lia. Qed.

(** The fields that [cropAndBin] sets, whatever the loops wrote. *)
Lemma cropAndBin_finish_fields c b out :
  let b' := cropAndBin_finish c b out in
  width b' = Z.quot (croppedWidth c b) 2 /\
  height b' = Z.quot (croppedHeight c b) 2 /\
  isBinned b' = true /\
  isCompressed b' = mEnableCompression c /\
  metadata b' = metadata b /\
  (mEnableCompression c = true ->
     pixelFormat b' = PixelFormat.RAW16 /\
     compressionType b' = CompressionType.BITNZPACK_2 /\
     rowStride b' = 2 * width b') /\
  (mEnableCompression c = false ->
     pixelFormat b' =
       (if PixelFormat.eqb (pixelFormat b) PixelFormat.RAW16
        then PixelFormat.RAW12 else pixelFormat b) /\
     compressionType b' = CompressionType.UNCOMPRESSED /\
     rowStride b' =
       (if PixelFormat.eqb (pixelFormat b) PixelFormat.RAW10
        then Z.quot (10 * width b') 8 else Z.quot (12 * width b') 8)).
Proof.
  destruct out as [bs e]. unfold cropAndBin_finish.
  destruct (mEnableCompression c); simpl; repeat split; intros; congruence.
Qed.

Lemma cropAndBin_supported c b :
  PixelFormat.supported (pixelFormat b) = true ->
  exists out, cropAndBin encodeFunc c b = cropAndBin_finish c b out.
Proof.
  unfold cropAndBin. destruct (pixelFormat b); simpl; intros H;
    try discriminate; eexists; reflexivity.
Qed.


(** C5.  For every frame of a supported format (even [int] dimensions,
    crop percentages in [0,100]), [cropAndBin] sets the width
    to floor((width - 2*horizontalCrop)/2), the height to
    floor((height - 2*verticalCrop)/2) and [isBinned]; with compression
    enabled it sets RAW16, BITNZPACK_2, [isCompressed] and a row stride of
    twice the new width; with compression disabled it keeps RAW10 and
    RAW12 (RAW16 becomes RAW12), sets the natural packed stride
    (10*width'/8 or 12*width'/8), clears [isCompressed] and sets
    UNCOMPRESSED. *)
Theorem cropAndBin_fields c b :
  PixelFormat.supported (pixelFormat b) = true ->
  0 <= mCropWidth c <= 100 -> 0 <= mCropHeight c <= 100 ->
  0 <= width b <= INT_MAX -> Z.even (width b) = true ->
  0 <= height b <= INT_MAX -> Z.even (height b) = true ->
  let b' := cropAndBin encodeFunc c b in
  width b' = (width b - 2 * horizontalCrop c b) / 2 /\
  height b' = (height b - 2 * verticalCrop c b) / 2 /\
  isBinned b' = true /\
  (mEnableCompression c = true ->
     pixelFormat b' = PixelFormat.RAW16 /\
     compressionType b' = CompressionType.BITNZPACK_2 /\
     isCompressed b' = true /\
     rowStride b' = 2 * width b') /\
  (mEnableCompression c = false ->
     pixelFormat b' =
       match pixelFormat b with
       | PixelFormat.RAW10 => PixelFormat.RAW10
       | _ => PixelFormat.RAW12
       end /\
     rowStride b' =
       match pixelFormat b with
       | PixelFormat.RAW10 => 10 * width b' / 8
       | _ => 12 * width b' / 8
       end /\
     isCompressed b' = false /\
     compressionType b' = CompressionType.UNCOMPRESSED).
Proof.
  intros Hfmt Hcw Hch Hw Hwe Hh Hhe b'.
  destruct (cropAndBin_supported c b Hfmt) as [out Hout].
  subst b'. rewrite Hout.
  destruct (cropAndBin_finish_fields c b out)
    as (Ew & Eh & Eb & Ec & _ & Hon & Hoff).
  destruct (horizontalCrop_range c b Hcw Hw Hwe) as [Hc0 Hc1].
  destruct (verticalCrop_range c b Hch Hh Hhe) as [Hv0 Hv1].
  assert (Hw' : 0 <= width (cropAndBin_finish c b out)).
  { rewrite Ew. unfold croppedWidth. apply Z.quot_pos; lia. }
  split; [|split; [|split; [|split]]].
  - rewrite Ew. unfold croppedWidth.
    rewrite Z.quot_div_nonneg by lia. f_equal. lia.
  - rewrite Eh. unfold croppedHeight.
    rewrite Z.quot_div_nonneg by lia. f_equal. lia.
  - exact Eb.
  - intros Hen. destruct (Hon Hen) as (-> & -> & ->).
    rewrite Ec, Hen. auto.
  - intros Hen. destruct (Hoff Hen) as (-> & -> & ->).
    rewrite Ec, Hen.
    rewrite <- !Z.quot_div_nonneg by lia.
    destruct (pixelFormat b); simpl in *; try discriminate; auto.
Qed.

Lemma same_frame_refl b : same_frame b b.
Proof. unfold same_frame. auto 10. Qed.

Lemma same_frame_relock b :
  same_frame b (setData b (unlock (lock (data b)))).
Proof. unfold same_frame. simpl. auto 10. Qed.

(** C6.  A frame whose pixel format is none of RAW10, RAW12, RAW16 leaves
    [crop], [cropAndCompress] and [cropAndBin] with its data bytes, valid
    range, width, height, row stride, pixel format, compression type,
    flags and metadata unchanged, and the [doProcess] thread that holds it
    still appends it to the ready queue. *)
Theorem unsupported_format_untouched c b :
  PixelFormat.supported (pixelFormat b) = false ->
  same_frame b (crop c b) /\
  same_frame b (cropAndCompress encodeFunc c b) /\
  same_frame b (cropAndBin encodeFunc c b) /\
  forall (st : Pipeline.state) (i : nat),
    Pipeline.streamer st = c ->
    Pipeline.processThreads st !! i = Some (Pipeline.PHold b) ->
    exists b',
      same_frame b b' /\
      mReadyBuffers (Pipeline.streamer (Pipeline.doProcess_step encodeFunc i st))
      = mReadyBuffers c ++ [b'].
Proof.
  intros Hfmt.
  assert (Hcrop : same_frame b (crop c b)).
  { unfold crop. destruct (pixelFormat b) eqn:E; try discriminate.
    destruct (_ && _); [apply same_frame_refl|apply same_frame_relock]. }
  assert (Hcomp : same_frame b (cropAndCompress encodeFunc c b)).
  { unfold cropAndCompress. destruct (pixelFormat b) eqn:E; try discriminate.
    apply same_frame_relock. }
  assert (Hbin : same_frame b (cropAndBin encodeFunc c b)).
  { unfold cropAndBin. destruct (pixelFormat b) eqn:E; try discriminate.
    apply same_frame_relock. }
  split; [assumption|]. split; [assumption|]. split; [assumption|].
  intros st i Hc Hi. exists (processBuffer encodeFunc c b). split.
  - unfold processBuffer. destruct (mBin c); [assumption|].
    destruct (mEnableCompression c); assumption.
  - unfold Pipeline.doProcess_step. rewrite Hi, Hc. reflexivity.
Qed.

(** C8.  With binning and compression disabled, a RAW16 frame always goes
    through the packing loop of [crop], also when both crop percentages
    are 0: the region is locked and rewritten by the RAW16 branch, and the
    frame comes back as RAW12, uncompressed, with row stride
    12*croppedWidth/8; it is never left as RAW16.  With both percentages 0
    the dimensions are kept.  On a frame at rest every pixel of the result,
    read as RAW12, is the pixel of the crop window of the original RAW16
    frame, reduced to its low 12 bits. *)
Theorem crop_RAW16_always_packs c b :
  pixelFormat b = PixelFormat.RAW16 ->
  mBin c = false -> mEnableCompression c = false ->
  let b' := processBuffer encodeFunc c b in
  pixelFormat b' = PixelFormat.RAW12 /\
  rowStride b' = Z.quot (12 * croppedWidth c b) 8 /\
  compressionType b' = CompressionType.UNCOMPRESSED /\
  isCompressed b' = false /\
  width b' = croppedWidth c b /\
  height b' = croppedHeight c b /\
  bytes (data b') = crop_RAW16_loop c b (bytes (data b)) /\
  lockCount (data b') = S (lockCount (data b)) /\
  (mCropWidth c = 0 -> mCropHeight c = 0 ->
   width b' = width b /\ height b' = height b /\
   rowStride b' = Z.quot (12 * width b) 8) /\
  (0 <= mCropWidth c <= 100 -> 0 <= mCropHeight c <= 100 ->
   0 <= width b <= INT_MAX -> Z.even (width b) = true ->
   0 <= height b <= INT_MAX -> Z.even (height b) = true ->
   2 * width b <= rowStride b ->
   rowStride b * height b <= Z.of_nat (length (bytes (data b))) ->
   forall x y, 0 <= x < width b' -> 0 <= y < height b' ->
     RAW12 (bytes (data b')) x y (rowStride b')
     = RAW16 (bytes (data b)) (horizontalCrop c b + x) (verticalCrop c b + y)
         (rowStride b) mod 4096).
Proof.
  intros Hfmt Hbin Hcomp. unfold processBuffer. rewrite Hbin, Hcomp.
  unfold crop. rewrite Hfmt. simpl. rewrite !andb_false_r.
  repeat (split; [reflexivity|]). split.
  - intros Hcw Hch.
    unfold crop_finish; simpl.
    unfold croppedWidth, croppedHeight, horizontalCrop, verticalCrop.
    rewrite Hcw, Hch, !lround_half_percent_zero; simpl.
    rewrite !Z.sub_0_r. auto.
  - intros Hcw Hch Hw Hwe Hh Hhe Hrs Hlen x y Hx Hy.
    unfold crop_finish in *; simpl in *.
    destruct (horizontalCrop_range c b Hcw Hw Hwe) as [Hc0 Hc1].
    destruct (verticalCrop_range c b Hch Hh Hhe) as [Hv0 Hv1].
    unfold crop_RAW16_loop.
    set (hc := horizontalCrop c b) in *. set (vc := verticalCrop c b) in *.
    set (half := (width b - 2 * hc) / 2).
    assert (Hcwd : croppedWidth c b = 2 * half).
    { unfold croppedWidth. fold hc. unfold half.
      assert (Hhc4 : Z.rem hc 4 = 0) by apply horizontalCrop_aligned.
      rewrite Z.rem_mod_nonneg in Hhc4 by lia.
      apply Z.even_spec in Hwe. destruct Hwe as [k Hk]. rewrite Hk.
      Z.to_euclidean_division_equations; lia. }
    assert (Hchd : croppedHeight c b = height b - 2 * vc)
      by (unfold croppedHeight; fold vc; lia).
    rewrite Hcwd in *. rewrite Hchd in Hy.
    replace (Z.quot (12 * (2 * half)) 8) with (3 * half)
      by (rewrite Z.quot_div_nonneg by lia;
          Z.to_euclidean_division_equations; lia).
    replace (width b - hc) with (hc + 2 * half)
      by (unfold croppedWidth in Hcwd; fold hc in Hcwd; lia).
    replace (height b - vc) with (vc + (height b - 2 * vc)) by lia.
    apply crop_RAW16_loop_pixels; try lia;
      unfold croppedWidth in Hcwd; fold hc in Hcwd; nia.
Qed.

(** C10.  With binning and compression disabled and both crop percentages
    0, a RAW10 or RAW12 frame comes back from [processBuffer] (that is,
    from [crop]) exactly as it went in: no field is written, the valid
    range included, and the data region has not been locked. *)
Theorem crop_zero_is_noop c b :
  mBin c = false -> mEnableCompression c = false ->
  mCropWidth c = 0 -> mCropHeight c = 0 ->
  pixelFormat b = PixelFormat.RAW10 \/ pixelFormat b = PixelFormat.RAW12 ->
  processBuffer encodeFunc c b = crop c b /\
  crop c b = b /\
  validRange (data (crop c b)) = validRange (data b) /\
  lockCount (data (crop c b)) = lockCount (data b).
Proof.
  intros Hbin Hcomp Hcw Hch Hfmt.
  assert (E : crop c b = b).
  { unfold crop. rewrite Hcw, Hch. destruct Hfmt as [-> | ->]; reflexivity. }
  unfold processBuffer. rewrite Hbin, Hcomp, E. auto.
Qed.

(** The row loop of [cropAndCompress] splits, encodes and appends one row
    after the other. *)
Lemma cropAndCompress_rows read rowStride xstart half ystart yend row0 mem0 :
  (forall d x y, u16 (read d x y rowStride) = read d x y rowStride) ->
  0 <= half -> ystart <= yend ->
  Z.of_nat (length row0) = 2 * half ->
  snd (for_range ystart yend 1
         (cropAndCompress_body encodeFunc read rowStride xstart
            (xstart + 2 * half) half)
         (row0, mem0))
  = compress_rows_reference encodeFunc read rowStride xstart half
      (seqZ ystart (yend - ystart)) mem0.
Proof.
  intros Hu16 Hhalf Hy Hlen.
  destruct (for_range_inv
    (fun j (s : list Z * (list Z * Z)) =>
       ystart <= j /\ Z.of_nat (length (fst s)) = 2 * half /\
       snd s = compress_rows_reference encodeFunc read rowStride xstart half
                 (seqZ ystart (j - ystart)) mem0)
    ystart yend 1
    (cropAndCompress_body encodeFunc read rowStride xstart
       (xstart + 2 * half) half)
    (row0, mem0))
    as (j & Hj1 & Hj2 & Hge & Hl & Hmem).
  - lia.
  - simpl. rewrite Z.sub_diag. auto with lia.
  - intros j [row mem] Hj (Hge & Hl & Hmem). simpl in Hl, Hmem.
    unfold cropAndCompress_body.
    rewrite split_row_reference by auto.
    split; [lia|]. split.
    + simpl. apply length_split_reference. assumption.
    + simpl. replace (j + 1 - ystart) with ((j - ystart) + 1) by lia.
      rewrite seqZ_app by lia. unfold compress_rows_reference.
      rewrite fold_left_app. fold (compress_rows_reference encodeFunc read
        rowStride xstart half (seqZ ystart (j - ystart)) mem0).
      rewrite <- Hmem. replace (ystart + (j - ystart)) with j by lia.
      destruct mem as [d off]. reflexivity.
  - assert (j = yend) as -> by lia. exact Hmem.
Qed.

(** [cropAndCompress] on the region as it stands.  For every frame of a
    supported format (even [int] dimensions, crop percentages in [0,100]),
    [cropAndCompress] crops symmetrically by [horizontalCrop] columns and
    [verticalCrop] rows per side, both multiples of 2 ([horizontalCrop] is
    even a multiple of 4, as in [crop]); it rearranges each row of the crop
    window, read from the region as it is at that point, as
    [even-column samples || odd-column samples], writes its encoding at the
    running offset, and on return the frame is RAW16, BITNZPACK_2,
    compressed, with the cropped width and height, a row stride of twice the
    width, and a valid range from 0 to the total encoded length.  As long as
    the encoded output stays below the row that is read next (the assumption
    that the source notes at the loops), the rows encoded are the rows of
    the original frame. *)
Lemma cropAndCompress_result c b :
  PixelFormat.supported (pixelFormat b) = true ->
  0 <= mCropWidth c <= 100 -> 0 <= mCropHeight c <= 100 ->
  0 <= width b <= INT_MAX -> Z.even (width b) = true ->
  0 <= height b <= INT_MAX -> Z.even (height b) = true ->
  let hc := horizontalCrop c b in
  let vc := verticalCrop c b in
  let b' := cropAndCompress encodeFunc c b in
  let out :=
    compress_rows_reference encodeFunc (reader_of (pixelFormat b))
      (rowStride b) hc ((width b - 2 * hc) / 2)
      (seqZ vc (height b - 2 * vc)) (bytes (data b), 0) in
  hc mod 2 = 0 /\ hc mod 4 = 0 /\ vc mod 2 = 0 /\
  width b' = width b - 2 * hc /\
  height b' = height b - 2 * vc /\
  pixelFormat b' = PixelFormat.RAW16 /\
  compressionType b' = CompressionType.BITNZPACK_2 /\
  isCompressed b' = true /\
  rowStride b' = 2 * width b' /\
  bytes (data b') = fst out /\
  validRange (data b') = (0, snd out) /\
  (0 <= rowStride b ->
   (forall k, 0 < k < height b - 2 * vc ->
      snd (compress_rows_original encodeFunc (reader_of (pixelFormat b))
             (bytes (data b)) (rowStride b) hc ((width b - 2 * hc) / 2)
             (seqZ vc k) (bytes (data b), 0))
      <= (vc + k) * rowStride b) ->
   out = compress_rows_original encodeFunc (reader_of (pixelFormat b))
           (bytes (data b)) (rowStride b) hc ((width b - 2 * hc) / 2)
           (seqZ vc (height b - 2 * vc)) (bytes (data b), 0)).
Proof.
  intros Hfmt Hcw Hch Hw Hwe Hh Hhe hc vc b' out.
  destruct (horizontalCrop_range c b Hcw Hw Hwe) as [Hc0 Hc1].
  destruct (verticalCrop_range c b Hch Hh Hhe) as [Hv0 Hv1].
  fold hc in Hc0, Hc1. fold vc in Hv0, Hv1.
  assert (Hhc4 : hc mod 4 = 0).
  { unfold hc. rewrite <- Z.rem_mod_nonneg by (fold hc; lia).
    apply horizontalCrop_aligned. }
  assert (Hvc2 : vc mod 2 = 0).
  { unfold vc. rewrite <- Z.rem_mod_nonneg by (fold vc; lia).
    apply verticalCrop_aligned. }
  set (half := (width b - 2 * hc) / 2) in *.
  assert (Hcwd : croppedWidth c b = 2 * half).
  { unfold croppedWidth. fold hc. unfold half.
    apply Z.even_spec in Hwe. destruct Hwe as [k Hk]. rewrite Hk.
    Z.to_euclidean_division_equations; lia. }
  assert (Hhalf : 0 <= half) by (unfold half; apply Z.div_pos; lia).
  assert (Hloop : forall read,
    (forall d x y, u16 (read d x y (rowStride b)) = read d x y (rowStride b)) ->
    cropAndCompress_loop encodeFunc read c b (bytes (data b))
    = compress_rows_reference encodeFunc read (rowStride b) hc half
        (seqZ vc (height b - 2 * vc)) (bytes (data b), 0)).
  { intros read Hread. unfold cropAndCompress_loop. fold hc vc.
    rewrite Hcwd.
    replace (Z.shiftr (2 * half) 1) with half
      by (rewrite Z.shiftr_div_pow2 by lia; change (2 ^ 1) with 2;
          Z.to_euclidean_division_equations; lia).
    replace (width b - hc) with (hc + 2 * half)
      by (unfold croppedWidth in Hcwd; fold hc in Hcwd; lia).
    rewrite cropAndCompress_rows; auto.
    - do 2 f_equal. lia.
    - lia.
    - apply length_new_row. lia. }
  assert (Hres : b' = cropAndCompress_finish c b out).
  { unfold b', cropAndCompress, out.
    destruct (pixelFormat b); try discriminate; simpl;
      rewrite Hloop; auto; intros; apply u16_idem. }
  assert (Hplace : 0 <= rowStride b ->
    (forall k, 0 < k < height b - 2 * vc ->
       snd (compress_rows_original encodeFunc (reader_of (pixelFormat b))
              (bytes (data b)) (rowStride b) hc half
              (seqZ vc k) (bytes (data b), 0))
       <= (vc + k) * rowStride b) ->
    out = compress_rows_original encodeFunc (reader_of (pixelFormat b))
            (bytes (data b)) (rowStride b) hc half
            (seqZ vc (height b - 2 * vc)) (bytes (data b), 0)).
  { intros Hrs Hfit. unfold out.
    destruct (compress_rows_in_place encodeFunc (pixelFormat b)
                (bytes (data b)) (rowStride b) hc half vc Hc0 Hrs Hv0
                (Z.to_nat (height b - 2 * vc))) as [Heq _].
    - intros k Hk. apply Hfit. lia.
    - rewrite Z2Nat.id in Heq by lia. exact Heq. }
  rewrite Hres. destruct out as [bs e].
  unfold cropAndCompress_finish, setValidRange, unlock, setBytes, lock.
  cbn [width height rowStride pixelFormat compressionType isCompressed
       data bytes validRange fst snd].
  unfold croppedHeight. fold hc vc. rewrite Hcwd.
  split; [Z.to_euclidean_division_equations; lia|].
  split; [exact Hhc4|].
  split; [exact Hvc2|].
  split; [unfold croppedWidth in Hcwd; fold hc in Hcwd; lia|].
  split; [lia|].
  repeat (split; [first [reflexivity | lia]|]).
  exact Hplace.
Qed.

(** X4.  Binning without compression, end to end.  For a RAW12 or RAW16
    frame at rest whose width and height are multiples of 4 (samples below
    2^14), every pixel of the frame that [cropAndBin] returns, read as
    RAW12, is the weighted 3x3 like-colour sum, divided by 16, around the
    corresponding pixel of the original frame (reduced to its low 12 bits):
    the packed output never overtakes the rows that are still to be read. *)
Theorem cropAndBin_pixels c b :
  mEnableCompression c = false ->
  pixelFormat b = PixelFormat.RAW12 \/ pixelFormat b = PixelFormat.RAW16 ->
  (forall x y,
     reader_of (pixelFormat b) (bytes (data b)) x y (rowStride b) < 16384) ->
  0 <= mCropWidth c <= 100 -> 0 <= mCropHeight c <= 100 ->
  0 < width b <= INT_MAX -> width b mod 4 = 0 ->
  0 < height b <= INT_MAX -> height b mod 4 = 0 ->
  12 * width b <= 8 * rowStride b ->
  rowStride b * height b <= Z.of_nat (length (bytes (data b))) ->
  let b' := cropAndBin encodeFunc c b in
  forall x' y', 0 <= x' < width b' -> 0 <= y' < height b' ->
    RAW12 (bytes (data b')) x' y' (rowStride b')
    = binned_pixel (reader_of (pixelFormat b)) (bytes (data b))
        (width b) (height b) (rowStride b)
        (horizontalCrop c b) (verticalCrop c b) x' y' mod 4096.
Proof.
  intros Hcomp Hfmt Hsmall Hcw Hch Hw Hw4 Hh Hh4 Hrs Hlen b' x' y'.
  assert (Hwe : Z.even (width b) = true).
  { apply Z.even_spec. exists (2 * (width b / 4)).
    Z.to_euclidean_division_equations; lia. }
  assert (Hhe : Z.even (height b) = true).
  { apply Z.even_spec. exists (2 * (height b / 4)).
    Z.to_euclidean_division_equations; lia. }
  destruct (horizontalCrop_range c b Hcw ltac:(unfold INT_MAX in *; lia) Hwe)
    as [Hc0 Hc1].
  destruct (verticalCrop_range c b Hch ltac:(unfold INT_MAX in *; lia) Hhe)
    as [Hv0 Hv1].
  pose proof (horizontalCrop_aligned c b) as Hc4.
  pose proof (verticalCrop_aligned c b) as Hv2.
  rewrite Z.rem_mod_nonneg in Hc4, Hv2 by lia.
  set (hc := horizontalCrop c b) in *. set (vc := verticalCrop c b) in *.
  set (half := (width b - 2 * hc) / 4).
  set (K := (height b - 2 * vc) / 4).
  assert (Hcwd : croppedWidth c b = 4 * half).
  { unfold croppedWidth. fold hc. unfold half.
    Z.to_euclidean_division_equations; lia. }
  assert (Hchd : croppedHeight c b = 4 * K).
  { unfold croppedHeight. fold vc. unfold K.
    Z.to_euclidean_division_equations; lia. }
  assert (Hhalf : 0 <= half) by (unfold croppedWidth in Hcwd; fold hc in Hcwd; lia).
  assert (HK : 0 <= K) by (unfold croppedHeight in Hchd; fold vc in Hchd; lia).
  assert (Hbw : Z.quot (croppedWidth c b) 2 = 2 * half).
  { rewrite Hcwd, Z.quot_div_nonneg by lia.
    Z.to_euclidean_division_equations; lia. }
  assert (Hbh : Z.quot (croppedHeight c b) 2 = 2 * K).
  { rewrite Hchd, Z.quot_div_nonneg by lia.
    Z.to_euclidean_division_equations; lia. }
  assert (Hxend : width b - hc = hc + 4 * half)
    by (unfold croppedWidth in Hcwd; fold hc in Hcwd; lia).
  assert (Hyend : height b - vc = vc + 4 * K)
    by (unfold croppedHeight in Hchd; fold vc in Hchd; lia).
  set (read := reader_of (pixelFormat b)) in *.
  destruct (cropAndBin_rows_inv encodeFunc (pixelFormat b) (bytes (data b))
              (width b) (height b) (rowStride b) hc vc half K)
    as (_ & _ & _ & _ & _ & Hdone); try lia.
  { intros x y. split; [apply reader_of_nonneg|apply Hsmall]. }
  { unfold croppedWidth in Hcwd; fold hc in Hcwd.
    unfold croppedHeight in Hchd; fold vc in Hchd. nia. }
  fold read in Hdone.
  assert (Hres : b' =
    cropAndBin_finish c b
      (snd (for_range vc (vc + 4 * K) 4
              (cropAndBin_body encodeFunc read id pack_RAW12 false
                 (width b) (height b) (rowStride b) hc (hc + 4 * half)
                 (2 * half))
              ((new_row (2 * half), new_row (2 * half)),
               (bytes (data b), 0))))).
  { unfold b', cropAndBin. fold hc vc. rewrite Hbw, Hxend, Hyend, Hcomp.
    unfold read.
    destruct Hfmt as [E | E]; rewrite E; reflexivity. }
  set (out := snd (for_range vc (vc + 4 * K) 4 _ _)) in *.
  rewrite Hres. destruct out as [d' off'] eqn:Eout. cbn [fst snd] in Hdone.
  unfold cropAndBin_finish. rewrite Hcomp, Hbw, Hbh.
  cbn [width height rowStride data bytes setValidRange unlock setBytes lock].
  assert (Estride :
    (if PixelFormat.eqb (pixelFormat b) PixelFormat.RAW10
     then Z.quot (10 * (2 * half)) 8 else Z.quot (12 * (2 * half)) 8)
    = 3 * half).
  { destruct Hfmt as [E | E]; rewrite E; simpl;
      rewrite Z.quot_div_nonneg by lia;
      Z.to_euclidean_division_equations; lia. }
  rewrite Estride.
  intros Hx Hy.
  rewrite RAW12_group by lia.
  assert (Hg : 0 <= x' / 2 < half) by (Z.to_euclidean_division_equations; lia).
  replace (y' * (3 * half) + 3 * (x' / 2) + x' mod 2)
    with (3 * half * y' + 3 * (x' / 2) + x' mod 2) by lia.
  replace (y' * (3 * half) + 3 * (x' / 2) + 2)
    with (3 * half * y' + 3 * (x' / 2) + 2) by lia.
  assert (Hbit : x' mod 2 = 0 \/ x' mod 2 = 1)
    by (Z.to_euclidean_division_equations; lia).
  rewrite (Hdone y' (x' / 2) 2) by lia.
  assert (Hpos : forall u v,
    0 <= binned_pixel read (bytes (data b)) (width b) (height b)
           (rowStride b) hc vc u v).
  { intros u v. unfold binned_pixel. apply binned_reference_nonneg.
    intros x y. apply reader_of_nonneg. }
  destruct Hbit as [E | E]; rewrite E.
  - rewrite (Hdone y' (x' / 2) 0) by lia.
    rewrite raw12_decode_even_mod by apply Hpos.
    do 2 f_equal. Z.to_euclidean_division_equations; lia.
  - rewrite (Hdone y' (x' / 2) 1) by lia.
    rewrite raw12_decode_odd_mod by apply Hpos.
    do 2 f_equal. Z.to_euclidean_division_equations; lia.
Qed.

(** [setCropAmount] is guarded: while the streamer runs it changes
    nothing. *)
Lemma setCropAmount_running c w h :
  mRunning c = true -> setCropAmount c w h = c.
Proof. intros H. unfold setCropAmount. rewrite H. reflexivity. Qed.

Lemma setCropAmount_mRunning c w h :
  mRunning (setCropAmount c w h) = mRunning c.
Proof. unfold setCropAmount. destruct (negb (mRunning c)); reflexivity. Qed.

End FrameTransforms.

Lemma cropAndBin_fields_witness :
  let c := sample_streamer 10 10 true false in
  let b := sample_buffer PixelFormat.RAW10 80 40 100 in
  let b' := cropAndBin two_byte_codec c b in
  width b' = 36 /\ height b' = 18 /\ isBinned b' = true /\
  pixelFormat b' = PixelFormat.RAW10 /\ rowStride b' = 45 /\
  isCompressed b' = false /\
  compressionType b' = CompressionType.UNCOMPRESSED.
Proof.
  intros c b b'.
  destruct (cropAndBin_fields two_byte_codec c b)
    as (Hw & Hh & Hb & _ & Hoff);
    [reflexivity | unfold INT_MAX; simpl; lia | unfold INT_MAX; simpl; lia | unfold INT_MAX; simpl; lia
    | reflexivity | unfold INT_MAX; simpl; lia | reflexivity |].
  destruct (Hoff eq_refl) as (Hf & Hs & Hc & Ht).
  fold b' in Hw, Hh, Hb, Hf, Hs, Hc, Ht.
  rewrite Hf, Hs, Hw, Hh, Hc, Ht, Hb. vm_compute. auto 10.
Defined.

Lemma unsupported_format_untouched_witness :
  let c := sample_streamer 10 10 false false in
  let b := sample_buffer (PixelFormat.Other 0) 8 4 10 in
  same_frame b (crop c b) /\
  same_frame b (cropAndCompress two_byte_codec c b) /\
  same_frame b (cropAndBin two_byte_codec c b).
Proof.
  intros c b.
  destruct (unsupported_format_untouched two_byte_codec c b eq_refl)
    as (H1 & H2 & H3 & _).
  auto.
Defined.

Lemma crop_RAW16_always_packs_witness :
  let c := sample_streamer 0 0 false false in
  let b := sample_buffer PixelFormat.RAW16 4 2 8 in
  let b' := processBuffer two_byte_codec c b in
  pixelFormat b' = PixelFormat.RAW12 /\ rowStride b' = 6 /\
  compressionType b' = CompressionType.UNCOMPRESSED /\
  bytes (data b') <> bytes (data b) /\
  RAW12 (bytes (data b')) 3 1 (rowStride b')
  = RAW16 (bytes (data b)) 3 1 (rowStride b) mod 4096.
Proof.
  intros c b b'.
  destruct (crop_RAW16_always_packs two_byte_codec c b eq_refl eq_refl eq_refl)
    as (Hf & Hs & Hc & _ & _ & _ & Hb & _ & _ & Hpix).
  fold b' in Hf, Hs, Hc, Hb, Hpix.
  split; [rewrite Hf; reflexivity|]. split; [rewrite Hs; reflexivity|].
  split; [rewrite Hc; reflexivity|]. split.
  - rewrite Hb. vm_compute. discriminate.
  - rewrite Hpix; try (unfold INT_MAX; simpl; lia); try reflexivity.
    all: vm_compute; intuition congruence.
Defined.

Lemma crop_zero_is_noop_witness :
  let c := sample_streamer 0 0 false false in
  let b := sample_buffer PixelFormat.RAW10 8 4 10 in
  processBuffer two_byte_codec c b = b.
Proof.
  intros c b.
  destruct (crop_zero_is_noop two_byte_codec c b
              eq_refl eq_refl eq_refl eq_refl (or_introl eq_refl))
    as (H1 & H2 & _).
  rewrite H1. exact H2.
Defined.

(** C7, at the failing input.  [setBin] has no guard: called on a running
    streamer it overwrites [mBin], where [setCropAmount] on the same
    streamer changes nothing. *)
Theorem setBin_while_running :
  let st := Pipeline.start (@Pipeline.new_streamer unit) 1 false 1 in
  let c := Pipeline.streamer st in
  mRunning c = true /\
  mBin c = false /\
  mBin (setBin c true) = true /\
  setCropAmount c 10 10 = c.
Proof. vm_compute. auto. Qed.

Lemma cropAndCompress_result_witness :
  let c := sample_streamer 10 10 false true in
  let b := sample_buffer PixelFormat.RAW16 80 40 160 in
  let b' := cropAndCompress two_byte_codec c b in
  width b' = 72 /\ height b' = 36 /\ rowStride b' = 144 /\
  pixelFormat b' = PixelFormat.RAW16 /\
  compressionType b' = CompressionType.BITNZPACK_2 /\
  isCompressed b' = true /\
  validRange (data b') = (0, 72 * 2 * 36) /\
  bytes (data b')
  = fst (compress_rows_original two_byte_codec RAW16 (bytes (data b))
           160 4 36 (seqZ 2 36) (bytes (data b), 0)).
Proof.
  intros c b b'.
  destruct (cropAndCompress_result two_byte_codec c b)
    as (_ & _ & _ & Hw & Hh & Hf & Hc & Hi & Hs & Hb & Hv & Hplace);
    [reflexivity | unfold INT_MAX; simpl; lia | unfold INT_MAX; simpl; lia | unfold INT_MAX; simpl; lia
    | reflexivity | unfold INT_MAX; simpl; lia | reflexivity |].
  fold b' in Hw, Hh, Hf, Hc, Hi, Hs, Hb, Hv.
  rewrite Hs, Hw, Hh, Hf, Hc, Hi, Hv, Hb.
  rewrite Hplace.
  - repeat (split; [vm_compute; reflexivity|]). reflexivity.
  - vm_compute. discriminate.
  - intros k Hk.
    rewrite compress_rows_original_two_byte by (vm_compute; discriminate).
    rewrite length_seqZ.
    change (height b - 2 * verticalCrop c b) with 36 in Hk.
    change ((width b - 2 * horizontalCrop c b) / 2) with 36.
    change (verticalCrop c b) with 2. change (rowStride b) with 160.
    cbn [snd]. lia.
Defined.

Lemma cropAndBin_pixels_witness :
  let c := sample_streamer 0 0 true false in
  let b := sample_buffer PixelFormat.RAW12 16 8 24 in
  let b' := cropAndBin two_byte_codec c b in
  width b' = 8 /\ height b' = 4 /\
  RAW12 (bytes (data b')) 5 3 (rowStride b')
  = binned_reference RAW12 (bytes (data b)) 16 8 24 9 5 /\
  binned_reference RAW12 (bytes (data b)) 16 8 24 9 5 = 2136.
Proof.
  intros c b b'.
  assert (Hpix := cropAndBin_pixels two_byte_codec c b eq_refl
                    (or_introl eq_refl)).
  fold b' in Hpix.
  split; [reflexivity|]. split; [reflexivity|].
  split; [|vm_compute; reflexivity].
  rewrite Hpix.
  - vm_compute. reflexivity.
  - intros x y.
    pose proof (RAW12_bound (bytes (data b)) x y (rowStride b)
                  (sample_region_bytes _)) as Hb.
    change (reader_of (pixelFormat b)) with RAW12. lia.
  - unfold INT_MAX; simpl; lia.
  - unfold INT_MAX; simpl; lia.
  - unfold INT_MAX; simpl; lia.
  - reflexivity.
  - unfold INT_MAX; simpl; lia.
  - reflexivity.
  - unfold INT_MAX; simpl; lia.
  - vm_compute. discriminate.
  - vm_compute. split; [discriminate|reflexivity].
  - vm_compute. split; [discriminate|reflexivity].
Defined.

(** The same pixel, computed by running [cropAndBin] on the sample frame. *)
Example cropAndBin_sample_pixel :
  let c := sample_streamer 0 0 true false in
  let b := sample_buffer PixelFormat.RAW12 16 8 24 in
  let b' := cropAndBin two_byte_codec c b in
  RAW12 (bytes (data b')) 5 3 (rowStride b') = 2136 /\
  pixelFormat b' = PixelFormat.RAW12 /\ rowStride b' = 12 /\
  validRange (data b') = (0, 48).
Proof. vm_compute. auto. Qed.

(** The slip of the RAW10 packing loop seen on a whole frame: binning a
    16x8 RAW10 frame without compression, pixel (1,0) of the result reads 47
    where the binned sample is 45 (the eight high bits agree, the two low
    bits are those of another sample). *)
Example cropAndBin_RAW10_low_bits :
  let c := sample_streamer 0 0 true false in
  let b := sample_buffer PixelFormat.RAW10 16 8 20 in
  let b' := cropAndBin two_byte_codec c b in
  pixelFormat b' = PixelFormat.RAW10 /\ rowStride b' = 10 /\
  RAW10 (bytes (data b')) 1 0 (rowStride b') = 47 /\
  binned_pixel RAW10 (bytes (data b)) 16 8 20 0 0 1 0 = 45.
Proof. vm_compute. auto. Qed.


(** C3, at the failing inputs.  Binning a RAW12 frame of 8 x 6 pixels
    without compression: the block row at [y = 4] takes its lower taps from
    rows [(4+2) % 6 = 0] and [(5+2) % 6 = 1], which the packed output of the
    block row at [y = 0] has already overwritten, so that pixel (0,2) of the
    result is 526 where the weighted sum over the frame, divided by 16, is
    496.  Binning a RAW16 frame of 4 x 4 samples 0x4000 with compression:
    the centre tap [sample << 2] wraps to 0 in its [uint16_t] local, and
    the first sample handed to the encoder is 12288 (bytes 0, 48) where the
    weighted sum divided by 16 is 16384. *)
Theorem cropAndBin_samples_off_the_weighted_sum :
  (let c := sample_streamer 0 0 true false in
   let b := sample_buffer PixelFormat.RAW12 8 6 12 in
   let b' := cropAndBin two_byte_codec c b in
   width b' = 4 /\ height b' = 3 /\ pixelFormat b' = PixelFormat.RAW12 /\
   RAW12 (bytes (data b')) 0 0 (rowStride b')
   = binned_pixel RAW12 (bytes (data b)) 8 6 12 0 0 0 0 /\
   RAW12 (bytes (data b')) 0 2 (rowStride b') = 526 /\
   binned_pixel RAW12 (bytes (data b)) 8 6 12 0 0 0 2 = 496) /\
  (let c := sample_streamer 0 0 true true in
   let b := bright_RAW16_frame in
   let b' := cropAndBin two_byte_codec c b in
   width b' = 2 /\ height b' = 2 /\
   read_bytes (bytes (data b')) 0 2 = two_byte_codec [12288] /\
   binned_pixel RAW16 (bytes (data b)) 4 4 8 0 0 0 0 = 16384).
Proof. vm_compute. repeat split; discriminate. Qed.

(** The transforms at a tie of the rounding: 35% of 180 pixels.  The
    per-side crop is 28 columns ([4 * (31 / 4)]) and 30 rows
    ([2 * (31 / 2)]), where rounding 31.5 up would give 32 and 32. *)
Example crop_amounts_at_a_tie :
  (let c := sample_streamer 35 0 false false in
   let b := sample_buffer PixelFormat.RAW12 180 4 270 in
   horizontalCrop c b = 28 /\ width (crop c b) = 124) /\
  (let c := sample_streamer 0 35 false false in
   let b := sample_buffer PixelFormat.RAW12 4 180 6 in
   verticalCrop c b = 30 /\ height (crop c b) = 120) /\
  (let c := sample_streamer 35 0 true false in
   let b := sample_buffer PixelFormat.RAW12 180 4 270 in
   let b' := cropAndBin two_byte_codec c b in
   width b' = 62 /\ height b' = 2 /\ rowStride b' = 93).
Proof. vm_compute. auto 10. Qed.

(** ** The streaming pipeline *)

Section PipelineFacts.
Context {Metadata : Type}.
Variable encodeFunc : list Z -> list Z.
Implicit Types (c : @RawBufferStreamer Metadata) (b : @RawImageBuffer Metadata).
Implicit Types (st : @Pipeline.state Metadata).

Lemma cropAndBin_metadata c b : metadata (cropAndBin encodeFunc c b) = metadata b.
Proof.
  unfold cropAndBin.
  destruct (pixelFormat b); try reflexivity;
    match goal with
    | |- metadata (cropAndBin_finish _ _ ?out) = _ =>
        destruct (cropAndBin_finish_fields c b out) as (_ & _ & _ & _ & H & _);
        exact H
    end.
Qed.

Lemma cropAndCompress_metadata c b :
  metadata (cropAndCompress encodeFunc c b) = metadata b.
Proof.
  unfold cropAndCompress, cropAndCompress_finish.
  destruct (pixelFormat b); try reflexivity;
    destruct (cropAndCompress_loop _ _ _ _ _); reflexivity.
Qed.

Lemma crop_metadata c b : metadata (crop c b) = metadata b.
Proof.
  unfold crop. destruct (_ && _); [reflexivity|].
  destruct (pixelFormat b); reflexivity.
Qed.

Lemma processBuffer_metadata c b :
  metadata (processBuffer encodeFunc c b) = metadata b.
Proof.
  unfold processBuffer. destruct (mBin c); [apply cropAndBin_metadata|].
  destruct (mEnableCompression c);
    [apply cropAndCompress_metadata|apply crop_metadata].
Qed.

Lemma held_insert (ps : list (@Pipeline.process_pc Metadata)) i p p' :
  ps !! i = Some p ->
  exists R,
    Pipeline.held ps = Pipeline.held (take i ps) ++ Pipeline.held [p] ++ R /\
    Pipeline.held (<[i := p']> ps)
    = Pipeline.held (take i ps) ++ Pipeline.held [p'] ++ R.
Proof.
  intros Hi. exists (Pipeline.held (drop (S i) ps)).
  pose proof (lookup_lt_Some _ _ _ Hi) as Hlt.
  split.
  - rewrite <- (take_drop_middle ps i p Hi) at 1.
    unfold Pipeline.held. rewrite omap_app.
    change (p :: drop (S i) ps) with ([p] ++ drop (S i) ps).
    rewrite omap_app. reflexivity.
  - rewrite insert_take_drop by assumption.
    unfold Pipeline.held. rewrite omap_app.
    change (p' :: drop (S i) ps) with ([p'] ++ drop (S i) ps).
    rewrite omap_app. reflexivity.
Qed.

Lemma written_insert (ws : list (@Pipeline.io_thread Metadata)) j w w' :
  ws !! j = Some w ->
  exists R1 R2,
    concat (map Pipeline.container ws) = R1 ++ Pipeline.container w ++ R2 /\
    concat (map Pipeline.container (<[j := w']> ws))
    = R1 ++ Pipeline.container w' ++ R2.
Proof.
  intros Hj.
  exists (concat (map Pipeline.container (take j ws))),
         (concat (map Pipeline.container (drop (S j) ws))).
  pose proof (lookup_lt_Some _ _ _ Hj) as Hlt.
  split.
  - rewrite <- (take_drop_middle ws j w Hj) at 1.
    rewrite map_app, concat_app. reflexivity.
  - rewrite insert_take_drop by assumption.
    rewrite map_app, concat_app. reflexivity.
Qed.


Lemma doProcess_step_conserved frames i st :
  conserved frames st ->
  conserved frames (Pipeline.doProcess_step encodeFunc i st).
Proof.
  intros (Hw & Ht & Hperm). unfold Pipeline.doProcess_step.
  destruct (Pipeline.processThreads st !! i) as [p|] eqn:Hi;
    [|repeat split; assumption].
  unfold conserved, in_flight, Pipeline.written in *.
  destruct p as [| |b|].
  - (* PLoop *)
    destruct (held_insert _ i _
                (if mRunning (Pipeline.streamer st)
                 then Pipeline.PWait else Pipeline.PDone) Hi)
      as (R & E1 & E2).
    simpl. rewrite E2. rewrite E1 in Hperm.
    repeat split; try assumption.
    destruct (mRunning (Pipeline.streamer st)); exact Hperm.
  - (* PWait *)
    destruct (mUnprocessedBuffers (Pipeline.streamer st)) as [|b q] eqn:Hq.
    + destruct (held_insert _ i _ Pipeline.PLoop Hi) as (R & E1 & E2).
      simpl. rewrite E2, Hq. rewrite E1 in Hperm.
      repeat split; assumption.
    + destruct (held_insert _ i _ (Pipeline.PHold b) Hi) as (R & E1 & E2).
      simpl. rewrite E2. rewrite E1 in Hperm.
      repeat split; try assumption.
      rewrite Hperm. apply fmap_Permutation. simpl. solve_Permutation.
  - (* PHold *)
    destruct (held_insert _ i _ Pipeline.PLoop Hi) as (R & E1 & E2).
    simpl. rewrite E2. rewrite E1 in Hperm.
    split; [assumption|]. split.
    + rewrite length_app. simpl. lia.
    + rewrite Hperm. simpl.
      repeat (rewrite fmap_app || rewrite fmap_cons). simpl.
      rewrite processBuffer_metadata. solve_Permutation.
  - (* PDone *)
    repeat split; assumption.
Qed.


Lemma account_fields c b :
  mWrittenFrames (Pipeline.account c b) = mWrittenFrames c + 1 /\
  mUnprocessedBuffers (Pipeline.account c b) = mUnprocessedBuffers c /\
  mReadyBuffers (Pipeline.account c b) = mReadyBuffers c.
Proof.
  unfold Pipeline.account. destruct (validRange (data b)). simpl. auto.
Qed.

Lemma doStream_step_conserved frames j st :
  conserved frames st ->
  conserved frames (Pipeline.doStream_step encodeFunc j st).
Proof.
  intros (Hw & Ht & Hperm). unfold Pipeline.doStream_step.
  destruct (Pipeline.ioThreads st !! j) as [w|] eqn:Hj;
    [|repeat split; assumption].
  unfold conserved, in_flight, Pipeline.written in *.
  assert (Hsame : forall next,
    concat (map Pipeline.container
              (<[j := Pipeline.mkIo next (Pipeline.container w)
                        (Pipeline.committed w)]> (Pipeline.ioThreads st)))
    = concat (map Pipeline.container (Pipeline.ioThreads st))).
  { intros next.
    destruct (written_insert _ j w
                (Pipeline.mkIo next (Pipeline.container w)
                   (Pipeline.committed w)) Hj) as (R1 & R2 & E1 & E2).
    rewrite E1, E2. reflexivity. }
  assert (Hadd : forall next b,
    exists R1 R2,
      concat (map Pipeline.container (Pipeline.ioThreads st))
      = R1 ++ Pipeline.container w ++ R2 /\
      concat (map Pipeline.container
                (<[j := Pipeline.write_frame w next b]> (Pipeline.ioThreads st)))
      = R1 ++ (Pipeline.container w ++ [b]) ++ R2).
  { intros next b.
    destruct (written_insert _ j w (Pipeline.write_frame w next b) Hj)
      as (R1 & R2 & E1 & E2).
    exists R1, R2. split; assumption. }
  destruct (Pipeline.pc w).
  - (* WLoop *)
    simpl. rewrite Hsame. repeat split; assumption.
  - (* WWait *)
    destruct (mReadyBuffers (Pipeline.streamer st)) as [|b q] eqn:Hq.
    + simpl. rewrite Hsame, Hq. repeat split; assumption.
    + destruct (Hadd Pipeline.WLoop b) as (R1 & R2 & E1 & E2).
      destruct (account_fields
                  (Pipeline.setReady (Pipeline.streamer st) q) b)
        as (A1 & A2 & A3).
      simpl. rewrite E2, A1, A2, A3. rewrite E1 in Hw, Ht, Hperm. simpl.
      split; [|split].
      * rewrite Hw. rewrite !length_app. simpl. lia.
      * rewrite Ht. simpl. rewrite !length_app. simpl. lia.
      * rewrite Hperm. apply fmap_Permutation. solve_Permutation.
  - (* WFlushReady *)
    destruct (mReadyBuffers (Pipeline.streamer st)) as [|b q] eqn:Hq.
    + simpl. rewrite Hsame, Hq. repeat split; assumption.
    + destruct (Hadd Pipeline.WFlushReady b) as (R1 & R2 & E1 & E2).
      destruct (account_fields
                  (Pipeline.setReady (Pipeline.streamer st) q) b)
        as (A1 & A2 & A3).
      simpl. rewrite E2, A1, A2, A3. rewrite E1 in Hw, Ht, Hperm. simpl.
      split; [|split].
      * rewrite Hw. rewrite !length_app. simpl. lia.
      * rewrite Ht. simpl. rewrite !length_app. simpl. lia.
      * rewrite Hperm. apply fmap_Permutation. solve_Permutation.
  - (* WFlushUnprocessed *)
    destruct (mUnprocessedBuffers (Pipeline.streamer st)) as [|b q] eqn:Hq.
    + simpl. rewrite Hsame, Hq. repeat split; assumption.
    + set (b' := processBuffer encodeFunc (Pipeline.streamer st) b).
      destruct (Hadd Pipeline.WFlushUnprocessed b') as (R1 & R2 & E1 & E2).
      destruct (account_fields
                  (Pipeline.setUnprocessed (Pipeline.streamer st) q) b')
        as (A1 & A2 & A3).
      simpl. rewrite E2, A1, A2, A3. rewrite E1 in Hw, Ht, Hperm. simpl.
      split; [|split].
      * rewrite Hw. rewrite !length_app. simpl. lia.
      * rewrite Ht. rewrite !length_app. simpl. lia.
      * rewrite Hperm.
        repeat (rewrite fmap_app || rewrite fmap_cons). simpl.
        unfold b'. rewrite processBuffer_metadata. solve_Permutation.
  - (* WCommit *)
    simpl.
    destruct (written_insert _ j w
                (Pipeline.mkIo Pipeline.WDone (Pipeline.container w) true) Hj)
      as (R1 & R2 & E1 & E2).
    rewrite E2. simpl. rewrite <- E1. repeat split; assumption.
  - (* WDone *)
    repeat split; assumption.
Qed.

Lemma step_conserved frames a st :
  conserved frames st ->
  conserved (frames ++ Pipeline.submitted [a]) (Pipeline.step encodeFunc a st).
Proof.
  intros H. destruct a as [f| |i|j|bin|w h]; simpl.
  - destruct H as (Hw & Ht & Hperm).
    unfold conserved, in_flight, Pipeline.written in *. simpl.
    repeat split; try assumption.
    repeat (rewrite fmap_app || rewrite fmap_cons).
    repeat (rewrite fmap_app in Hperm).
    rewrite Hperm. simpl. solve_Permutation.
  - rewrite app_nil_r. exact H.
  - rewrite app_nil_r. apply doProcess_step_conserved. exact H.
  - rewrite app_nil_r. apply doStream_step_conserved. exact H.
  - rewrite app_nil_r. exact H.
  - rewrite app_nil_r. unfold setCropAmount.
    destruct (negb (mRunning (Pipeline.streamer st))); exact H.
Qed.

Lemma run_conserved tr : forall frames st,
  conserved frames st ->
  conserved (frames ++ Pipeline.submitted tr) (Pipeline.run encodeFunc tr st).
Proof.
  induction tr as [|a tr IH]; intros frames st H.
  - simpl. rewrite app_nil_r. exact H.
  - change (Pipeline.run encodeFunc (a :: tr) st)
      with (Pipeline.run encodeFunc tr (Pipeline.step encodeFunc a st)).
    change (a :: tr) with ([a] ++ tr).
    unfold Pipeline.submitted. rewrite omap_app, app_assoc.
    apply IH. apply step_conserved. exact H.
Qed.


Lemma start_conserved c numFds enableCompression numThreads :
  (0 < numFds)%nat ->
  mUnprocessedBuffers c = [] -> mReadyBuffers c = [] ->
  conserved [] (Pipeline.start c numFds enableCompression numThreads).
Proof.
  intros Hn Hu Hr. destruct numFds as [|n]; [lia|].
  unfold conserved, in_flight, Pipeline.written, Pipeline.start.
  cbn [Pipeline.streamer Pipeline.processThreads Pipeline.ioThreads
       Pipeline.transformed mWrittenFrames mUnprocessedBuffers mReadyBuffers].
  rewrite Hu, Hr.
  assert (Hc : forall k,
    concat (map Pipeline.container
              (replicate k (@Pipeline.mkIo Metadata Pipeline.WLoop [] false)))
    = []) by (induction k; simpl; auto).
  assert (Hh : forall k,
    Pipeline.held (replicate k (@Pipeline.PLoop Metadata)) = [])
    by (induction k; simpl; auto).
  rewrite Hc, Hh. simpl. auto.
Qed.

(** X5.  No frame is duplicated or invented: in every state that a run
    reaches from [start], each submitted frame is either still in flight or
    has been written to exactly one container; [mWrittenFrames] is the
    number of frames written, and the frames that have completed
    [processBuffer] are those written and those waiting in the ready
    queue. *)
Theorem frames_conserved c numFds enableCompression numThreads tr :
  (0 < numFds)%nat ->
  mUnprocessedBuffers c = [] -> mReadyBuffers c = [] ->
  conserved (Pipeline.submitted tr)
    (Pipeline.run encodeFunc tr
       (Pipeline.start c numFds enableCompression numThreads)).
Proof.
  intros Hn Hu Hr.
  change (Pipeline.submitted tr) with ([] ++ Pipeline.submitted tr).
  apply run_conserved. apply start_conserved; assumption.
Qed.

End PipelineFacts.

Lemma frames_conserved_witness :
  let f1 := sample_buffer PixelFormat.RAW10 8 4 10 in
  let f2 := sample_buffer PixelFormat.RAW12 8 4 12 in
  let tr :=
    [Pipeline.Add f1; Pipeline.Process 0; Pipeline.Add f2;
     Pipeline.Process 0; Pipeline.Stream 1; Pipeline.Process 0;
     Pipeline.Stream 1; Pipeline.Stop; Pipeline.Stream 0] in
  conserved (Pipeline.submitted tr)
    (Pipeline.run two_byte_codec tr
       (Pipeline.start Pipeline.new_streamer 2 false 1)).
Proof.
  intros f1 f2 tr.
  apply (frames_conserved two_byte_codec Pipeline.new_streamer 2 false 1 tr);
    [lia|reflexivity|reflexivity].
Defined.

(** C9, at the failing schedule.  One frame is submitted before [stop()];
    the [doProcess] thread that has dequeued it is still inside
    [processBuffer] when the only [doStream] thread sees [mRunning] false,
    finds both queues empty, commits and returns.  When all threads have
    returned, one frame has completed the transform stage, no frame has been
    written, and the frame sits in the ready queue. *)
Theorem frame_stranded_at_shutdown :
  let frame := sample_buffer PixelFormat.RAW10 8 4 10 in
  let tr := stranding_schedule frame in
  let st :=
    Pipeline.run two_byte_codec tr
      (Pipeline.start Pipeline.new_streamer 1 false 1) in
  Pipeline.adds_before_stop tr = true /\
  Pipeline.submitted tr = [frame] /\
  Pipeline.joined st = true /\
  Pipeline.transformed st = 1 /\
  mWrittenFrames (Pipeline.streamer st) = 0 /\
  Pipeline.written st = [] /\
  mReadyBuffers (Pipeline.streamer st) = [frame].
Proof. vm_compute. auto 10. Qed.

(** * Further properties of the transforms and of the pipeline *)

(** ** Cropping keeps the pixels of the crop window *)

Lemma RAW10_group data x y stride :
  0 <= x ->
  RAW10 data x y stride =
    u16 (Z.lor (Z.shiftl (load data (y * stride + 5 * (x / 4) + x mod 4)) 2)
               (Z.land (Z.shiftr (load data (y * stride + 5 * (x / 4) + 4))
                                 (2 * (x mod 4))) 3)).
Proof.
  intros Hx. unfold RAW10.
  rewrite !Z.shiftr_div_pow2, !Z.shiftl_mul_pow2, u8_mod by lia.
  change (2 ^ 1) with 2. change (2 ^ 2) with 4. change (2 ^ 3) with 8.
  assert (E1 : 10 * (x / 4 * 4) / 8 = 5 * (x / 4))
    by (Z.to_euclidean_division_equations; lia).
  assert (E2 : x - x / 4 * 4 = x mod 4)
    by (Z.to_euclidean_division_equations; lia).
  rewrite E1, E2.
  assert (E3 : (x mod 4 * 2) mod 256 = 2 * (x mod 4))
    by (Z.to_euclidean_division_equations; lia).
  rewrite E3. reflexivity.
Qed.

(** The row loop of the RAW10 and RAW12 branches of [crop]: every byte of
    every cropped row is the byte of the original region at the same place
    of the crop window; the destination of a row never reaches a row that
    is still to be moved. *)
Lemma crop_move_rows d0 rowStride cs vc rows xstart :
  0 <= cs <= rowStride -> 0 <= vc -> 0 <= xstart -> 0 <= rows ->
  cs * rows <= Z.of_nat (length d0) ->
  forall r k, 0 <= r < rows -> 0 <= k < cs ->
    load (for_range vc (vc + rows) 1
            (crop_move_body rowStride cs vc xstart) d0) (cs * r + k)
    = load d0 (rowStride * (vc + r) + xstart + k).
Proof.
  intros Hcs Hvc Hxs Hrows Hlen.
  destruct (for_range_inv
    (fun j d => vc <= j <= vc + rows /\ length d = length d0 /\
       (forall a, cs * (j - vc) <= a -> load d a = load d0 a) /\
       (forall r k, 0 <= r < j - vc -> 0 <= k < cs ->
          load d (cs * r + k) = load d0 (rowStride * (vc + r) + xstart + k)))
    vc (vc + rows) 1 (crop_move_body rowStride cs vc xstart) d0)
    as (j & Hj1 & Hj2 & Hge & Hl & Hrest & Hdone).
  - lia.
  - split; [lia|]. split; [reflexivity|]. split; [reflexivity|].
    intros; lia.
  - intros j d Hj (Hge & Hl & Hrest & Hdone). unfold crop_move_body.
    split; [lia|]. split; [rewrite length_memmove; assumption|]. split.
    + intros a Ha. rewrite load_memmove_other by nia. apply Hrest. nia.
    + intros r k Hr Hk. destruct (Z.eq_dec r (j - vc)) as [-> | Hne].
      * rewrite load_memmove_dst by (rewrite ?Hl; nia).
        replace (vc + (j - vc)) with j by lia.
        apply Hrest. nia.
      * rewrite load_memmove_other by nia. apply Hdone; lia.
  - intros r k Hr Hk. apply Hdone; lia.
Qed.

Lemma crop_RAW10_rows_pixels d0 rowStride mh vc q rows x y :
  0 <= mh -> 0 <= vc -> 0 <= rows -> 5 * q <= rowStride ->
  5 * q * rows <= Z.of_nat (length d0) ->
  0 <= x < 4 * q -> 0 <= y < rows ->
  RAW10 (for_range vc (vc + rows) 1
           (crop_move_body rowStride (5 * q) vc (5 * mh)) d0) x y (5 * q)
  = RAW10 d0 (4 * mh + x) (vc + y) rowStride.
Proof.
  intros Hmh Hvc Hrows Hrs Hlen Hx Hy.
  rewrite !RAW10_group by lia.
  assert (Hg : 0 <= x / 4 < q /\ 0 <= x mod 4 < 4)
    by (Z.to_euclidean_division_equations; lia).
  assert (E1 : (4 * mh + x) / 4 = mh + x / 4)
    by (Z.to_euclidean_division_equations; lia).
  assert (E2 : (4 * mh + x) mod 4 = x mod 4)
    by (Z.to_euclidean_division_equations; lia).
  rewrite E1, E2.
  replace (y * (5 * q) + 5 * (x / 4) + x mod 4)
    with (5 * q * y + (5 * (x / 4) + x mod 4)) by lia.
  replace (y * (5 * q) + 5 * (x / 4) + 4)
    with (5 * q * y + (5 * (x / 4) + 4)) by lia.
  rewrite !crop_move_rows by lia.
  replace (rowStride * (vc + y) + 5 * mh + (5 * (x / 4) + x mod 4))
    with ((vc + y) * rowStride + 5 * (mh + x / 4) + x mod 4) by lia.
  replace (rowStride * (vc + y) + 5 * mh + (5 * (x / 4) + 4))
    with ((vc + y) * rowStride + 5 * (mh + x / 4) + 4) by lia.
  reflexivity.
Qed.

Lemma crop_RAW12_rows_pixels d0 rowStride vc h s rows x y :
  0 <= vc -> 0 <= rows -> 0 <= s -> 3 * h <= rowStride ->
  3 * h * rows <= Z.of_nat (length d0) ->
  0 <= x < 2 * h -> 0 <= y < rows ->
  RAW12 (for_range vc (vc + rows) 1
           (crop_move_body rowStride (3 * h) vc (3 * s)) d0) x y (3 * h)
  = RAW12 d0 (2 * s + x) (vc + y) rowStride.
Proof.
  intros Hvc Hrows Hs Hrs Hlen Hx Hy.
  rewrite !RAW12_group by lia.
  assert (Hg : 0 <= x / 2 < h /\ 0 <= x mod 2 < 2)
    by (Z.to_euclidean_division_equations; lia).
  assert (E1 : (2 * s + x) / 2 = s + x / 2)
    by (Z.to_euclidean_division_equations; lia).
  assert (E2 : (2 * s + x) mod 2 = x mod 2)
    by (Z.to_euclidean_division_equations; lia).
  rewrite E1, E2.
  replace (y * (3 * h) + 3 * (x / 2) + x mod 2)
    with (3 * h * y + (3 * (x / 2) + x mod 2)) by lia.
  replace (y * (3 * h) + 3 * (x / 2) + 2)
    with (3 * h * y + (3 * (x / 2) + 2)) by lia.
  rewrite !crop_move_rows by lia.
  replace (rowStride * (vc + y) + 3 * s + (3 * (x / 2) + x mod 2))
    with ((vc + y) * rowStride + 3 * (s + x / 2) + x mod 2) by lia.
  replace (rowStride * (vc + y) + 3 * s + (3 * (x / 2) + 2))
    with ((vc + y) * rowStride + 3 * (s + x / 2) + 2) by lia.
  reflexivity.
Qed.

Section CropRows.
Context {Metadata : Type}.
Implicit Types (c : @RawBufferStreamer Metadata) (b : @RawImageBuffer Metadata).

(** The RAW12 branch of [crop] when no column is removed. *)
Lemma crop_RAW12_first_columns c b x y :
  horizontalCrop c b = 0 ->
  0 <= verticalCrop c b -> 2 * verticalCrop c b <= height b ->
  0 <= width b -> Z.even (width b) = true ->
  12 * width b <= 8 * rowStride b ->
  rowStride b * height b <= Z.of_nat (length (bytes (data b))) ->
  0 <= x < croppedWidth c b -> 0 <= y < croppedHeight c b ->
  RAW12 (crop_RAW12_loop c b (bytes (lock (data b)))) x y
    (Z.quot (12 * croppedWidth c b) 8)
  = RAW12 (bytes (data b)) (2 * 0 + x) (verticalCrop c b + y) (rowStride b).
Proof.
  intros Hhc Hv0 Hv1 Hw Hwe Hrs Hlen.
  unfold crop_RAW12_loop, croppedWidth, croppedHeight. rewrite Hhc.
  set (vc := verticalCrop c b) in *.
  cbn [bytes lock].
  set (h := width b / 2).
  assert (Ew : width b - 0 * 2 = 2 * h).
  { apply Z.even_spec in Hwe. destruct Hwe as [w2 Hk]. unfold h.
    rewrite Hk. Z.to_euclidean_division_equations; lia. }
  rewrite Ew.
  replace (Z.quot (12 * (2 * h)) 8) with (3 * h)
    by (rewrite Z.quot_div_nonneg by lia;
        Z.to_euclidean_division_equations; lia).
  change (Z.quot (10 * 0) 8) with (3 * 0).
  replace (height b - vc) with (vc + (height b - vc * 2)) by lia.
  intros Hx Hy.
  apply crop_RAW12_rows_pixels; try lia. nia.
Qed.

(** X1.  Cropping a RAW10 frame at rest whose width is a multiple of 4
    keeps every pixel of the crop window: pixel (x,y) of the frame that
    [crop] returns is the original pixel (horizontalCrop + x,
    verticalCrop + y). *)
Theorem crop_RAW10_pixels c b :
  pixelFormat b = PixelFormat.RAW10 ->
  0 <= mCropWidth c <= 100 -> 0 <= mCropHeight c <= 100 ->
  0 <= width b <= INT_MAX -> width b mod 4 = 0 ->
  0 <= height b <= INT_MAX -> Z.even (height b) = true ->
  10 * width b <= 8 * rowStride b ->
  rowStride b * height b <= Z.of_nat (length (bytes (data b))) ->
  forall x y, 0 <= x < width (crop c b) -> 0 <= y < height (crop c b) ->
    RAW10 (bytes (data (crop c b))) x y (rowStride (crop c b))
    = RAW10 (bytes (data b)) (horizontalCrop c b + x) (verticalCrop c b + y)
        (rowStride b).
Proof.
  intros Hfmt Hcw Hch Hw Hw4 Hh Hhe Hrs Hlen x y.
  assert (Hwe : Z.even (width b) = true).
  { apply Z.even_spec. exists (2 * (width b / 4)).
    Z.to_euclidean_division_equations; lia. }
  destruct (horizontalCrop_range c b Hcw Hw Hwe) as [Hc0 Hc1].
  destruct (verticalCrop_range c b Hch Hh Hhe) as [Hv0 Hv1].
  pose proof (horizontalCrop_aligned c b) as Hc4.
  rewrite Z.rem_mod_nonneg in Hc4 by lia.
  unfold crop.
  destruct ((mCropWidth c =? 0) && (mCropHeight c =? 0)
            && negb (PixelFormat.eqb (pixelFormat b) PixelFormat.RAW16))
    eqn:Hguard.
  - (* Nothing to do *)
    apply andb_prop in Hguard as [Hguard _].
    apply andb_prop in Hguard as [Hz1 Hz2].
    apply Z.eqb_eq in Hz1, Hz2.
    assert (E1 : horizontalCrop c b = 0)
      by (unfold horizontalCrop; rewrite Hz1; reflexivity).
    assert (E2 : verticalCrop c b = 0)
      by (unfold verticalCrop; rewrite Hz2; reflexivity).
    rewrite E1, E2. intros _ _. reflexivity.
  - rewrite Hfmt. unfold crop_finish, crop_RAW10_loop.
    cbn [width height rowStride data bytes setValidRange unlock setBytes lock].
    set (hc := horizontalCrop c b) in *. set (vc := verticalCrop c b) in *.
    set (mh := hc / 4). set (q := (width b - 2 * hc) / 4).
    assert (Ehc : hc = 4 * mh)
      by (unfold mh; Z.to_euclidean_division_equations; lia).
    assert (Ecw : croppedWidth c b = 4 * q).
    { unfold croppedWidth. fold hc. unfold q.
      Z.to_euclidean_division_equations; lia. }
    assert (Ech : croppedHeight c b = height b - 2 * vc)
      by (unfold croppedHeight; fold vc; lia).
    assert (Hq : 0 <= q) by (unfold croppedWidth in Ecw; fold hc in Ecw; lia).
    rewrite Ecw, Ech.
    replace (Z.quot (10 * (4 * q)) 8) with (5 * q)
      by (rewrite Z.quot_div_nonneg by lia;
          Z.to_euclidean_division_equations; lia).
    replace (Z.quot (10 * hc) 8) with (5 * mh)
      by (rewrite Z.quot_div_nonneg by lia;
          Z.to_euclidean_division_equations; lia).
    replace (height b - vc) with (vc + (height b - 2 * vc)) by lia.
    intros Hx Hy. rewrite Ehc.
    apply crop_RAW10_rows_pixels; try lia.
    + unfold croppedWidth in Ecw; fold hc in Ecw. lia.
    + unfold croppedWidth in Ecw; fold hc in Ecw. nia.
Qed.

(** X2.  Cropping rows only of a RAW12 frame at rest.  When no column is
    removed ([horizontalCrop] is 0), pixel (x,y) of the frame that [crop]
    returns is the original pixel (x, verticalCrop + y). *)
Theorem crop_RAW12_rows_only c b :
  pixelFormat b = PixelFormat.RAW12 ->
  horizontalCrop c b = 0 ->
  0 <= mCropWidth c <= 100 -> 0 <= mCropHeight c <= 100 ->
  0 <= width b <= INT_MAX -> Z.even (width b) = true ->
  0 <= height b <= INT_MAX -> Z.even (height b) = true ->
  12 * width b <= 8 * rowStride b ->
  rowStride b * height b <= Z.of_nat (length (bytes (data b))) ->
  forall x y, 0 <= x < width (crop c b) -> 0 <= y < height (crop c b) ->
    RAW12 (bytes (data (crop c b))) x y (rowStride (crop c b))
    = RAW12 (bytes (data b)) x (verticalCrop c b + y) (rowStride b).
Proof.
  intros Hfmt Hhc Hcw Hch Hw Hwe Hh Hhe Hrs Hlen x y.
  destruct (verticalCrop_range c b Hch Hh Hhe) as [Hv0 Hv1].
  unfold crop.
  destruct ((mCropWidth c =? 0) && (mCropHeight c =? 0)
            && negb (PixelFormat.eqb (pixelFormat b) PixelFormat.RAW16))
    eqn:Hguard.
  - apply andb_prop in Hguard as [Hguard _].
    apply andb_prop in Hguard as [Hz1 Hz2].
    apply Z.eqb_eq in Hz2.
    assert (E2 : verticalCrop c b = 0)
      by (unfold verticalCrop; rewrite Hz2; reflexivity).
    rewrite E2. intros _ _. reflexivity.
  - rewrite Hfmt. unfold crop_finish.
    cbn [width height rowStride data bytes setValidRange unlock setBytes lock].
    intros Hx Hy.
    replace x with (2 * 0 + x) at 2 by lia.
    apply crop_RAW12_first_columns; try assumption; lia.
Qed.

(** C2 (as amended).  For a frame of a supported format with even width and
    height (both [int]s) and crop percentages in [0,100], [crop] removes on
    each side [horizontalCrop = 4*floor(r/4)] columns, where [r] is
    [lround(0.5 * (cropWidth/100.0 * width))] as the [double] arithmetic
    gives it, and [verticalCrop = 2*floor(r'/2)] rows, [r'] likewise from
    the height; both are even, so the Bayer phase of the pixel at
    (horizontalCrop, verticalCrop) is that of (0,0).  For RAW10 the
    row-wise [memmove] makes pixel (0,0) of the cropped frame equal the
    original pixel at (horizontalCrop, verticalCrop); for RAW12 it does so
    when no column is removed. *)
Theorem crop_dimensions_and_phase c b :
  PixelFormat.supported (pixelFormat b) = true ->
  0 <= mCropWidth c <= 100 -> 0 <= mCropHeight c <= 100 ->
  0 <= width b <= INT_MAX -> Z.even (width b) = true ->
  0 <= height b <= INT_MAX -> Z.even (height b) = true ->
  let hc := 4 * (lround_half_percent (mCropWidth c) (width b) / 4) in
  let vc := 2 * (lround_half_percent (mCropHeight c) (height b) / 2) in
  let b' := crop c b in
  width b' = width b - 2 * hc /\
  height b' = height b - 2 * vc /\
  bayer_phase hc vc = bayer_phase 0 0 /\
  (pixelFormat b = PixelFormat.RAW10 ->
   4 <= width b' -> 0 < height b' ->
   10 * width b <= 8 * rowStride b ->
   rowStride b * height b <= Z.of_nat (length (bytes (data b))) ->
   RAW10 (bytes (data b')) 0 0 (rowStride b')
   = RAW10 (bytes (data b)) hc vc (rowStride b)) /\
  (pixelFormat b = PixelFormat.RAW12 -> hc = 0 ->
   2 <= width b' -> 0 < height b' ->
   12 * width b <= 8 * rowStride b ->
   rowStride b * height b <= Z.of_nat (length (bytes (data b))) ->
   RAW12 (bytes (data b')) 0 0 (rowStride b')
   = RAW12 (bytes (data b)) hc vc (rowStride b)).
Proof.
  intros Hfmt Hcw Hch Hw Hwe Hh Hhe hc vc b'.
  destruct (lround_half_percent_range _ _ Hcw Hw Hwe) as [Hr0 Hr1].
  destruct (lround_half_percent_range _ _ Hch Hh Hhe) as [Hs0 Hs1].
  assert (Ehc : horizontalCrop c b = hc).
  { unfold horizontalCrop, hc. rewrite Z.quot_div_nonneg by lia. reflexivity. }
  assert (Evc : verticalCrop c b = vc).
  { unfold verticalCrop, vc. rewrite Z.quot_div_nonneg by lia. reflexivity. }
  assert (Hhc : 0 <= hc /\ 2 * hc <= width b)
    by (rewrite <- Ehc; apply horizontalCrop_range; assumption).
  assert (Hvc : 0 <= vc /\ 2 * vc <= height b)
    by (rewrite <- Evc; apply verticalCrop_range; assumption).
  destruct ((mCropWidth c =? 0) && (mCropHeight c =? 0)
            && negb (PixelFormat.eqb (pixelFormat b) PixelFormat.RAW16))
    eqn:Hguard.
  - (* Nothing to do *)
    assert (Eb : b' = b) by (unfold b', crop; rewrite Hguard; reflexivity).
    apply andb_prop in Hguard as [Hguard _].
    apply andb_prop in Hguard as [Hz1 Hz2].
    apply Z.eqb_eq in Hz1, Hz2.
    assert (hc = 0) as -> by (unfold hc; rewrite Hz1; reflexivity).
    assert (vc = 0) as -> by (unfold vc; rewrite Hz2; reflexivity).
    rewrite Eb. repeat split; intros; first [lia | reflexivity].
  - assert (Ew : width b' = width b - 2 * hc).
    { unfold b', crop. rewrite Hguard.
      destruct (pixelFormat b); try discriminate; simpl;
        unfold croppedWidth; rewrite Ehc; lia. }
    assert (Eh : height b' = height b - 2 * vc).
    { unfold b', crop. rewrite Hguard.
      destruct (pixelFormat b); try discriminate; simpl;
        unfold croppedHeight; rewrite Evc; lia. }
    split; [exact Ew|]. split; [exact Eh|]. split.
    { unfold bayer_phase, hc, vc. f_equal.
      - Z.to_euclidean_division_equations; lia.
      - Z.to_euclidean_division_equations; lia. }
    split.
    + intros Hraw Hw4 Hh1 Hstride Hlen.
      rewrite Ew in Hw4. rewrite Eh in Hh1.
      unfold b', crop. rewrite Hguard, Hraw. simpl.
      unfold crop_RAW10_loop, croppedWidth. rewrite Ehc, Evc.
      set (cs := Z.quot (10 * (width b - hc * 2)) 8).
      set (m := lround_half_percent (mCropWidth c) (width b) / 4).
      assert (Hm : 0 <= m) by (apply Z.div_pos; lia).
      assert (Hcs : 5 <= cs /\ cs <= rowStride b).
      { unfold cs. rewrite Z.quot_div_nonneg by lia.
        Z.to_euclidean_division_equations; lia. }
      assert (Hxs : Z.quot (10 * hc) 8 = 5 * m).
      { unfold hc. fold m. rewrite Z.quot_div_nonneg by lia.
        Z.to_euclidean_division_equations; lia. }
      rewrite Hxs.
      change 0 with (4 * 0) at 1. rewrite RAW10_group_start by lia.
      unfold hc. fold m. rewrite RAW10_group_start by lia.
      rewrite !Z.mul_0_r, !Z.mul_0_l, !Z.add_0_l.
      assert (Hlen' : cs <= Z.of_nat (length (bytes (data b)))) by nia.
      rewrite (crop_move_first_row _ _ cs vc (height b - vc) (5 * m))
        by lia.
      replace 4 with (0 + 4) at 3 by lia.
      rewrite (crop_move_first_row _ _ cs vc (height b - vc) (5 * m)
                 ltac:(lia) Hlen' ltac:(lia) 4 ltac:(lia)).
      rewrite Z.add_0_r, (Z.mul_comm (rowStride b) vc). reflexivity.
    + intros Hraw Hz Hw2 Hh1 Hstride Hlen.
      rewrite Ew in Hw2. rewrite Eh in Hh1.
      unfold b', crop. rewrite Hguard, Hraw. unfold crop_finish.
      cbn [width height rowStride data bytes setValidRange unlock setBytes
           lock].
      transitivity (RAW12 (bytes (data b)) (2 * 0 + 0)
                      (verticalCrop c b + 0) (rowStride b)).
      2: { rewrite Evc, Hz, !Z.add_0_r. reflexivity. }
      apply crop_RAW12_first_columns; try assumption;
        unfold croppedWidth, croppedHeight; rewrite ?Ehc, ?Evc; lia.
Qed.

End CropRows.

Lemma crop_RAW10_pixels_witness :
  let c := sample_streamer 10 10 false false in
  let b := sample_buffer PixelFormat.RAW10 80 40 100 in
  width (crop c b) = 72 /\ height (crop c b) = 36 /\
  RAW10 (bytes (data (crop c b))) 5 3 (rowStride (crop c b))
  = RAW10 (bytes (data b)) 9 5 100.
Proof.
  intros c b.
  split; [reflexivity|]. split; [reflexivity|].
  rewrite (crop_RAW10_pixels c b); try reflexivity;
    try (unfold INT_MAX; simpl; lia).
  all: vm_compute; intuition congruence.
Defined.

Lemma crop_RAW12_rows_only_witness :
  let c := sample_streamer 0 50 false false in
  let b := sample_buffer PixelFormat.RAW12 16 8 24 in
  horizontalCrop c b = 0 /\ verticalCrop c b = 2 /\
  width (crop c b) = 16 /\ height (crop c b) = 4 /\
  RAW12 (bytes (data (crop c b))) 5 1 (rowStride (crop c b))
  = RAW12 (bytes (data b)) 5 3 24.
Proof.
  intros c b.
  split; [reflexivity|]. split; [reflexivity|].
  split; [reflexivity|]. split; [reflexivity|].
  rewrite (crop_RAW12_rows_only c b); try reflexivity;
    try (unfold INT_MAX; simpl; lia).
  all: vm_compute; intuition congruence.
Defined.

Lemma crop_dimensions_and_phase_witness :
  let c := sample_streamer 10 10 false false in
  let b := sample_buffer PixelFormat.RAW10 80 40 100 in
  width (crop c b) = 72 /\ height (crop c b) = 36 /\
  RAW10 (bytes (data (crop c b))) 0 0 (rowStride (crop c b)) = 821 /\
  RAW10 (bytes (data b)) 4 2 100 = 821.
Proof.
  intros c b.
  destruct (crop_dimensions_and_phase c b)
    as (Hw & Hh & _ & Hpix & _);
    [reflexivity | unfold INT_MAX; simpl; lia | unfold INT_MAX; simpl; lia | unfold INT_MAX; simpl; lia
    | reflexivity | unfold INT_MAX; simpl; lia | reflexivity |].
  split; [rewrite Hw; reflexivity|]. split; [rewrite Hh; reflexivity|].
  rewrite Hpix.
  - vm_compute. auto.
  - reflexivity.
  - rewrite Hw. vm_compute. discriminate.
  - rewrite Hh. vm_compute. reflexivity.
  - vm_compute. discriminate.
  - vm_compute. discriminate.
Defined.

(** C2, counterexample.  With [cropWidth = 1] on a RAW10 frame 760 pixels
    wide, [cropWidth% * width / 2] is 3.8: [lround] gives 4, so 4 columns are
    removed on each side and the new width is 752, where the formula with
    [floor] gives 760.  And on a RAW12 frame of 80 x 40 pixels cropped by
    10% the rows are moved from byte [10*4/8 = 5] of each row on, where
    column 4 of a RAW12 row starts at byte 6: pixel (0,0) of the cropped
    frame is 3927, the original pixel (4,2) is 3944. *)
Lemma crop_differs_from_claim :
  (let c := sample_streamer 1 0 false false in
   let b := sample_buffer PixelFormat.RAW10 760 2 950 in
   width (crop c b) = 752 /\
   claimed_newWidth (mCropWidth c) (width b) = 760 /\
   width (crop c b) <> claimed_newWidth (mCropWidth c) (width b)) /\
  (let c := sample_streamer 10 10 false false in
   let b := sample_buffer PixelFormat.RAW12 80 40 120 in
   horizontalCrop c b = 4 /\ verticalCrop c b = 2 /\
   RAW12 (bytes (data (crop c b))) 0 0 (rowStride (crop c b)) = 3927 /\
   RAW12 (bytes (data b)) 4 2 (rowStride b) = 3944 /\
   RAW12 (bytes (data (crop c b))) 0 0 (rowStride (crop c b))
   <> RAW12 (bytes (data b)) (horizontalCrop c b) (verticalCrop c b)
        (rowStride b)).
Proof. vm_compute. repeat split; discriminate. Qed.

(** ** Ranges of the read primitives and of the binning kernel *)

Lemma u16_small v : 0 <= v < 65536 -> u16 v = v.
Proof. intros H. rewrite u16_mod. apply Z.mod_small. lia. Qed.

(** X6.  The read primitives stay within the bit depth of their format: on
    a region of bytes [RAW10] returns a value below 2^10, [RAW12] a value
    below 2^12 and [RAW16] a value below 2^16, at every position. *)
Theorem read_primitives_bit_depth data x y stride :
  is_bytes data ->
  0 <= RAW10 data x y stride < 1024 /\
  0 <= RAW12 data x y stride < 4096 /\
  0 <= RAW16 data x y stride < 65536.
Proof.
  intros H. split; [apply RAW10_bound; exact H|].
  split; [apply RAW12_bound; exact H|].
  unfold RAW16. rewrite u16_mod. apply Z.mod_pos_bound. lia.
Qed.

Lemma read_primitives_bit_depth_witness :
  is_bytes (sample_region 40) /\
  0 <= RAW10 (sample_region 40) 5 2 10 < 1024 /\
  0 <= RAW12 (sample_region 40) 5 2 10 < 4096 /\
  0 <= RAW16 (sample_region 40) 3 2 10 < 65536.
Proof.
  split; [apply sample_region_bytes|].
  apply (read_primitives_bit_depth (sample_region 40) 5 2 10).
  apply sample_region_bytes.
Defined.

(** X7.  Binning never leaves the range of its input: if every sample that
    the read primitive returns is below a bound [M] of at most 2^14 (1024
    for RAW10, 4096 for RAW12), every binned sample is below [M] as well, so
    that the repacking into RAW10 or RAW12 loses no high bit. *)
Theorem bin_sample_bit_depth read data width height rowStride ix iy M :
  (forall x y, 0 <= read data x y rowStride < M) ->
  M <= 16384 ->
  0 <= bin_sample read data width height rowStride ix iy < M.
Proof.
  intros Hread HM. unfold bin_sample.
  set (xm := Z.max 0 (ix - 2)). set (xp := Z.rem (ix + 2) width).
  set (ym := Z.max 0 (iy - 2)). set (yp := Z.rem (iy + 2) height).
  pose proof (Hread xm ym). pose proof (Hread ix ym). pose proof (Hread xp ym).
  pose proof (Hread xm iy). pose proof (Hread ix iy). pose proof (Hread xp iy).
  pose proof (Hread xm yp). pose proof (Hread ix yp). pose proof (Hread xp yp).
  rewrite !Z.shiftl_mul_pow2 by lia.
  change (2 ^ 1) with 2. change (2 ^ 2) with 4.
  rewrite !(u16_small (read data _ _ rowStride)) by lia.
  rewrite !(u16_small (read data _ _ rowStride * _)) by lia.
  rewrite Z.shiftr_div_pow2 by lia. change (2 ^ 4) with 16.
  rewrite u16_small by (Z.to_euclidean_division_equations; lia).
  Z.to_euclidean_division_equations; lia.
Qed.

Lemma bin_sample_bit_depth_witness :
  0 <= bin_sample RAW10 (sample_region 400) 80 4 100 6 2 < 1024 /\
  0 <= bin_sample RAW12 (sample_region 480) 80 4 120 6 2 < 4096.
Proof.
  split.
  - apply (bin_sample_bit_depth RAW10 (sample_region 400) 80 4 100 6 2 1024);
      [|lia].
    intros x y. apply RAW10_bound, sample_region_bytes.
  - apply (bin_sample_bit_depth RAW12 (sample_region 480) 80 4 120 6 2 4096);
      [|lia].
    intros x y. apply RAW12_bound, sample_region_bytes.
Defined.

(** X8.  The binning kernel has unit gain: on a frame whose samples all
    have the same value [v] below 2^14, every binned sample is [v], also at
    the borders, where the neighbour index is clamped or wrapped. *)
Theorem bin_sample_flat_field read data width height rowStride ix iy v :
  (forall x y, 0 <= x < width -> 0 <= y < height ->
     read data x y rowStride = v) ->
  0 <= v < 16384 ->
  0 <= ix < width -> 0 <= iy < height ->
  bin_sample read data width height rowStride ix iy = v.
Proof.
  intros Hread Hv Hx Hy. unfold bin_sample.
  rewrite !Z.rem_mod_nonneg by lia.
  assert (Hxp := Z.mod_pos_bound (ix + 2) width ltac:(lia)).
  assert (Hyp := Z.mod_pos_bound (iy + 2) height ltac:(lia)).
  rewrite !Hread by lia.
  rewrite !Z.shiftl_mul_pow2 by lia.
  change (2 ^ 1) with 2. change (2 ^ 2) with 4.
  rewrite (u16_small v) by lia.
  rewrite (u16_small (v * 2)) by lia.
  rewrite (u16_small (v * 4)) by lia.
  rewrite Z.shiftr_div_pow2 by lia. change (2 ^ 4) with 16.
  replace (v + v * 2 + v + v * 2 + v * 4 + v * 2 + v + v * 2 + v)
    with (v * 16) by lia.
  rewrite Z.div_mul by lia. apply u16_small. lia.
Qed.

Lemma bin_sample_flat_field_witness :
  bin_sample RAW16 flat_RAW16_4x4 4 4 8 1 3 = 4096.
Proof.
  apply (bin_sample_flat_field RAW16 flat_RAW16_4x4 4 4 8 1 3 4096); try lia.
  intros x y Hx Hy.
  assert (Ex : x = 0 \/ x = 1 \/ x = 2 \/ x = 3) by lia.
  assert (Ey : y = 0 \/ y = 1 \/ y = 2 \/ y = 3) by lia.
  destruct Ex as [-> | [-> | [-> | ->]]];
    destruct Ey as [-> | [-> | [-> | ->]]]; reflexivity.
Defined.

(** ** The dispatch of [processBuffer] *)

Section ProcessBuffer.
Context {Metadata : Type}.
Variable encodeFunc : list Z -> list Z.
Implicit Types (c : @RawBufferStreamer Metadata) (b : @RawImageBuffer Metadata).

(** X9.  The settings decide the encoding of what [processBuffer] returns.
    For a frame of a supported format, unless nothing is to be done (no
    binning, no compression, no cropping and a format other than RAW16):
    with compression enabled the frame is RAW16, BITNZPACK_2 and marked
    compressed, with a row stride of twice its width; without, it is
    uncompressed, RAW10 stays RAW10, RAW12 and RAW16 become RAW12, and the
    row stride is the packed size of a row of the new width.  The metadata
    is kept, and [isBinned] is set by binning and never cleared. *)
Theorem processBuffer_output_encoding c b :
  PixelFormat.supported (pixelFormat b) = true ->
  mBin c = true \/ mEnableCompression c = true \/ mCropWidth c <> 0 \/
    mCropHeight c <> 0 \/ pixelFormat b = PixelFormat.RAW16 ->
  let b' := processBuffer encodeFunc c b in
  metadata b' = metadata b /\
  isBinned b' = isBinned b || mBin c /\
  isCompressed b' = mEnableCompression c /\
  compressionType b' =
    (if mEnableCompression c then CompressionType.BITNZPACK_2
     else CompressionType.UNCOMPRESSED) /\
  pixelFormat b' =
    (if mEnableCompression c then PixelFormat.RAW16
     else match pixelFormat b with
          | PixelFormat.RAW10 => PixelFormat.RAW10
          | _ => PixelFormat.RAW12
          end) /\
  rowStride b' =
    (if mEnableCompression c then 2 * width b'
     else match pixelFormat b with
          | PixelFormat.RAW10 => Z.quot (10 * width b') 8
          | _ => Z.quot (12 * width b') 8
          end).
Proof.
  intros Hfmt Hwork b'. subst b'. unfold processBuffer.
  destruct (mBin c) eqn:Ebin.
  - rewrite orb_true_r.
    unfold cropAndBin.
    destruct (pixelFormat b) eqn:Efmt; try discriminate;
      match goal with
      | |- context [cropAndBin_finish c b ?out] =>
          destruct out as [bs e]
      end;
      unfold cropAndBin_finish; rewrite Efmt;
      destruct (mEnableCompression c); cbn;
      repeat split; try reflexivity; lia.
  - rewrite orb_false_r.
    destruct (mEnableCompression c) eqn:Ecomp.
    + unfold cropAndCompress.
      destruct (pixelFormat b) eqn:Efmt; try discriminate;
        match goal with
        | |- context [cropAndCompress_finish c b ?out] =>
            destruct out as [bs e]
        end;
        unfold cropAndCompress_finish; cbn;
        repeat split; try reflexivity; lia.
    + unfold crop.
      assert (Hguard :
        (mCropWidth c =? 0) && (mCropHeight c =? 0)
        && negb (PixelFormat.eqb (pixelFormat b) PixelFormat.RAW16) = false).
      { destruct Hwork as [H | [H | [H | [H | H]]]]; try discriminate.
        - apply Z.eqb_neq in H. rewrite H. reflexivity.
        - apply Z.eqb_neq in H. rewrite H. apply andb_false_iff. left.
          apply andb_false_r.
        - rewrite H. simpl. apply andb_false_r. }
      rewrite Hguard.
      destruct (pixelFormat b) eqn:Efmt; try discriminate;
        unfold crop_finish; cbn; repeat split; reflexivity.
Qed.

(** X10.  Locking is balanced: [processBuffer] returns the region of a
    frame that came in unlocked unlocked again, on every path, and has
    locked it at most once. *)
Theorem processBuffer_lock_balanced c b :
  locked (data b) = false ->
  let b' := processBuffer encodeFunc c b in
  locked (data b') = false /\
  (lockCount (data b') = lockCount (data b) \/
   lockCount (data b') = S (lockCount (data b))).
Proof.
  intros Hl b'. subst b'. unfold processBuffer.
  destruct (mBin c).
  - unfold cropAndBin.
    destruct (pixelFormat b);
      try match goal with
      | |- context [cropAndBin_finish c b ?out] =>
          destruct out as [bs e]
      end;
      unfold cropAndBin_finish;
      try destruct (mEnableCompression c); cbn; auto.
  - destruct (mEnableCompression c).
    + unfold cropAndCompress.
      destruct (pixelFormat b);
        try match goal with
        | |- context [cropAndCompress_finish c b ?out] =>
            destruct out as [bs e]
        end;
        unfold cropAndCompress_finish; cbn; auto.
    + unfold crop. destruct (_ && _); [auto|].
      destruct (pixelFormat b); unfold crop_finish; cbn; auto.
Qed.

(** X11.  [crop] sets the valid range to the whole cropped image, and that
    lies within the original image: for a frame of a supported format whose
    row stride holds a packed row, the valid range is
    [(0, rowStride' * height')] with
    [rowStride' * height' <= rowStride * height]. *)
Theorem crop_valid_range_within c b :
  PixelFormat.supported (pixelFormat b) = true ->
  mCropWidth c <> 0 \/ mCropHeight c <> 0 \/
    pixelFormat b = PixelFormat.RAW16 ->
  0 <= mCropWidth c <= 100 -> 0 <= mCropHeight c <= 100 ->
  0 <= width b <= INT_MAX -> Z.even (width b) = true ->
  0 <= height b <= INT_MAX -> Z.even (height b) = true ->
  match pixelFormat b with
  | PixelFormat.RAW10 => 10 * width b
  | _ => 12 * width b
  end <= 8 * rowStride b ->
  let b' := crop c b in
  validRange (data b') = (0, rowStride b' * height b') /\
  0 <= rowStride b' * height b' <= rowStride b * height b.
Proof.
  intros Hfmt Hwork Hcw Hch Hw Hwe Hh Hhe Hrs b'. subst b'.
  destruct (horizontalCrop_range c b Hcw Hw Hwe) as [Hhc0 Hhc1].
  destruct (verticalCrop_range c b Hch Hh Hhe) as [Hvc0 Hvc1].
  unfold crop.
  assert (Hguard :
    (mCropWidth c =? 0) && (mCropHeight c =? 0)
    && negb (PixelFormat.eqb (pixelFormat b) PixelFormat.RAW16) = false).
  { destruct Hwork as [H | [H | H]].
    - apply Z.eqb_neq in H. rewrite H. reflexivity.
    - apply Z.eqb_neq in H. rewrite H. apply andb_false_iff. left.
      apply andb_false_r.
    - rewrite H. simpl. apply andb_false_r. }
  rewrite Hguard.
  destruct (pixelFormat b) eqn:Efmt; try discriminate;
    unfold crop_finish; cbn; (split; [reflexivity|]);
    unfold croppedWidth, croppedHeight;
    rewrite Z.quot_div_nonneg by lia;
    set (hc := horizontalCrop c b) in *;
    set (vc := verticalCrop c b) in *.
  all: assert (0 <= height b - vc * 2 <= height b) by lia.
  - assert (0 <= 10 * (width b - hc * 2) / 8 <= rowStride b)
      by (Z.to_euclidean_division_equations; lia).
    nia.
  - assert (0 <= 12 * (width b - hc * 2) / 8 <= rowStride b)
      by (Z.to_euclidean_division_equations; lia).
    nia.
  - assert (0 <= 12 * (width b - hc * 2) / 8 <= rowStride b)
      by (Z.to_euclidean_division_equations; lia).
    nia.
Qed.

End ProcessBuffer.

Lemma processBuffer_output_encoding_witness :
  let c := sample_streamer 10 10 false false in
  let b := sample_buffer PixelFormat.RAW16 16 8 32 in
  let b' := processBuffer two_byte_codec c b in
  PixelFormat.supported (pixelFormat b) = true /\
  pixelFormat b' = PixelFormat.RAW12 /\
  compressionType b' = CompressionType.UNCOMPRESSED /\
  isCompressed b' = false /\
  rowStride b' = Z.quot (12 * width b') 8.
Proof.
  intros c b b'.
  assert (Hwork :
    mBin c = true \/ mEnableCompression c = true \/ mCropWidth c <> 0 \/
    mCropHeight c <> 0 \/ pixelFormat b = PixelFormat.RAW16)
    by (right; right; left; unfold INT_MAX; simpl; lia).
  destruct (processBuffer_output_encoding two_byte_codec c b eq_refl Hwork)
    as (_ & _ & Hc & Ht & Hf & Hs).
  split; [reflexivity|]. split; [exact Hf|]. split; [exact Ht|].
  split; [exact Hc|exact Hs].
Defined.

Lemma processBuffer_lock_balanced_witness :
  let c := sample_streamer 10 10 false true in
  let b := sample_buffer PixelFormat.RAW12 16 8 24 in
  let b' := processBuffer two_byte_codec c b in
  locked (data b) = false /\
  locked (data b') = false /\
  (lockCount (data b') = lockCount (data b) \/
   lockCount (data b') = S (lockCount (data b))).
Proof.
  intros c b b'. split; [reflexivity|].
  apply (processBuffer_lock_balanced two_byte_codec c b). reflexivity.
Defined.

Lemma crop_valid_range_within_witness :
  let c := sample_streamer 10 10 false false in
  let b := sample_buffer PixelFormat.RAW10 80 40 100 in
  let b' := crop c b in
  rowStride b' = 90 /\ height b' = 36 /\
  validRange (data b') = (0, rowStride b' * height b') /\
  0 <= rowStride b' * height b' <= rowStride b * height b.
Proof.
  intros c b b'.
  split; [reflexivity|]. split; [reflexivity|].
  apply (crop_valid_range_within c b); try reflexivity;
    unfold INT_MAX; simpl; lia.
Defined.

(** ** The valid range after binning *)

Lemma pack_RAW12_offset row s :
  snd (pack_RAW12 row s) = snd s + 3 * (Z.of_nat (length row) / 2).
Proof.
  unfold pack_RAW12. rewrite Z.quot_div_nonneg by lia.
  set (n := Z.of_nat (length row) / 2).
  assert (0 <= n) by (subst n; apply Z.div_pos; lia).
  destruct (for_range_inv (fun j s' => 0 <= j /\ snd s' = snd s + 3 * j)
              0 n 1 (pack12_body row n) s) as (j & Hj1 & Hj2 & Hj0 & HP).
  - lia.
  - split; lia.
  - intros j [d off] Hj [H0 H1]. simpl in *. split; lia.
  - rewrite HP. assert (j = n) by lia. subst j. reflexivity.
Qed.

Lemma pack_RAW10_offset row s :
  snd (pack_RAW10 row s)
  = snd s + 5 * ((Z.of_nat (length row) / 2 + 1) / 2).
Proof.
  unfold pack_RAW10. rewrite Z.quot_div_nonneg by lia.
  set (n := Z.of_nat (length row) / 2).
  assert (0 <= n) by (subst n; apply Z.div_pos; lia).
  destruct (for_range_inv
              (fun j s' => 0 <= j /\ j mod 2 = 0 /\ snd s' = snd s + 5 * (j / 2))
              0 n 2 (pack10_body row n) s) as (j & Hj1 & Hj2 & Hj0 & Hjm & HP).
  - lia.
  - split; [lia|]. split; [reflexivity|]. change (0 / 2) with 0. lia.
  - intros j [d off] Hj (H0 & Hm & H1). unfold pack10_body.
    cbn [snd] in *.
    split; [lia|].
    split; [Z.to_euclidean_division_equations; lia|].
    replace ((j + 2) / 2) with (j / 2 + 1)
      by (Z.to_euclidean_division_equations; lia).
    lia.
  - rewrite HP. f_equal. f_equal.
    Z.to_euclidean_division_equations; lia.
Qed.

Lemma bin_rows_length read idx0 data width height rowStride xstart xend bw y rows :
  length (fst (bin_rows read idx0 data width height rowStride xstart xend bw y rows))
  = length (fst rows) /\
  length (snd (bin_rows read idx0 data width height rowStride xstart xend bw y rows))
  = length (snd rows).
Proof.
  unfold bin_rows.
  destruct (for_range_inv
              (fun (_ : Z) r => length (fst r) = length (fst rows) /\
                                length (snd r) = length (snd rows))
              xstart xend 4
              (bin_body read idx0 data width height rowStride xstart bw y) rows)
    as (j & _ & _ & HP).
  - lia.
  - split; reflexivity.
  - intros j [r0 r1] _ [H0 H1]. unfold bin_body. cbn [fst snd] in *.
    rewrite !length_vset. split; assumption.
  - exact HP.
Qed.

Section BinnedRange.
Context {Metadata : Type}.
Variable encodeFunc : list Z -> list Z.
Implicit Types (c : @RawBufferStreamer Metadata) (b : @RawImageBuffer Metadata).

Lemma cropAndBin_loop_offset read idx0 pack f b d ystart K xstart xend bw :
  (forall row s, snd (pack row s) = snd s + f (Z.of_nat (length row))) ->
  0 <= K -> 0 <= bw ->
  snd (cropAndBin_loop encodeFunc read idx0 pack b d ystart (ystart + 4 * K)
         xstart xend bw false)
  = 2 * f bw * K.
Proof.
  intros Hpack HK Hbw. unfold cropAndBin_loop.
  destruct (for_range_inv
    (fun j (s : (list Z * list Z) * (list Z * Z)) =>
       ystart <= j /\ (j - ystart) mod 4 = 0 /\
       Z.of_nat (length (fst (fst s))) = bw /\
       Z.of_nat (length (snd (fst s))) = bw /\
       snd (snd s) = 2 * f bw * ((j - ystart) / 4))
    ystart (ystart + 4 * K) 4
    (cropAndBin_body encodeFunc read idx0 pack false (width b) (height b)
       (rowStride b) xstart xend bw)
    ((new_row bw, new_row bw), (d, 0)))
    as (j & Hj1 & Hj2 & Hj0 & Hjm & _ & _ & HP).
  - lia.
  - cbn [fst snd]. rewrite length_new_row by lia.
    replace (ystart - ystart) with 0 by lia.
    repeat split; try reflexivity; try lia.
    rewrite Z.div_0_l by lia. lia.
  - intros j [[r0 r1] [d' off]] Hj (H0 & Hm & Hl0 & Hl1 & Hoff).
    cbn [fst snd] in *. unfold cropAndBin_body. cbn [fst snd].
    destruct (bin_rows_length read idx0 d' (width b) (height b) (rowStride b)
                xstart xend bw j (r0, r1)) as [E0 E1].
    cbn [fst snd] in E0, E1.
    split; [lia|].
    split; [Z.to_euclidean_division_equations; lia|].
    rewrite E0, E1. split; [exact Hl0|]. split; [exact Hl1|].
    rewrite !Hpack. cbn [snd]. rewrite E0, E1, Hl0, Hl1, Hoff.
    replace ((j + 4 - ystart) / 4) with ((j - ystart) / 4 + 1)
      by (Z.to_euclidean_division_equations; lia).
    lia.
  - rewrite HP. f_equal.
    Z.to_euclidean_division_equations; lia.
Qed.

(** X12.  Without compression, the valid range that [cropAndBin] sets is
    the whole binned image: for a frame of a supported format whose width
    and height are multiples of 4 (the width a multiple of 8 for RAW10, so
    that the binned rows are made of whole groups), the packing loops
    advance the offset by exactly [rowStride'] bytes per binned row, and the
    valid range is [(0, rowStride' * height')]. *)
Theorem cropAndBin_valid_range c b :
  mEnableCompression c = false ->
  PixelFormat.supported (pixelFormat b) = true ->
  0 <= mCropWidth c <= 100 -> 0 <= mCropHeight c <= 100 ->
  0 <= width b <= INT_MAX -> width b mod 4 = 0 ->
  (pixelFormat b = PixelFormat.RAW10 -> width b mod 8 = 0) ->
  0 <= height b <= INT_MAX -> height b mod 4 = 0 ->
  let b' := cropAndBin encodeFunc c b in
  validRange (data b') = (0, rowStride b' * height b').
Proof.
  intros Hcomp Hfmt Hcw Hch Hw Hw4 Hw8 Hh Hh4 b'. subst b'.
  assert (Hwe : Z.even (width b) = true).
  { apply Z.even_spec. exists (2 * (width b / 4)).
    Z.to_euclidean_division_equations; lia. }
  assert (Hhe : Z.even (height b) = true).
  { apply Z.even_spec. exists (2 * (height b / 4)).
    Z.to_euclidean_division_equations; lia. }
  destruct (horizontalCrop_range c b Hcw Hw Hwe) as [Hhc0 Hhc1].
  destruct (verticalCrop_range c b Hch Hh Hhe) as [Hvc0 Hvc1].
  pose proof (horizontalCrop_aligned c b) as Hhc4.
  pose proof (verticalCrop_aligned c b) as Hvc2.
  rewrite Z.rem_mod_nonneg in Hhc4, Hvc2 by lia.
  set (hc := horizontalCrop c b) in *.
  set (vc := verticalCrop c b) in *.
  set (K := (height b - 2 * vc) / 4).
  assert (HK : 0 <= K) by (subst K; apply Z.div_pos; lia).
  assert (Hyend : height b - vc = vc + 4 * K).
  { subst K. Z.to_euclidean_division_equations; lia. }
  assert (Hbw : 0 <= Z.quot (croppedWidth c b) 2).
  { unfold croppedWidth. fold hc. rewrite Z.quot_div_nonneg by lia.
    apply Z.div_pos; lia. }
  unfold cropAndBin. fold hc vc. rewrite Hyend, Hcomp.
  destruct (pixelFormat b) eqn:Efmt; try discriminate.
  - unfold cropAndBin_RAW10.
    match goal with
    | |- context [cropAndBin_finish c b ?out] =>
        pose proof (cropAndBin_loop_offset RAW10 u16 pack_RAW10
                      (fun L => 5 * ((L / 2 + 1) / 2)) b
                      (bytes (lock (data b))) vc K hc (width b - hc)
                      (Z.quot (croppedWidth c b) 2)
                      pack_RAW10_offset HK Hbw) as Hoff;
        destruct out as [bs e] eqn:Eout
    end.
    cbn [snd] in Hoff. unfold cropAndBin_finish. rewrite Hcomp, Efmt.
    cbn. f_equal. rewrite Hoff.
    specialize (Hw8 eq_refl).
    unfold croppedWidth, croppedHeight. fold hc vc.
    rewrite !Z.quot_div_nonneg by
      (try lia; try (apply Z.mul_nonneg_nonneg; [lia|]);
       rewrite ?Z.quot_div_nonneg by lia; try apply Z.div_pos; lia).
    set (W := width b - hc * 2).
    assert (E1 : (W / 2 / 2 + 1) / 2 = W / 8)
      by (subst W; Z.to_euclidean_division_equations; lia).
    assert (E2 : 10 * (W / 2) / 8 = 5 * (W / 8))
      by (subst W; Z.to_euclidean_division_equations; lia).
    assert (E3 : (height b - vc * 2) / 2 = 2 * K)
      by (subst K; Z.to_euclidean_division_equations; lia).
    rewrite E1, E2, E3. ring.
  - unfold cropAndBin_RAW12.
    match goal with
    | |- context [cropAndBin_finish c b ?out] =>
        pose proof (cropAndBin_loop_offset RAW12 id pack_RAW12
                      (fun L => 3 * (L / 2)) b
                      (bytes (lock (data b))) vc K hc (width b - hc)
                      (Z.quot (croppedWidth c b) 2)
                      pack_RAW12_offset HK Hbw) as Hoff;
        destruct out as [bs e] eqn:Eout
    end.
    cbn [snd] in Hoff. unfold cropAndBin_finish. rewrite Hcomp, Efmt.
    cbn. f_equal. rewrite Hoff.
    unfold croppedWidth, croppedHeight. fold hc vc.
    rewrite !Z.quot_div_nonneg by
      (try lia; try (apply Z.mul_nonneg_nonneg; [lia|]);
       rewrite ?Z.quot_div_nonneg by lia; try apply Z.div_pos; lia).
    set (W := width b - hc * 2).
    assert (E1 : W / 2 / 2 = W / 4)
      by (subst W; Z.to_euclidean_division_equations; lia).
    assert (E2 : 12 * (W / 2) / 8 = 3 * (W / 4))
      by (subst W; Z.to_euclidean_division_equations; lia).
    assert (E3 : (height b - vc * 2) / 2 = 2 * K)
      by (subst K; Z.to_euclidean_division_equations; lia).
    rewrite E1, E2, E3. ring.
  - unfold cropAndBin_RAW16.
    match goal with
    | |- context [cropAndBin_finish c b ?out] =>
        pose proof (cropAndBin_loop_offset RAW16 id pack_RAW12
                      (fun L => 3 * (L / 2)) b
                      (bytes (lock (data b))) vc K hc (width b - hc)
                      (Z.quot (croppedWidth c b) 2)
                      pack_RAW12_offset HK Hbw) as Hoff;
        destruct out as [bs e] eqn:Eout
    end.
    cbn [snd] in Hoff. unfold cropAndBin_finish. rewrite Hcomp, Efmt.
    cbn. f_equal. rewrite Hoff.
    unfold croppedWidth, croppedHeight. fold hc vc.
    rewrite !Z.quot_div_nonneg by
      (try lia; try (apply Z.mul_nonneg_nonneg; [lia|]);
       rewrite ?Z.quot_div_nonneg by lia; try apply Z.div_pos; lia).
    set (W := width b - hc * 2).
    assert (E1 : W / 2 / 2 = W / 4)
      by (subst W; Z.to_euclidean_division_equations; lia).
    assert (E2 : 12 * (W / 2) / 8 = 3 * (W / 4))
      by (subst W; Z.to_euclidean_division_equations; lia).
    assert (E3 : (height b - vc * 2) / 2 = 2 * K)
      by (subst K; Z.to_euclidean_division_equations; lia).
    rewrite E1, E2, E3. ring.
Qed.

End BinnedRange.

Lemma cropAndBin_valid_range_witness :
  let c := sample_streamer 10 10 true false in
  let b := sample_buffer PixelFormat.RAW10 80 40 100 in
  let b' := cropAndBin two_byte_codec c b in
  rowStride b' = 45 /\ height b' = 18 /\
  validRange (data b') = (0, rowStride b' * height b').
Proof.
  intros c b b'.
  split; [vm_compute; reflexivity|]. split; [vm_compute; reflexivity|].
  apply (cropAndBin_valid_range two_byte_codec c b); try reflexivity;
    unfold INT_MAX; simpl; lia.
Defined.

(** ** The RAW10 packing loop *)

Lemma pack10_body_inv row n data0 off0 j s :
  0 <= off0 -> j < n -> off0 + 5 * ((n + 1) / 2) <= Z.of_nat (length data0) ->
  packed10_inv row n data0 off0 j s ->
  packed10_inv row n data0 off0 (j + 2) (pack10_body row n j s).
Proof.
  intros Hoff Hj Hlen (Hj0 & Hjm & Hs & Hl & Hframe & Hgrp).
  destruct s as [d o]. cbn [fst snd] in *. subst o.
  assert (Ej : (j + 2) / 2 = j / 2 + 1)
    by (Z.to_euclidean_division_equations; lia).
  assert (Hin : off0 + 5 * (j / 2) + 5 <= Z.of_nat (length d)).
  { rewrite Hl. Z.to_euclidean_division_equations; lia. }
  assert (Hj2 : 0 <= j / 2) by (Z.to_euclidean_division_equations; lia).
  unfold packed10_inv, pack10_body. cbn [fst snd].
  split; [lia|]. split; [Z.to_euclidean_division_equations; lia|].
  split; [lia|]. split; [rewrite !length_store; assumption|]. split.
  - intros a Ha. rewrite !load_store_ne by lia. apply Hframe. lia.
  - intros g k Hg Hgj Hk.
    destruct (Z.eq_dec g (j / 2)) as [-> | Hne].
    + assert (E2 : 2 * (j / 2) = j)
        by (Z.to_euclidean_division_equations; lia).
      unfold grp10. rewrite E2.
      assert (k = 0 \/ k = 1 \/ k = 2 \/ k = 3 \/ k = 4)
        as [-> | [-> | [-> | [-> | ->]]]] by lia; cbn [Z.eqb].
      * rewrite !load_store_ne by lia.
        rewrite Z.add_0_r, load_store_eq by lia. reflexivity.
      * rewrite !load_store_ne by lia.
        rewrite load_store_eq by (rewrite !length_store; lia).
        rewrite (Z.add_comm j n). reflexivity.
      * rewrite !load_store_ne by lia.
        rewrite load_store_eq by (rewrite !length_store; lia). reflexivity.
      * rewrite !load_store_ne by lia.
        rewrite load_store_eq by (rewrite !length_store; lia).
        rewrite (Z.add_comm j n). reflexivity.
      * rewrite load_store_eq by (rewrite !length_store; lia). reflexivity.
    + assert (2 * g < j) by (Z.to_euclidean_division_equations; lia).
      rewrite !load_store_ne by (Z.to_euclidean_division_equations; lia).
      apply Hgrp; lia.
Qed.

Lemma pack_RAW10_inv row data off :
  0 <= off ->
  off + 5 * ((Z.of_nat (length row) / 2 + 1) / 2) <= Z.of_nat (length data) ->
  exists j,
    Z.of_nat (length row) / 2 <= j /\
    j / 2 = (Z.of_nat (length row) / 2 + 1) / 2 /\
    packed10_inv row (Z.of_nat (length row) / 2) data off j
      (pack_RAW10 row (data, off)).
Proof.
  intros Hoff Hlen. unfold pack_RAW10.
  rewrite Z.quot_div_nonneg by lia.
  set (n := Z.of_nat (length row) / 2) in *.
  assert (0 <= n) by (subst n; apply Z.div_pos; lia).
  destruct (for_range_inv (packed10_inv row n data off) 0 n 2
              (pack10_body row n) (data, off)) as (j & Hj1 & Hj2 & HP).
  - lia.
  - unfold packed10_inv; cbn [fst snd]. change (0 / 2) with 0.
    split; [lia|]. split; [reflexivity|]. split; [lia|].
    split; [reflexivity|]. split; [reflexivity|]. intros; lia.
  - intros j s Hj HP. apply pack10_body_inv; auto.
  - exists j. split; [lia|]. split; [|exact HP].
    destruct HP as (Hj0 & Hjm & _).
    Z.to_euclidean_division_equations; lia.
Qed.

Lemma low10_val a b c d :
  low10 a b c d = a mod 4 + 4 * (b mod 4) + 16 * (c mod 4) + 64 * (d mod 4).
Proof.
  unfold low10.
  rewrite !u8_mod, !land_mask3, !Z.shiftl_mul_pow2 by lia.
  pose proof (Z.mod_pos_bound a 4). pose proof (Z.mod_pos_bound b 4).
  pose proof (Z.mod_pos_bound c 4). pose proof (Z.mod_pos_bound d 4).
  rewrite (Z.mod_small (a mod 4)) by lia.
  rewrite (Z.mod_small (b mod 4 * 2 ^ 2)) by lia.
  rewrite (Z.mod_small (c mod 4 * 2 ^ 4)) by lia.
  rewrite (Z.mod_small (d mod 4 * 2 ^ 6)) by lia.
  rewrite (Z.lor_comm (a mod 4)).
  rewrite lor_shifted_add by lia.
  rewrite (Z.lor_comm _ (c mod 4 * 2 ^ 4)).
  rewrite lor_shifted_add by lia.
  rewrite (Z.lor_comm _ (d mod 4 * 2 ^ 6)).
  rewrite lor_shifted_add by lia.
  lia.
Qed.

Lemma raw10_decode hi lo p :
  0 <= hi < 256 -> 0 <= p < 4 ->
  u16 (Z.lor (Z.shiftl hi 2) (Z.land (Z.shiftr lo (2 * p)) 3))
  = 4 * hi + (lo / 2 ^ (2 * p)) mod 4.
Proof.
  intros Hhi Hp.
  rewrite land_mask3, Z.shiftl_mul_pow2, Z.shiftr_div_pow2 by lia.
  pose proof (Z.mod_pos_bound (lo / 2 ^ (2 * p)) 4).
  rewrite lor_shifted_add by (change (2 ^ 2) with 4; lia).
  change (2 ^ 2) with 4. rewrite u16_mod, Z.mod_small by lia. lia.
Qed.

Lemma RAW10_grp10_decode d row n x y stride :
  0 <= x ->
  (forall t, 0 <= t < 5 ->
     load d (y * stride + 5 * (x / 4) + t) = grp10 row n (x / 4) t) ->
  0 <= vget row (if Z.even x then x / 2 else n + x / 2) < 1024 ->
  RAW10 d x y stride / 4
  = vget row (if Z.even x then x / 2 else n + x / 2) / 4 /\
  (x mod 4 = 0 -> RAW10 d x y stride = vget row (x / 2)).
Proof.
  intros Hx Hgrp Hv.
  rewrite RAW10_group by lia.
  assert (Hp : 0 <= x mod 4 < 4) by (apply Z.mod_pos_bound; lia).
  rewrite (Hgrp 4) by lia. rewrite (Hgrp (x mod 4)) by lia.
  assert (Hhi : forall v, 0 <= v < 1024 -> u8 (Z.shiftr v 2) = v / 4).
  { intros v Hv'. rewrite u8_mod, Z.shiftr_div_pow2 by lia.
    change (2 ^ 2) with 4. apply Z.mod_small.
    Z.to_euclidean_division_equations; lia. }
  assert (Ex : x mod 4 = 0 \/ x mod 4 = 1 \/ x mod 4 = 2 \/ x mod 4 = 3)
    by lia.
  pose proof (Zmod_even x) as Hev.
  destruct (Z.even x);
    destruct Ex as [E | [E | [E | E]]];
    try (exfalso; Z.to_euclidean_division_equations; lia);
    rewrite E; unfold grp10 at 1; cbn [Z.eqb Pos.eqb].
  - replace (2 * (x / 4)) with (x / 2)
      by (Z.to_euclidean_division_equations; lia).
    rewrite Hhi, raw10_decode
      by (try assumption; Z.to_euclidean_division_equations; lia).
    split.
    + pose proof (Z.mod_pos_bound
                    (grp10 row n (x / 4) 4 / 2 ^ (2 * 0)) 4).
      Z.to_euclidean_division_equations; lia.
    + intros _. unfold grp10. cbn [Z.eqb Pos.eqb]. rewrite low10_val.
      replace (2 * (x / 4)) with (x / 2)
        by (Z.to_euclidean_division_equations; lia).
      rewrite Hhi, raw10_decode
        by (try assumption; Z.to_euclidean_division_equations; lia).
      change (2 ^ (2 * 0)) with 1. rewrite Z.div_1_r.
      Z.to_euclidean_division_equations; lia.
  - replace (2 * (x / 4) + 1) with (x / 2)
      by (Z.to_euclidean_division_equations; lia).
    rewrite Hhi, raw10_decode
      by (try assumption; Z.to_euclidean_division_equations; lia).
    split; [|lia].
    pose proof (Z.mod_pos_bound (grp10 row n (x / 4) 4 / 2 ^ (2 * 2)) 4).
    Z.to_euclidean_division_equations; lia.
  - replace (2 * (x / 4) + n) with (n + x / 2)
      by (Z.to_euclidean_division_equations; lia).
    rewrite Hhi, raw10_decode
      by (try assumption; Z.to_euclidean_division_equations; lia).
    split; [|lia].
    pose proof (Z.mod_pos_bound (grp10 row n (x / 4) 4 / 2 ^ (2 * 1)) 4).
    Z.to_euclidean_division_equations; lia.
  - replace (2 * (x / 4) + n + 1) with (n + x / 2)
      by (Z.to_euclidean_division_equations; lia).
    rewrite Hhi, raw10_decode
      by (try assumption; Z.to_euclidean_division_equations; lia).
    split; [|lia].
    pose proof (Z.mod_pos_bound (grp10 row n (x / 4) 4 / 2 ^ (2 * 3)) 4).
    Z.to_euclidean_division_equations; lia.
Qed.

(** X16.  What the RAW10 packing loop of [cropAndBin_RAW10] gets right: a
    column-split row of 10-bit samples packed at row [y] of a region reads
    back, at every column, with the upper 8 bits of the sample of that
    column (the value read and the sample have the same quotient by 4), and
    the columns that are multiples of 4 read back exactly. *)
Theorem pack_RAW10_high_bits (row data : list Z) (x y stride : Z) :
  Forall (fun v => 0 <= v < 1024) row ->
  0 <= y * stride ->
  y * stride + 5 * ((Z.of_nat (length row) / 2 + 1) / 2)
    <= Z.of_nat (length data) ->
  0 <= x < 2 * (Z.of_nat (length row) / 2) ->
  let sample :=
    vget row (if Z.even x then x / 2 else Z.of_nat (length row) / 2 + x / 2) in
  let packed := fst (pack_RAW10 row (data, y * stride)) in
  RAW10 packed x y stride / 4 = sample / 4 /\
  (x mod 4 = 0 -> RAW10 packed x y stride = sample).
Proof.
  intros Hrow Hoff Hlen Hx sample packed. subst sample packed.
  destruct (pack_RAW10_inv row data (y * stride) Hoff Hlen)
    as (j & Hj & _ & _ & _ & _ & _ & _ & Hgrp).
  set (n := Z.of_nat (length row) / 2) in *.
  assert (Hg : 0 <= x / 4 /\ 2 * (x / 4) < j)
    by (Z.to_euclidean_division_equations; lia).
  destruct (RAW10_grp10_decode
              (fst (pack_RAW10 row (data, y * stride))) row n x y stride)
    as [D1 D2].
  - lia.
  - intros t Ht. apply Hgrp; lia.
  - apply vget_range; [lia|assumption].
  - split; [exact D1|]. intros Hx4. rewrite (D2 Hx4).
    replace (Z.even x) with true; [reflexivity|].
    symmetry. apply Z.even_spec. exists (2 * (x / 4)).
    Z.to_euclidean_division_equations; lia.
Qed.

(** X17.  The packing loops write their own row and nothing else: started
    at offset [off] on a region that holds the packed row, [pack_RAW12] and
    [pack_RAW10] return the offset advanced by the packed size of the row
    (3 bytes per pair, 5 bytes per group of four), keep the length of the
    region, and leave every byte outside that range as it was. *)
Theorem packers_stay_in_row (row data : list Z) (off : Z) :
  0 <= off ->
  let n := Z.of_nat (length row) / 2 in
  (off + 3 * n <= Z.of_nat (length data) ->
   let s := pack_RAW12 row (data, off) in
   snd s = off + 3 * n /\
   length (fst s) = length data /\
   forall a, a < off \/ off + 3 * n <= a -> load (fst s) a = load data a) /\
  (off + 5 * ((n + 1) / 2) <= Z.of_nat (length data) ->
   let s := pack_RAW10 row (data, off) in
   snd s = off + 5 * ((n + 1) / 2) /\
   length (fst s) = length data /\
   forall a, a < off \/ off + 5 * ((n + 1) / 2) <= a ->
     load (fst s) a = load data a).
Proof.
  intros Hoff n. split; intros Hlen s; subst s.
  - destruct (pack_RAW12_inv row data off Hoff Hlen)
      as (_ & Hs & Hl & Hframe & _).
    fold n in Hs, Hframe. auto.
  - destruct (pack_RAW10_inv row data off Hoff Hlen)
      as (j & _ & Ej & _ & _ & Hs & Hl & Hframe & _).
    fold n in Ej. rewrite Ej in Hs, Hframe. auto.
Qed.

Lemma pack_RAW10_high_bits_witness :
  let row := [1001; 1002; 1003; 1004; 5; 6; 7; 8] in
  let data := fst (pack_RAW10 row (replicate 20 0, 1 * 10)) in
  RAW10 data 6 1 10 / 4 = 1004 / 4 /\
  RAW10 data 3 1 10 / 4 = 6 / 4 /\
  RAW10 data 4 1 10 = 1003.
Proof.
  intros row data.
  assert (Hrow : Forall (fun v => 0 <= v < 1024) row)
    by (repeat constructor; lia).
  split; [|split].
  - apply (pack_RAW10_high_bits row (replicate 20 0) 6 1 10 Hrow);
      vm_compute; intuition congruence.
  - apply (pack_RAW10_high_bits row (replicate 20 0) 3 1 10 Hrow);
      vm_compute; intuition congruence.
  - apply (pack_RAW10_high_bits row (replicate 20 0) 4 1 10 Hrow);
      vm_compute; intuition congruence.
Defined.

Lemma packers_stay_in_row_witness :
  let row := [1001; 1002; 1003; 1004; 5; 6; 7; 8] in
  let data := sample_region 30 in
  snd (pack_RAW12 row (data, 10)) = 22 /\
  load (fst (pack_RAW12 row (data, 10))) 9 = 9 /\
  load (fst (pack_RAW12 row (data, 10))) 22 = 22 /\
  snd (pack_RAW10 row (data, 10)) = 20 /\
  load (fst (pack_RAW10 row (data, 10))) 9 = 9 /\
  load (fst (pack_RAW10 row (data, 10))) 20 = 20.
Proof.
  intros row data.
  destruct (packers_stay_in_row row data 10 ltac:(lia)) as [H12 H10].
  destruct H12 as (E12 & _ & F12); [vm_compute; congruence|].
  destruct H10 as (E10 & _ & F10); [vm_compute; congruence|].
  split; [exact E12|].
  split; [rewrite F12 by (vm_compute; intuition congruence); reflexivity|].
  split; [rewrite F12 by (vm_compute; intuition congruence); reflexivity|].
  split; [exact E10|].
  split; [rewrite F10 by (vm_compute; intuition congruence); reflexivity|].
  rewrite F10 by (vm_compute; intuition congruence); reflexivity.
Defined.

(** ** Runs of the pipeline *)

Lemma sumZ_app l1 l2 : sumZ (l1 ++ l2) = sumZ l1 + sumZ l2.
Proof. unfold sumZ. induction l1 as [|a l IH]; simpl; [reflexivity|]. rewrite IH. lia. Qed.

Section PipelineRuns.
Context {Metadata : Type}.
Variable encodeFunc : list Z -> list Z.
Implicit Types (c : @RawBufferStreamer Metadata) (b : @RawImageBuffer Metadata).
Implicit Types (st : @Pipeline.state Metadata).

Lemma processBuffer_config c c' b :
  config c = config c' ->
  processBuffer encodeFunc c b = processBuffer encodeFunc c' b.
Proof.
  unfold config. intros E. injection E as E1 E2 E3 E4.
  unfold processBuffer, cropAndBin, cropAndBin_finish, cropAndCompress,
    cropAndCompress_loop, cropAndCompress_finish, crop, crop_RAW10_loop,
    crop_RAW12_loop, crop_RAW16_loop, crop_finish, croppedWidth,
    croppedHeight, horizontalCrop, verticalCrop.
  rewrite E1, E2, E3, E4. reflexivity.
Qed.


Lemma written_same (ws : list (@Pipeline.io_thread Metadata)) j w w' :
  ws !! j = Some w ->
  Pipeline.container w' = Pipeline.container w ->
  concat (map Pipeline.container (<[j := w']> ws))
  = concat (map Pipeline.container ws).
Proof.
  intros Hj Hc.
  destruct (written_insert ws j w w' Hj) as (R1 & R2 & E1 & E2).
  rewrite E1, E2, Hc. reflexivity.
Qed.

Lemma written_add (ws : list (@Pipeline.io_thread Metadata)) j w w' b :
  ws !! j = Some w ->
  Pipeline.container w' = Pipeline.container w ++ [b] ->
  concat (map Pipeline.container (<[j := w']> ws))
  ≡ₚ b :: concat (map Pipeline.container ws).
Proof.
  intros Hj Hc.
  destruct (written_insert ws j w w' Hj) as (R1 & R2 & E1 & E2).
  rewrite E1, E2, Hc. solve_Permutation.
Qed.

Lemma sumZ_Permutation l1 l2 : l1 ≡ₚ l2 -> sumZ l1 = sumZ l2.
Proof.
  unfold sumZ. induction 1; unfold INT_MAX; simpl; lia.
Qed.

Lemma account_counters c b :
  mAcceptedFrames (Pipeline.account c b) = mAcceptedFrames c /\
  mWrittenBytes (Pipeline.account c b) = mWrittenBytes c + valid_bytes b /\
  config (Pipeline.account c b) = config c.
Proof.
  unfold Pipeline.account, valid_bytes, config.
  destruct (validRange (data b)). simpl. auto.
Qed.

Lemma doProcess_step_counted n i st :
  counted n st -> counted n (Pipeline.doProcess_step encodeFunc i st).
Proof.
  intros (Ha & Hb). unfold Pipeline.doProcess_step.
  destruct (Pipeline.processThreads st !! i) as [p|]; [|split; assumption].
  destruct p as [| |b|]; try (split; assumption).
  destruct (mUnprocessedBuffers (Pipeline.streamer st)); split; assumption.
Qed.

Lemma doStream_step_counted n j st :
  counted n st -> counted n (Pipeline.doStream_step encodeFunc j st).
Proof.
  intros (Ha & Hb). unfold Pipeline.doStream_step.
  destruct (Pipeline.ioThreads st !! j) as [w|] eqn:Hj; [|split; assumption].
  unfold counted, Pipeline.written in *.
  assert (Hadd : forall c' next b,
    mAcceptedFrames c' = mAcceptedFrames (Pipeline.streamer st) ->
    mWrittenBytes c' = mWrittenBytes (Pipeline.streamer st) ->
    mAcceptedFrames (Pipeline.account c' b) = Z.of_nat n /\
    mWrittenBytes (Pipeline.account c' b)
    = sumZ (valid_bytes <$>
              concat (map Pipeline.container
                        (<[j := Pipeline.write_frame w next b]>
                           (Pipeline.ioThreads st))))).
  { intros c' next b E1 E2.
    destruct (account_counters c' b) as (A1 & A2 & _).
    rewrite A1, A2, E1, E2, Ha, Hb. split; [reflexivity|].
    rewrite (sumZ_Permutation _ _
               (fmap_Permutation valid_bytes _ _
                  (written_add _ j w (Pipeline.write_frame w next b) b Hj
                     eq_refl))).
    rewrite fmap_cons. unfold sumZ. simpl. lia. }
  destruct (Pipeline.pc w);
    cbn [Pipeline.streamer Pipeline.ioThreads];
    try (rewrite written_same with (w := w) by (assumption || reflexivity);
         split; assumption).
  - destruct (mReadyBuffers (Pipeline.streamer st)) as [|b q];
      cbn [Pipeline.streamer Pipeline.ioThreads].
    + rewrite written_same with (w := w) by (assumption || reflexivity).
      split; assumption.
    + apply Hadd; reflexivity.
  - destruct (mReadyBuffers (Pipeline.streamer st)) as [|b q];
      cbn [Pipeline.streamer Pipeline.ioThreads].
    + rewrite written_same with (w := w) by (assumption || reflexivity).
      split; assumption.
    + apply Hadd; reflexivity.
  - destruct (mUnprocessedBuffers (Pipeline.streamer st)) as [|b q];
      cbn [Pipeline.streamer Pipeline.ioThreads].
    + rewrite written_same with (w := w) by (assumption || reflexivity).
      split; assumption.
    + apply Hadd; reflexivity.
  - split; assumption.
Qed.

Lemma run_counted tr : forall n st,
  counted n st ->
  counted (n + length (Pipeline.submitted tr)) (Pipeline.run encodeFunc tr st).
Proof.
  induction tr as [|a tr IH]; intros n st H.
  - simpl. rewrite Nat.add_0_r. exact H.
  - change (Pipeline.run encodeFunc (a :: tr) st)
      with (Pipeline.run encodeFunc tr (Pipeline.step encodeFunc a st)).
    destruct a as [f| |i|j|bin|w h].
    + change (Pipeline.submitted (Pipeline.Add f :: tr))
        with (f :: Pipeline.submitted tr).
      cbn [length]. rewrite <- Nat.add_succ_comm. apply IH.
      destruct H as (Ha & Hb). split; [|exact Hb].
      cbn. rewrite Ha. lia.
    + apply IH. exact H.
    + apply IH. apply doProcess_step_counted. exact H.
    + apply IH. apply doStream_step_counted. exact H.
    + apply IH. exact H.
    + apply IH. cbn [Pipeline.step]. unfold setCropAmount.
      destruct (negb (mRunning (Pipeline.streamer st))); exact H.
Qed.

Lemma account_running c b :
  mRunning (Pipeline.account c b) = mRunning c.
Proof. unfold Pipeline.account. destruct (validRange (data b)). reflexivity. Qed.

(** *** The counters *)

(** X13.  The counters tell what has happened.  In every state that a run
    reaches from [start], [mAcceptedFrames] is the number of frames that
    have been submitted with [add], and [mWrittenBytes] (the value that
    [writenOutputBytes] returns) is the sum, over all containers, of the
    lengths of the valid ranges of the frames written.  (Each update of a
    counter is one step of the interleaving.) *)
Theorem counters_account c numFds enableCompression numThreads tr :
  (0 < numFds)%nat ->
  let st :=
    Pipeline.run encodeFunc tr
      (Pipeline.start c numFds enableCompression numThreads) in
  mAcceptedFrames (Pipeline.streamer st)
  = Z.of_nat (length (Pipeline.submitted tr)) /\
  mWrittenBytes (Pipeline.streamer st)
  = sumZ (valid_bytes <$> Pipeline.written st).
Proof.
  intros Hn st. subst st.
  apply (run_counted tr 0).
  destruct numFds as [|k]; [lia|].
  unfold counted, Pipeline.start, Pipeline.written.
  cbn [Pipeline.streamer Pipeline.ioThreads mAcceptedFrames mWrittenBytes].
  split; [reflexivity|].
  assert (Hc : forall m,
    concat (map Pipeline.container
              (replicate m (@Pipeline.mkIo Metadata Pipeline.WLoop [] false)))
    = []) by (induction m; simpl; auto).
  rewrite Hc. reflexivity.
Qed.

(** *** Every frame is transformed once *)

Lemma held_same (ps : list (@Pipeline.process_pc Metadata)) i p p' :
  ps !! i = Some p ->
  Pipeline.held [p] = [] -> Pipeline.held [p'] = [] ->
  Pipeline.held (<[i := p']> ps) = Pipeline.held ps.
Proof.
  intros Hi Hp Hp'.
  destruct (held_insert ps i p p' Hi) as (R & E1 & E2).
  rewrite E1, E2, Hp, Hp'. reflexivity.
Qed.

Lemma doProcess_step_processed_once c0 frames i st :
  processed_once encodeFunc c0 frames st ->
  processed_once encodeFunc c0 frames (Pipeline.doProcess_step encodeFunc i st).
Proof.
  intros (Hcfg & D & Hf & Hr). unfold Pipeline.doProcess_step.
  destruct (Pipeline.processThreads st !! i) as [p|] eqn:Hi;
    [|split; [assumption|exists D; split; assumption]].
  unfold processed_once, Pipeline.written in *.
  destruct p as [| |b|].
  - cbn [Pipeline.streamer Pipeline.processThreads Pipeline.ioThreads].
    rewrite (held_same _ i Pipeline.PLoop) by
      (try assumption; try reflexivity;
       destruct (mRunning (Pipeline.streamer st)); reflexivity).
    split; [assumption|exists D; split; assumption].
  - destruct (mUnprocessedBuffers (Pipeline.streamer st)) as [|b q] eqn:Hq;
      cbn [Pipeline.streamer Pipeline.processThreads Pipeline.ioThreads].
    + rewrite (held_same _ i Pipeline.PWait) by (assumption || reflexivity).
      rewrite Hq. split; [assumption|exists D; split; assumption].
    + destruct (held_insert _ i _ (Pipeline.PHold b) Hi) as (R & E1 & E2).
      split; [exact Hcfg|]. exists D.
      cbn [Pipeline.setUnprocessed mUnprocessedBuffers mReadyBuffers].
      rewrite E2. rewrite E1 in Hf. split; [|exact Hr].
      rewrite Hf. simpl. solve_Permutation.
  - destruct (held_insert _ i _ Pipeline.PLoop Hi) as (R & E1 & E2).
    cbn [Pipeline.streamer Pipeline.processThreads Pipeline.ioThreads].
    split; [exact Hcfg|]. exists (b :: D).
    cbn [Pipeline.setReady mUnprocessedBuffers mReadyBuffers].
    rewrite E2. rewrite E1 in Hf. split.
    + rewrite Hf. simpl. solve_Permutation.
    + rewrite fmap_cons, <- Hr.
      rewrite (processBuffer_config _ c0 b Hcfg). solve_Permutation.
  - split; [assumption|exists D; split; assumption].
Qed.

Lemma doStream_step_processed_once c0 frames j st :
  processed_once encodeFunc c0 frames st ->
  processed_once encodeFunc c0 frames (Pipeline.doStream_step encodeFunc j st).
Proof.
  intros (Hcfg & D & Hf & Hr). unfold Pipeline.doStream_step.
  destruct (Pipeline.ioThreads st !! j) as [w|] eqn:Hj;
    [|split; [assumption|exists D; split; assumption]].
  unfold processed_once, Pipeline.written in *.
  assert (Hkeep : forall w',
    Pipeline.container w' = Pipeline.container w ->
    config (Pipeline.streamer st) = config c0 /\
    exists done,
      frames ≡ₚ mUnprocessedBuffers (Pipeline.streamer st)
                 ++ Pipeline.held (Pipeline.processThreads st) ++ done /\
      mReadyBuffers (Pipeline.streamer st)
        ++ concat (map Pipeline.container (<[j := w']> (Pipeline.ioThreads st)))
      ≡ₚ processBuffer encodeFunc c0 <$> done).
  { intros w' Hw'. split; [assumption|]. exists D.
    rewrite (written_same _ j w w' Hj Hw'). split; assumption. }
  assert (Hready : forall next b q,
    mReadyBuffers (Pipeline.streamer st) = b :: q ->
    config (Pipeline.account (Pipeline.setReady (Pipeline.streamer st) q) b)
    = config c0 /\
    exists done,
      frames ≡ₚ mUnprocessedBuffers
                   (Pipeline.account
                      (Pipeline.setReady (Pipeline.streamer st) q) b)
                 ++ Pipeline.held (Pipeline.processThreads st) ++ done /\
      mReadyBuffers
        (Pipeline.account (Pipeline.setReady (Pipeline.streamer st) q) b)
        ++ concat (map Pipeline.container
                     (<[j := Pipeline.write_frame w next b]>
                        (Pipeline.ioThreads st)))
      ≡ₚ processBuffer encodeFunc c0 <$> done).
  { intros next b q Hq.
    destruct (account_counters
                (Pipeline.setReady (Pipeline.streamer st) q) b)
      as (_ & _ & A0).
    destruct (account_fields
                (Pipeline.setReady (Pipeline.streamer st) q) b)
      as (_ & A2 & A3).
    rewrite A0, A2, A3. split; [exact Hcfg|]. exists D.
    cbn [Pipeline.setReady mUnprocessedBuffers mReadyBuffers].
    split; [exact Hf|].
    rewrite (written_add _ j w (Pipeline.write_frame w next b) b Hj eq_refl).
    rewrite <- Hr, Hq. solve_Permutation. }
  destruct (Pipeline.pc w);
    cbn [Pipeline.streamer Pipeline.processThreads Pipeline.ioThreads].
  - apply Hkeep. reflexivity.
  - destruct (mReadyBuffers (Pipeline.streamer st)) as [|b q] eqn:Hq;
      cbn [Pipeline.streamer Pipeline.processThreads Pipeline.ioThreads].
    + rewrite ?Hq. apply Hkeep. reflexivity.
    + apply Hready. reflexivity.
  - destruct (mReadyBuffers (Pipeline.streamer st)) as [|b q] eqn:Hq;
      cbn [Pipeline.streamer Pipeline.processThreads Pipeline.ioThreads].
    + rewrite ?Hq. apply Hkeep. reflexivity.
    + apply Hready. reflexivity.
  - destruct (mUnprocessedBuffers (Pipeline.streamer st)) as [|b q] eqn:Hq;
      cbn [Pipeline.streamer Pipeline.processThreads Pipeline.ioThreads].
    + rewrite ?Hq. apply Hkeep. reflexivity.
    + set (b' := processBuffer encodeFunc (Pipeline.streamer st) b).
      destruct (account_counters
                  (Pipeline.setUnprocessed (Pipeline.streamer st) q) b')
        as (_ & _ & A0).
      destruct (account_fields
                  (Pipeline.setUnprocessed (Pipeline.streamer st) q) b')
        as (_ & A2 & A3).
      rewrite A0, A2, A3. split; [exact Hcfg|]. exists (b :: D).
      cbn [Pipeline.setUnprocessed mUnprocessedBuffers mReadyBuffers].
      split.
      * rewrite Hf. solve_Permutation.
      * rewrite (written_add _ j w
                   (Pipeline.write_frame w Pipeline.WFlushUnprocessed b') b'
                   Hj eq_refl).
        rewrite fmap_cons, <- Hr. unfold b'.
        rewrite (processBuffer_config _ c0 b Hcfg). solve_Permutation.
  - apply Hkeep. reflexivity.
  - split; [assumption|exists D; split; assumption].
Qed.

Lemma run_processed_once c0 tr : forall frames st,
  settings_untouched tr = true ->
  processed_once encodeFunc c0 frames st ->
  processed_once encodeFunc c0 (frames ++ Pipeline.submitted tr)
    (Pipeline.run encodeFunc tr st).
Proof.
  induction tr as [|a tr IH]; intros frames st Hset H.
  - simpl. rewrite app_nil_r. exact H.
  - change (Pipeline.run encodeFunc (a :: tr) st)
      with (Pipeline.run encodeFunc tr (Pipeline.step encodeFunc a st)).
    unfold settings_untouched in Hset. cbn [forallb] in Hset.
    apply andb_true_iff in Hset. destruct Hset as [Ha Hset].
    destruct a as [f| |i|j|bin|w h]; try discriminate.
    + change (Pipeline.submitted (Pipeline.Add f :: tr))
        with ([f] ++ Pipeline.submitted tr).
      rewrite app_assoc. apply IH; [exact Hset|].
      destruct H as (Hcfg & D & Hf & Hr).
      split; [exact Hcfg|]. exists D. split; [|exact Hr].
      cbn. rewrite Hf. solve_Permutation.
    + apply IH; [exact Hset|]. exact H.
    + apply IH; [exact Hset|]. apply doProcess_step_processed_once. exact H.
    + apply IH; [exact Hset|]. apply doStream_step_processed_once. exact H.
Qed.

(** X14.  Every frame is transformed exactly once.  In every state that a
    run reaches from [start], and in which neither [setBin] nor
    [setCropAmount] is called, there are frames [done] such that the
    submitted frames are, up to their order, those waiting in the
    unprocessed queue, those held by a [doProcess] thread and [done], and
    the frames in the ready queue and in the containers are, up to their
    order, [processBuffer] of the frames of [done] under the settings that
    [start] left: nothing is written untransformed, transformed twice, or
    twice.  ([setBin] takes effect on a running streamer, so that a call
    between two frames transforms them differently, see
    [setBin_between_frames].) *)
Theorem frames_processed_once c numFds enableCompression numThreads tr :
  (0 < numFds)%nat ->
  mUnprocessedBuffers c = [] -> mReadyBuffers c = [] ->
  settings_untouched tr = true ->
  let st0 := Pipeline.start c numFds enableCompression numThreads in
  let st := Pipeline.run encodeFunc tr st0 in
  exists done,
    Pipeline.submitted tr
    ≡ₚ mUnprocessedBuffers (Pipeline.streamer st)
        ++ Pipeline.held (Pipeline.processThreads st) ++ done /\
    mReadyBuffers (Pipeline.streamer st) ++ Pipeline.written st
    ≡ₚ processBuffer encodeFunc (Pipeline.streamer st0) <$> done.
Proof.
  intros Hn Hu Hr Hset st0 st.
  assert (H0 : processed_once encodeFunc (Pipeline.streamer st0) [] st0).
  { split; [reflexivity|]. exists [].
    subst st0. destruct numFds as [|k]; [lia|].
    unfold Pipeline.start, Pipeline.written.
    cbn [Pipeline.streamer Pipeline.processThreads Pipeline.ioThreads
         mUnprocessedBuffers mReadyBuffers].
    rewrite Hu, Hr.
    assert (Hc : forall m,
      concat (map Pipeline.container
                (replicate m (@Pipeline.mkIo Metadata Pipeline.WLoop [] false)))
      = []) by (induction m; simpl; auto).
    assert (Hh : forall m,
      Pipeline.held (replicate m (@Pipeline.PLoop Metadata)) = [])
      by (induction m; simpl; auto).
    rewrite Hc, Hh. split; reflexivity. }
  destruct (run_processed_once _ tr [] st0 Hset H0) as (_ & D & Hf & Hd).
  exists D. split; assumption.
Qed.

(** *** Flushing at shutdown *)








(** *** The settings while running *)

Lemma doProcess_step_settings i st :
  config (Pipeline.streamer (Pipeline.doProcess_step encodeFunc i st))
  = config (Pipeline.streamer st) /\
  mRunning (Pipeline.streamer (Pipeline.doProcess_step encodeFunc i st))
  = mRunning (Pipeline.streamer st).
Proof.
  unfold Pipeline.doProcess_step.
  destruct (Pipeline.processThreads st !! i) as [p|]; [|split; reflexivity].
  destruct p as [| |b|]; try (split; reflexivity).
  destruct (mUnprocessedBuffers (Pipeline.streamer st)); split; reflexivity.
Qed.

Lemma doStream_step_settings j st :
  config (Pipeline.streamer (Pipeline.doStream_step encodeFunc j st))
  = config (Pipeline.streamer st) /\
  mRunning (Pipeline.streamer (Pipeline.doStream_step encodeFunc j st))
  = mRunning (Pipeline.streamer st).
Proof.
  unfold Pipeline.doStream_step.
  destruct (Pipeline.ioThreads st !! j) as [w|]; [|split; reflexivity].
  destruct (Pipeline.pc w); try (split; reflexivity).
  - destruct (mReadyBuffers (Pipeline.streamer st)) as [|b q];
      [split; reflexivity|].
    cbn [Pipeline.streamer].
    destruct (account_counters
                (Pipeline.setReady (Pipeline.streamer st) q) b)
      as (_ & _ & ->).
    rewrite account_running. split; reflexivity.
  - destruct (mReadyBuffers (Pipeline.streamer st)) as [|b q];
      [split; reflexivity|].
    cbn [Pipeline.streamer].
    destruct (account_counters
                (Pipeline.setReady (Pipeline.streamer st) q) b)
      as (_ & _ & ->).
    rewrite account_running. split; reflexivity.
  - destruct (mUnprocessedBuffers (Pipeline.streamer st)) as [|b q];
      [split; reflexivity|].
    cbn [Pipeline.streamer].
    set (b' := processBuffer encodeFunc (Pipeline.streamer st) b).
    destruct (account_counters
                (Pipeline.setUnprocessed (Pipeline.streamer st) q) b')
      as (_ & _ & ->).
    rewrite account_running. split; reflexivity.
Qed.

Lemma run_crop_settings tr : forall st,
  no_stop tr = true ->
  mRunning (Pipeline.streamer st) = true ->
  crop_settings (Pipeline.streamer (Pipeline.run encodeFunc tr st))
  = crop_settings (Pipeline.streamer st) /\
  mRunning (Pipeline.streamer (Pipeline.run encodeFunc tr st)) = true.
Proof.
  induction tr as [|a tr IH]; intros st Hns Hrun; [split; auto|].
  change (Pipeline.run encodeFunc (a :: tr) st)
    with (Pipeline.run encodeFunc tr (Pipeline.step encodeFunc a st)).
  unfold no_stop in Hns. cbn [forallb] in Hns.
  apply andb_true_iff in Hns. destruct Hns as [Ha Hns].
  assert (Hstep :
    crop_settings (Pipeline.streamer (Pipeline.step encodeFunc a st))
    = crop_settings (Pipeline.streamer st) /\
    mRunning (Pipeline.streamer (Pipeline.step encodeFunc a st)) = true).
  { destruct a as [f| |i|j|bin|w h]; try discriminate.
    - split; [reflexivity|exact Hrun].
    - destruct (doProcess_step_settings i st) as [E1 E2].
      cbn [Pipeline.step]. rewrite E2. split; [|exact Hrun].
      unfold config in E1. unfold crop_settings. congruence.
    - destruct (doStream_step_settings j st) as [E1 E2].
      cbn [Pipeline.step]. rewrite E2. split; [|exact Hrun].
      unfold config in E1. unfold crop_settings. congruence.
    - split; [reflexivity|exact Hrun].
    - cbn [Pipeline.step Pipeline.streamer].
      rewrite setCropAmount_running by exact Hrun.
      split; [reflexivity|exact Hrun]. }
  destruct Hstep as [E1 E2].
  destruct (IH (Pipeline.step encodeFunc a st) Hns E2) as [E3 E4].
  split; [rewrite E3; exact E1|exact E4].
Qed.

(** X18.  The crop settings are fixed while the streamer runs.  In every
    state that a run without [stop()] reaches from [start] (with at least
    one file descriptor) the streamer is running, its crop percentages are
    those it had before [start] and compression is as [start] was told,
    whatever calls of [setCropAmount] and [setBin] the run contains: the
    guard of [setCropAmount] turns every such call into a no-op. *)
Theorem crop_settings_fixed_while_running c numFds enableCompression
    numThreads tr :
  (0 < numFds)%nat ->
  no_stop tr = true ->
  let st :=
    Pipeline.run encodeFunc tr
      (Pipeline.start c numFds enableCompression numThreads) in
  mRunning (Pipeline.streamer st) = true /\
  mCropWidth (Pipeline.streamer st) = mCropWidth c /\
  mCropHeight (Pipeline.streamer st) = mCropHeight c /\
  mEnableCompression (Pipeline.streamer st) = enableCompression.
Proof.
  intros Hn Hns st. subst st.
  destruct numFds as [|k]; [lia|].
  destruct (run_crop_settings tr
              (Pipeline.start c (S k) enableCompression numThreads) Hns
              eq_refl) as [E1 E2].
  unfold crop_settings in E1.
  injection E1 as Ea Eb Ec.
  split; [exact E2|]. split; [exact Eb|]. split; [exact Ec|exact Ea].
Qed.

End PipelineRuns.

Lemma counters_account_witness :
  let frame := sample_buffer PixelFormat.RAW10 8 4 10 in
  let tr :=
    [Pipeline.Add frame; Pipeline.Add frame; Pipeline.Process 0;
     Pipeline.Process 0; Pipeline.Process 0; Pipeline.Stream 0;
     Pipeline.Stream 0] in
  let st :=
    Pipeline.run two_byte_codec tr
      (Pipeline.start Pipeline.new_streamer 1 false 1) in
  mAcceptedFrames (Pipeline.streamer st) = 2 /\
  mWrittenBytes (Pipeline.streamer st) = 40 /\
  sumZ (valid_bytes <$> Pipeline.written st) = 40.
Proof.
  intros frame tr st.
  destruct (counters_account two_byte_codec Pipeline.new_streamer 1 false 1 tr
              ltac:(lia)) as [Ha Hb].
  fold st in Ha, Hb.
  split; [exact Ha|]. split; [rewrite Hb|]; vm_compute; reflexivity.
Defined.

Lemma frames_processed_once_witness :
  let frame := sample_buffer PixelFormat.RAW10 8 4 10 in
  let tr := stranding_schedule frame in
  let st0 := Pipeline.start Pipeline.new_streamer 1 false 1 in
  let st := Pipeline.run two_byte_codec tr st0 in
  exists done,
    Pipeline.submitted tr
    ≡ₚ mUnprocessedBuffers (Pipeline.streamer st)
        ++ Pipeline.held (Pipeline.processThreads st) ++ done /\
    mReadyBuffers (Pipeline.streamer st) ++ Pipeline.written st
    ≡ₚ processBuffer two_byte_codec (Pipeline.streamer st0) <$> done.
Proof.
  intros frame tr st0 st.
  apply (frames_processed_once two_byte_codec Pipeline.new_streamer 1 false 1
           tr); [lia|reflexivity|reflexivity|reflexivity].
Defined.

(** [setBin] on the running streamer between two frames: the first frame is
    written cropped, the second binned, so that the frames of one recording
    are not transformed with one setting. *)
Example setBin_between_frames :
  let f1 := sample_buffer PixelFormat.RAW12 16 8 24 in
  let f2 := sample_buffer PixelFormat.RAW12 16 8 24 in
  let st0 := Pipeline.start (sample_streamer 0 0 false false) 1 false 1 in
  let st :=
    Pipeline.run two_byte_codec
      [Pipeline.Add f1; Pipeline.Process 0; Pipeline.Process 0;
       Pipeline.Process 0; Pipeline.SetBin true;
       Pipeline.Add f2; Pipeline.Process 0; Pipeline.Process 0;
       Pipeline.Process 0; Pipeline.Stream 0; Pipeline.Stream 0;
       Pipeline.Stream 0; Pipeline.Stream 0] st0 in
  (isBinned <$> Pipeline.written st) = [false; true] /\
  (width <$> Pipeline.written st) = [16; 8] /\
  Pipeline.written st
  <> processBuffer two_byte_codec (Pipeline.streamer st0) <$> [f1; f2].
Proof. vm_compute. repeat split; discriminate. Qed.


Lemma crop_settings_fixed_while_running_witness :
  let frame := sample_buffer PixelFormat.RAW10 8 4 10 in
  let c := sample_streamer 10 20 true false in
  let st :=
    Pipeline.run two_byte_codec
      [Pipeline.Add frame; Pipeline.SetCropAmount 50 50; Pipeline.Process 0;
       Pipeline.SetBin false; Pipeline.Stream 0]
      (Pipeline.start c 1 true 1) in
  mRunning (Pipeline.streamer st) = true /\
  mCropWidth (Pipeline.streamer st) = 10 /\
  mCropHeight (Pipeline.streamer st) = 20 /\
  mEnableCompression (Pipeline.streamer st) = true.
Proof.
  intros frame c st.
  apply (crop_settings_fixed_while_running two_byte_codec c 1 true 1
           [Pipeline.Add frame; Pipeline.SetCropAmount 50 50;
            Pipeline.Process 0; Pipeline.SetBin false; Pipeline.Stream 0]);
    [lia|reflexivity].
Defined.

(** ** The state after shutdown *)

Section Shutdown.
Context {Metadata : Type}.
Variable encodeFunc : list Z -> list Z.
Implicit Types (c : @RawBufferStreamer Metadata) (b : @RawImageBuffer Metadata).
Implicit Types (st : @Pipeline.state Metadata).

Lemma doProcess_step_shutdown i st :
  shutdown_inv st -> shutdown_inv (Pipeline.doProcess_step encodeFunc i st).
Proof.
  intros (Hne & Hinv). unfold Pipeline.doProcess_step.
  destruct (Pipeline.processThreads st !! i) as [p|]; [|split; assumption].
  destruct p as [| |b|]; try (split; assumption).
  destruct (mUnprocessedBuffers (Pipeline.streamer st)) as [|b q] eqn:Hq;
    (split; [exact Hne|]); intros k w Hk; specialize (Hinv k w Hk);
    cbn [Pipeline.streamer Pipeline.setUnprocessed mRunning
         mUnprocessedBuffers] in *.
  - rewrite Hq. exact Hinv.
  - destruct (mRunning (Pipeline.streamer st)); [exact Hinv|].
      intros Hp. specialize (Hinv Hp). discriminate.
Qed.

Lemma doStream_step_shutdown j st :
  shutdown_inv st -> shutdown_inv (Pipeline.doStream_step encodeFunc j st).
Proof.
  intros (Hne & Hinv). unfold Pipeline.doStream_step.
  destruct (Pipeline.ioThreads st !! j) as [w|] eqn:Hj; [|split; assumption].
  pose proof (Hinv j w Hj) as Hw.
  assert (Hne' : forall w', <[j := w']> (Pipeline.ioThreads st) <> []).
  { intros w' E. apply (f_equal length) in E.
    rewrite length_insert in E. destruct (Pipeline.ioThreads st);
      [congruence|discriminate]. }
  (* a step that leaves the streamer as it is and moves the writer *)
  assert (Hmove : forall w',
    (if mRunning (Pipeline.streamer st) then waiting_writer w' = true
     else past_flush w' = true ->
          mUnprocessedBuffers (Pipeline.streamer st) = []) ->
    shutdown_inv
      (Pipeline.mkState (Pipeline.streamer st) (Pipeline.processThreads st)
         (<[j := w']> (Pipeline.ioThreads st)) (Pipeline.transformed st))).
  { intros w' Hw'. split; [apply Hne'|].
    intros k w0 Hk. cbn [Pipeline.streamer Pipeline.ioThreads] in *.
    apply list_lookup_insert_Some in Hk.
    destruct Hk as [(_ & <- & _) | (_ & Hk)]; [exact Hw'|].
    exact (Hinv k w0 Hk). }
  (* a step that writes a frame: the streamer keeps [mRunning], and the
     unprocessed queue stays or loses its head *)
  assert (Hwrite : forall c' w',
    mRunning c' = mRunning (Pipeline.streamer st) ->
    (mUnprocessedBuffers (Pipeline.streamer st) = [] ->
     mUnprocessedBuffers c' = []) ->
    (if mRunning (Pipeline.streamer st) then waiting_writer w' = true
     else past_flush w' = true -> mUnprocessedBuffers c' = []) ->
    forall t,
    shutdown_inv
      (Pipeline.mkState c' (Pipeline.processThreads st)
         (<[j := w']> (Pipeline.ioThreads st)) t)).
  { intros c' w' Hr Hu Hw' t. split; [apply Hne'|].
    intros k w0 Hk. cbn [Pipeline.streamer Pipeline.ioThreads] in *.
    rewrite Hr.
    apply list_lookup_insert_Some in Hk.
    destruct Hk as [(_ & <- & _) | (_ & Hk)]; [exact Hw'|].
    specialize (Hinv k w0 Hk).
    destruct (mRunning (Pipeline.streamer st)); [exact Hinv|].
    intros Hp. apply Hu, Hinv, Hp. }
  unfold waiting_writer, past_flush in Hw.
  destruct (Pipeline.pc w) eqn:Hpc.
  - (* WLoop *)
    apply Hmove. unfold waiting_writer, past_flush. cbn [Pipeline.pc].
    destruct (mRunning (Pipeline.streamer st)); [reflexivity|discriminate].
  - (* WWait *)
    destruct (mReadyBuffers (Pipeline.streamer st)) as [|b q].
    + apply Hmove. unfold waiting_writer, past_flush. cbn [Pipeline.pc].
      destruct (mRunning (Pipeline.streamer st)); [reflexivity|discriminate].
    + destruct (account_fields
                  (Pipeline.setReady (Pipeline.streamer st) q) b)
        as (_ & A2 & _).
      apply Hwrite.
      * rewrite account_running. reflexivity.
      * rewrite A2. auto.
      * unfold waiting_writer, past_flush, Pipeline.write_frame.
        cbn [Pipeline.pc].
        destruct (mRunning (Pipeline.streamer st));
          [reflexivity|discriminate].
  - (* WFlushReady *)
    destruct (mRunning (Pipeline.streamer st)) eqn:Hrun; [discriminate|].
    destruct (mReadyBuffers (Pipeline.streamer st)) as [|b q].
    + apply Hmove. unfold past_flush. cbn [Pipeline.pc].
      discriminate.
    + destruct (account_fields
                  (Pipeline.setReady (Pipeline.streamer st) q) b)
        as (_ & A2 & _).
      apply Hwrite.
      * rewrite account_running. cbn [Pipeline.setReady mRunning].
        exact Hrun.
      * rewrite A2. auto.
      * unfold past_flush, Pipeline.write_frame.
        cbn [Pipeline.pc]. discriminate.
  - (* WFlushUnprocessed *)
    destruct (mRunning (Pipeline.streamer st)) eqn:Hrun; [discriminate|].
    destruct (mUnprocessedBuffers (Pipeline.streamer st)) as [|b q] eqn:Hq.
    + apply Hmove. intros _. reflexivity.
    + set (b' := processBuffer encodeFunc (Pipeline.streamer st) b).
      destruct (account_fields
                  (Pipeline.setUnprocessed (Pipeline.streamer st) q) b')
        as (_ & A2 & _).
      apply Hwrite.
      * rewrite account_running. cbn [Pipeline.setUnprocessed mRunning].
        exact Hrun.
      * discriminate.
      * unfold past_flush, Pipeline.write_frame.
        cbn [Pipeline.pc]. discriminate.
  - (* WCommit *)
    destruct (mRunning (Pipeline.streamer st)) eqn:Hrun; [discriminate|].
    apply Hmove. intros _. apply Hw. reflexivity.
  - (* WDone *)
    split; assumption.
Qed.

Lemma run_shutdown tr : forall st,
  shutdown_inv st ->
  (if mRunning (Pipeline.streamer st) then Pipeline.adds_before_stop tr
   else no_add tr) = true ->
  shutdown_inv (Pipeline.run encodeFunc tr st).
Proof.
  induction tr as [|a tr IH]; intros st Hinv Htr; [exact Hinv|].
  change (Pipeline.run encodeFunc (a :: tr) st)
    with (Pipeline.run encodeFunc tr (Pipeline.step encodeFunc a st)).
  destruct a as [f| |i|j|bin|w0 h0].
  - (* Add *)
    destruct (mRunning (Pipeline.streamer st)) eqn:Hrun; [|discriminate].
    apply IH.
    + destruct Hinv as (Hne & Hinv). split; [exact Hne|].
      intros k w Hk. specialize (Hinv k w Hk).
      cbn [Pipeline.step Pipeline.streamer Pipeline.ioThreads add mRunning]
        in *.
      rewrite Hrun in *. exact Hinv.
    + cbn [Pipeline.step Pipeline.streamer add mRunning]. rewrite Hrun.
      exact Htr.
  - (* Stop *)
    apply IH.
    + destruct Hinv as (Hne & Hinv). split; [exact Hne|].
      intros k w Hk. specialize (Hinv k w Hk).
      cbn [Pipeline.step Pipeline.streamer Pipeline.ioThreads
           Pipeline.setRunning mRunning mUnprocessedBuffers] in *.
      destruct (mRunning (Pipeline.streamer st)); [|exact Hinv].
      unfold waiting_writer in Hinv. unfold past_flush.
      destruct (Pipeline.pc w); discriminate.
    + cbn [Pipeline.step Pipeline.streamer Pipeline.setRunning mRunning].
      destruct (mRunning (Pipeline.streamer st)); exact Htr.
  - (* Process *)
    apply IH; [apply doProcess_step_shutdown; exact Hinv|].
    cbn [Pipeline.step].
    destruct (doProcess_step_settings encodeFunc i st) as [_ ->].
    destruct (mRunning (Pipeline.streamer st)); exact Htr.
  - (* Stream *)
    apply IH; [apply doStream_step_shutdown; exact Hinv|].
    cbn [Pipeline.step].
    destruct (doStream_step_settings encodeFunc j st) as [_ ->].
    destruct (mRunning (Pipeline.streamer st)); exact Htr.
  - (* SetBin *)
    apply IH; [exact Hinv|].
    cbn [Pipeline.step Pipeline.streamer setBin mRunning].
    destruct (mRunning (Pipeline.streamer st)); exact Htr.
  - (* SetCropAmount *)
    apply IH.
    + cbn [Pipeline.step]. unfold setCropAmount.
      destruct (negb (mRunning (Pipeline.streamer st))); exact Hinv.
    + cbn [Pipeline.step Pipeline.streamer]. rewrite setCropAmount_mRunning.
      destruct (mRunning (Pipeline.streamer st)); exact Htr.
Qed.

Lemma held_done (ps : list (@Pipeline.process_pc Metadata)) :
  forallb Pipeline.process_done ps = true -> Pipeline.held ps = [].
Proof.
  induction ps as [|p ps IH]; [reflexivity|].
  cbn [forallb]. intros H. apply andb_true_iff in H. destruct H as [Hp Hps].
  destruct p; try discriminate. simpl. apply IH. exact Hps.
Qed.

(** X19.  What is true when [stop()] has joined the threads.  If every
    frame was submitted before [stop()], then in a state in which all
    threads have returned the unprocessed queue is empty and no thread holds
    a frame: every submitted frame has been transformed, and the frames that
    were not written are exactly those left in the ready queue
    ([mWrittenFrames] plus the length of the ready queue is the number of
    frames submitted). *)
Theorem all_frames_transformed_at_join c numFds enableCompression numThreads
    tr :
  (0 < numFds)%nat ->
  mUnprocessedBuffers c = [] -> mReadyBuffers c = [] ->
  Pipeline.adds_before_stop tr = true ->
  let st :=
    Pipeline.run encodeFunc tr
      (Pipeline.start c numFds enableCompression numThreads) in
  Pipeline.joined st = true ->
  mRunning (Pipeline.streamer st) = false /\
  in_flight st = mReadyBuffers (Pipeline.streamer st) /\
  Pipeline.transformed st = Z.of_nat (length (Pipeline.submitted tr)) /\
  mWrittenFrames (Pipeline.streamer st)
  + Z.of_nat (length (mReadyBuffers (Pipeline.streamer st)))
  = Z.of_nat (length (Pipeline.submitted tr)).
Proof.
  intros Hn Hu Hr Htr st Hjoin.
  assert (Hcons : conserved (Pipeline.submitted tr) st).
  { change (Pipeline.submitted tr) with ([] ++ Pipeline.submitted tr).
    apply run_conserved. apply start_conserved; assumption. }
  assert (Hinv : shutdown_inv st).
  { apply run_shutdown.
    - destruct numFds as [|k]; [lia|]. split; [discriminate|].
      intros j w Hj. cbn [Pipeline.start Pipeline.streamer mRunning].
      cbn [Pipeline.start Pipeline.ioThreads] in Hj.
      apply lookup_replicate in Hj. destruct Hj as [-> _]. reflexivity.
    - destruct numFds as [|k]; [lia|]. exact Htr. }
  unfold Pipeline.joined in Hjoin. apply andb_true_iff in Hjoin.
  destruct Hjoin as [Hp Hs].
  destruct Hinv as (Hne & Hinv).
  destruct (Pipeline.ioThreads st) as [|w0 ws] eqn:Hio; [congruence|].
  cbn [forallb] in Hs. apply andb_true_iff in Hs. destruct Hs as [Hw0 _].
  unfold Pipeline.stream_done in Hw0.
  specialize (Hinv 0%nat w0 eq_refl).
  unfold waiting_writer, past_flush in Hinv.
  destruct (Pipeline.pc w0); try discriminate.
  destruct (mRunning (Pipeline.streamer st)) eqn:Hrun; [discriminate|].
  specialize (Hinv eq_refl).
  pose proof (held_done _ Hp) as Hheld.
  assert (Hfl : in_flight st = mReadyBuffers (Pipeline.streamer st)).
  { unfold in_flight. rewrite Hinv, Hheld. reflexivity. }
  destruct Hcons as (Hw & Ht & Hperm).
  rewrite Hfl in Hperm.
  apply Permutation_length in Hperm.
  rewrite !length_fmap, length_app in Hperm.
  split; [reflexivity|]. split; [exact Hfl|]. split; lia.
Qed.

End Shutdown.

Lemma all_frames_transformed_at_join_witness :
  let f1 := sample_buffer PixelFormat.RAW10 8 4 10 in
  let f2 := sample_buffer PixelFormat.RAW12 8 4 12 in
  let tr :=
    [Pipeline.Add f1; Pipeline.Process 0; Pipeline.Process 0;
     Pipeline.Add f2; Pipeline.Stop; Pipeline.Stream 0; Pipeline.Stream 0;
     Pipeline.Stream 0; Pipeline.Stream 0; Pipeline.Stream 0;
     Pipeline.Process 0; Pipeline.Process 0] in
  let st :=
    Pipeline.run two_byte_codec tr
      (Pipeline.start Pipeline.new_streamer 1 false 1) in
  Pipeline.joined st = true /\
  length (Pipeline.submitted tr) = 2%nat /\
  Pipeline.transformed st = 2 /\
  mWrittenFrames (Pipeline.streamer st) = 1 /\
  mReadyBuffers (Pipeline.streamer st) = [f1].
Proof.
  intros f1 f2 tr st.
  destruct (all_frames_transformed_at_join two_byte_codec
              Pipeline.new_streamer 1 false 1 tr
              ltac:(lia) eq_refl eq_refl eq_refl eq_refl)
    as (_ & _ & Ht & _).
  split; [reflexivity|]. split; [reflexivity|].
  split; [exact Ht|]. split; reflexivity.
Defined.

(** ** Binning a RAW10 frame *)

Lemma binned_reference_RAW10_bound d width height rowStride ix iy :
  is_bytes d ->
  0 <= binned_reference RAW10 d width height rowStride ix iy < 1024.
Proof.
  intros Hb. unfold binned_reference, weighted_sum, kernel_weights, sumZ.
  simpl.
  set (xm := Z.max 0 (ix - 2)). set (xp := (ix + 2) mod width).
  set (ym := Z.max 0 (iy - 2)). set (yp := (iy + 2) mod height).
  pose proof (RAW10_bound d xm ym rowStride Hb).
  pose proof (RAW10_bound d ix ym rowStride Hb).
  pose proof (RAW10_bound d xp ym rowStride Hb).
  pose proof (RAW10_bound d xm iy rowStride Hb).
  pose proof (RAW10_bound d ix iy rowStride Hb).
  pose proof (RAW10_bound d xp iy rowStride Hb).
  pose proof (RAW10_bound d xm yp rowStride Hb).
  pose proof (RAW10_bound d ix yp rowStride Hb).
  pose proof (RAW10_bound d xp yp rowStride Hb).
  Z.to_euclidean_division_equations; lia.
Qed.

Section BinnedFrame10.
Variable encodeFunc : list Z -> list Z.

Lemma cropAndBin10_body_inv d0 width height rowStride hc vc m k s :
  is_bytes d0 ->
  0 < width -> 0 < height -> 0 <= hc -> 0 <= vc -> 0 <= m -> 4 * m <= 65536 ->
  0 <= k ->
  10 * m <= rowStride ->
  vc + 4 * k + 3 < height ->
  10 * m * (k + 1) <= Z.of_nat (length d0) ->
  binned10_inv d0 width height rowStride hc vc m k s ->
  binned10_inv d0 width height rowStride hc vc m (k + 1)
    (cropAndBin_body encodeFunc RAW10 u16 pack_RAW10 false
       width height rowStride hc (hc + 4 * (2 * m)) (2 * (2 * m))
       (vc + 4 * k) s).
Proof.
  intros Hbytes Hw Hh Hhc Hvc Hm Hm16 Hk Hrs Hrow Hlen
         (Hl0 & Hl1 & Hoff & Hl & Hrest & Hdone).
  destruct s as [[row0 row1] [d off]]. cbn [fst snd] in *. subst off.
  unfold cropAndBin_body. cbn [fst snd].
  set (y := vc + 4 * k).
  assert (Hread : forall x y, 0 <= RAW10 d0 x y rowStride < 16384).
  { intros x0 y0. pose proof (RAW10_bound d0 x0 y0 rowStride Hbytes). lia. }
  (* the block loop reads rows that are still the original *)
  assert (Hloc :
    bin_rows RAW10 u16 d width height rowStride hc (hc + 4 * (2 * m))
      (2 * (2 * m)) y (row0, row1)
    = bin_rows RAW10 u16 d0 width height rowStride hc (hc + 4 * (2 * m))
        (2 * (2 * m)) y (row0, row1)).
  { apply (bin_rows_local PixelFormat.RAW10 u16 d d0 width height rowStride
             hc (hc + 4 * (2 * m)) (2 * (2 * m)) y (row0, row1)
             (if k =? 0 then 0 else y - 2)); try lia.
    - destruct (Z.eqb_spec k 0); lia.
    - destruct (Z.eqb_spec k 0); lia.
    - intros a Ha. apply Hrest.
      destruct (Z.eqb_spec k 0) as [-> | Hk0]; [lia|].
      unfold y in Ha. nia. }
  rewrite Hloc.
  destruct (bin_rows_samples RAW10 u16 d0 width height rowStride hc
              (2 * m) y row0 row1) as (_ & _ & Hr0 & Hr1 & Hrows).
  { intros i Hi. rewrite u16_mod. apply Z.mod_small. lia. }
  { lia. }
  { lia. }
  { lia. }
  set (rows := bin_rows RAW10 u16 d0 width height rowStride hc
                 (hc + 4 * (2 * m)) (2 * (2 * m)) y (row0, row1)) in *.
  (* packing the two rows *)
  assert (Hn0 : Z.of_nat (length (fst rows)) / 2 = 2 * m)
    by (rewrite Hr0; Z.to_euclidean_division_equations; lia).
  assert (Hn1 : Z.of_nat (length (snd rows)) / 2 = 2 * m)
    by (rewrite Hr1; Z.to_euclidean_division_equations; lia).
  assert (Hgm : (2 * m + 1) / 2 = m)
    by (Z.to_euclidean_division_equations; lia).
  destruct (pack_RAW10_inv (fst rows) d (10 * m * k)) as
    (j1 & Hj1 & Ej1 & _ & _ & Ho1 & Hlen1 & Hframe1 & Hgrp1);
    [nia | rewrite Hn0, Hgm; nia |].
  rewrite Hn0 in Hj1, Ej1, Hgrp1. rewrite Ej1, Hgm in Ho1, Hframe1.
  destruct (pack_RAW10 (fst rows) (d, 10 * m * k)) as [d1 off1] eqn:E1.
  cbn [fst snd] in *. subst off1.
  destruct (pack_RAW10_inv (snd rows) d1 (10 * m * k + 5 * m)) as
    (j2 & Hj2 & Ej2 & _ & _ & Ho2 & Hlen2 & Hframe2 & Hgrp2);
    [nia | rewrite Hn1, Hgm, Hlen1; nia |].
  rewrite Hn1 in Hj2, Ej2, Hgrp2. rewrite Ej2, Hgm in Ho2, Hframe2.
  destruct (pack_RAW10 (snd rows) (d1, 10 * m * k + 5 * m))
    as [d2 off2] eqn:E2.
  cbn [fst snd] in *. subst off2.
  unfold binned10_inv. cbn [fst snd].
  split; [lia|]. split; [lia|]. split; [lia|].
  split; [congruence|]. split.
  - intros a Ha. rewrite Hframe2 by lia. rewrite Hframe1 by lia.
    apply Hrest. nia.
  - intros r Hr.
    assert (Hsample :
      binned_row_matches RAW10 d0 width height rowStride hc vc (2 * m)
        (2 * k) (fst rows) /\
      binned_row_matches RAW10 d0 width height rowStride hc vc (2 * m)
        (2 * k + 1) (snd rows)).
    { split; intros X HX;
        destruct (Hrows X ltac:(lia) ltac:(lia)) as (S1 & S2 & S3 & S4);
        cbv zeta in S1, S2, S3, S4.
      - rewrite S1, S2. unfold binned_pixel.
        rewrite !bin_sample_reference by (auto; unfold y; lia).
        split; f_equal; unfold y; Z.to_euclidean_division_equations; lia.
      - rewrite S3, S4. unfold binned_pixel.
        rewrite !bin_sample_reference by (auto; unfold y; lia).
        split; f_equal; unfold y; Z.to_euclidean_division_equations; lia. }
    destruct Hsample as [Hs0 Hs1].
    destruct (Z.lt_ge_cases r (2 * k)) as [Hold | Hnew].
    + destruct (Hdone r ltac:(lia)) as (row & Hmatch & Hbytes').
      exists row. split; [exact Hmatch|].
      intros g t Hg Ht.
      rewrite Hframe2 by nia. rewrite Hframe1 by nia.
      apply Hbytes'; lia.
    + destruct (Z.eq_dec r (2 * k)) as [-> | Hr1'].
      * exists (fst rows). split; [exact Hs0|].
        intros g t Hg Ht.
        rewrite Hframe2 by nia.
        replace (5 * m * (2 * k) + 5 * g + t)
          with (10 * m * k + 5 * g + t) by lia.
        apply Hgrp1; lia.
      * assert (r = 2 * k + 1) as -> by lia.
        exists (snd rows). split; [exact Hs1|].
        intros g t Hg Ht.
        replace (5 * m * (2 * k + 1) + 5 * g + t)
          with (10 * m * k + 5 * m + 5 * g + t) by lia.
        apply Hgrp2; lia.
Qed.

Lemma cropAndBin10_rows_inv d0 width height rowStride hc vc m K :
  is_bytes d0 ->
  0 < width -> 0 < height -> 0 <= hc -> 0 <= vc -> 0 <= m -> 4 * m <= 65536 ->
  0 <= K ->
  10 * m <= rowStride ->
  vc + 4 * K <= height ->
  10 * m * K <= Z.of_nat (length d0) ->
  binned10_inv d0 width height rowStride hc vc m K
    (for_range vc (vc + 4 * K) 4
       (cropAndBin_body encodeFunc RAW10 u16 pack_RAW10 false
          width height rowStride hc (hc + 4 * (2 * m)) (2 * (2 * m)))
       ((new_row (2 * (2 * m)), new_row (2 * (2 * m))), (d0, 0))).
Proof.
  intros Hbytes Hw Hh Hhc Hvc Hm Hm16 HK Hrs Hrows Hlen.
  destruct (for_range_inv
    (fun j s => exists k, j = vc + 4 * k /\ 0 <= k <= K /\
       binned10_inv d0 width height rowStride hc vc m k s)
    vc (vc + 4 * K) 4
    (cropAndBin_body encodeFunc RAW10 u16 pack_RAW10 false
       width height rowStride hc (hc + 4 * (2 * m)) (2 * (2 * m)))
    ((new_row (2 * (2 * m)), new_row (2 * (2 * m))), (d0, 0)))
    as (j & Hj1 & Hj2 & k & Hjk & Hk & HP).
  - lia.
  - exists 0. split; [lia|]. split; [lia|].
    unfold binned10_inv. cbn [fst snd]. rewrite length_new_row by lia.
    repeat split; intros; first [lia | reflexivity].
  - intros j s Hj (k & -> & Hk & HP). exists (k + 1).
    split; [lia|]. split; [lia|].
    apply cropAndBin10_body_inv; auto; try lia; nia.
  - assert (k = K) as -> by lia. exact HP.
Qed.

End BinnedFrame10.

Section BinnedFrame10End.
Context {Metadata : Type}.
Variable encodeFunc : list Z -> list Z.
Implicit Types (c : @RawBufferStreamer Metadata) (b : @RawImageBuffer Metadata).

(** X20.  Binning a RAW10 frame without compression, end to end.  For a
    RAW10 frame at rest whose width is a multiple of 8 (at most 131072) and
    whose height is a multiple of 4, every pixel of the frame that [cropAndBin] returns,
    read as RAW10, has the upper 8 bits of the weighted 3x3 like-colour
    sum, divided by 16, around the corresponding pixel of the original
    frame (the two have the same quotient by 4), and the pixels in columns
    that are multiples of 4 are that value exactly: the packed output never
    overtakes the rows that are still to be read, and only the two low bits
    of the other columns are touched by the slip in the packing loop. *)
Theorem cropAndBin_RAW10_pixels c b :
  mEnableCompression c = false ->
  pixelFormat b = PixelFormat.RAW10 ->
  is_bytes (bytes (data b)) ->
  0 <= mCropWidth c <= 100 -> 0 <= mCropHeight c <= 100 ->
  0 < width b <= 131072 -> width b mod 8 = 0 ->
  0 < height b <= INT_MAX -> height b mod 4 = 0 ->
  10 * width b <= 8 * rowStride b ->
  rowStride b * height b <= Z.of_nat (length (bytes (data b))) ->
  let b' := cropAndBin encodeFunc c b in
  forall x' y', 0 <= x' < width b' -> 0 <= y' < height b' ->
    let p :=
      binned_pixel RAW10 (bytes (data b)) (width b) (height b) (rowStride b)
        (horizontalCrop c b) (verticalCrop c b) x' y' in
    RAW10 (bytes (data b')) x' y' (rowStride b') / 4 = p / 4 /\
    (x' mod 4 = 0 -> RAW10 (bytes (data b')) x' y' (rowStride b') = p).
Proof.
  intros Hcomp Hfmt Hbytes Hcw Hch Hw Hw8 Hh Hh4 Hrs Hlen b' x' y'.
  assert (Hwe : Z.even (width b) = true).
  { apply Z.even_spec. exists (4 * (width b / 8)).
    Z.to_euclidean_division_equations; lia. }
  assert (Hhe : Z.even (height b) = true).
  { apply Z.even_spec. exists (2 * (height b / 4)).
    Z.to_euclidean_division_equations; lia. }
  destruct (horizontalCrop_range c b Hcw ltac:(unfold INT_MAX in *; lia) Hwe)
    as [Hc0 Hc1].
  destruct (verticalCrop_range c b Hch ltac:(unfold INT_MAX in *; lia) Hhe)
    as [Hv0 Hv1].
  pose proof (horizontalCrop_aligned c b) as Hc4.
  pose proof (verticalCrop_aligned c b) as Hv2.
  rewrite Z.rem_mod_nonneg in Hc4, Hv2 by lia.
  set (hc := horizontalCrop c b) in *. set (vc := verticalCrop c b) in *.
  set (m := (width b - 2 * hc) / 8).
  set (K := (height b - 2 * vc) / 4).
  assert (Hcwd : croppedWidth c b = 8 * m).
  { unfold croppedWidth. fold hc. unfold m.
    Z.to_euclidean_division_equations; lia. }
  assert (Hchd : croppedHeight c b = 4 * K).
  { unfold croppedHeight. fold vc. unfold K.
    Z.to_euclidean_division_equations; lia. }
  assert (Hm : 0 <= m) by (unfold croppedWidth in Hcwd; fold hc in Hcwd; lia).
  assert (HK : 0 <= K) by (unfold croppedHeight in Hchd; fold vc in Hchd; lia).
  assert (Hbw : Z.quot (croppedWidth c b) 2 = 2 * (2 * m)).
  { rewrite Hcwd, Z.quot_div_nonneg by lia.
    Z.to_euclidean_division_equations; lia. }
  assert (Hbh : Z.quot (croppedHeight c b) 2 = 2 * K).
  { rewrite Hchd, Z.quot_div_nonneg by lia.
    Z.to_euclidean_division_equations; lia. }
  assert (Hxend : width b - hc = hc + 4 * (2 * m))
    by (unfold croppedWidth in Hcwd; fold hc in Hcwd; lia).
  assert (Hyend : height b - vc = vc + 4 * K)
    by (unfold croppedHeight in Hchd; fold vc in Hchd; lia).
  destruct (cropAndBin10_rows_inv encodeFunc (bytes (data b))
              (width b) (height b) (rowStride b) hc vc m K)
    as (_ & _ & _ & _ & _ & Hdone); try lia; try assumption.
  { unfold croppedWidth in Hcwd; fold hc in Hcwd.
    unfold croppedHeight in Hchd; fold vc in Hchd. nia. }
  assert (Hres : b' =
    cropAndBin_finish c b
      (snd (for_range vc (vc + 4 * K) 4
              (cropAndBin_body encodeFunc RAW10 u16 pack_RAW10 false
                 (width b) (height b) (rowStride b) hc (hc + 4 * (2 * m))
                 (2 * (2 * m)))
              ((new_row (2 * (2 * m)), new_row (2 * (2 * m))),
               (bytes (data b), 0))))).
  { unfold b', cropAndBin. fold hc vc. rewrite Hbw, Hxend, Hyend, Hcomp, Hfmt.
    reflexivity. }
  set (out := snd (for_range vc (vc + 4 * K) 4 _ _)) in *.
  rewrite Hres. destruct out as [d' off'] eqn:Eout. cbn [fst snd] in Hdone.
  unfold cropAndBin_finish. rewrite Hcomp, Hbw, Hbh, Hfmt.
  cbn [width height rowStride data bytes setValidRange unlock setBytes lock
       PixelFormat.eqb].
  assert (Estride : Z.quot (10 * (2 * (2 * m))) 8 = 5 * m).
  { rewrite Z.quot_div_nonneg by lia.
    Z.to_euclidean_division_equations; lia. }
  rewrite Estride.
  intros Hx Hy.
  set (p := binned_pixel RAW10 (bytes (data b)) (width b) (height b)
              (rowStride b) hc vc x' y').
  destruct (Hdone y' ltac:(lia)) as (row & Hmatch & Hgrp).
  assert (Hg : 0 <= x' / 4 < m) by (Z.to_euclidean_division_equations; lia).
  assert (HX : 0 <= x' / 2 < 2 * m)
    by (Z.to_euclidean_division_equations; lia).
  assert (Hsample :
    vget row (if Z.even x' then x' / 2 else 2 * m + x' / 2) = p).
  { destruct (Hmatch (x' / 2) HX) as [Se So].
    pose proof (Zmod_even x') as Hev. unfold p.
    destruct (Z.even x').
    - rewrite Se. f_equal. Z.to_euclidean_division_equations; lia.
    - rewrite (Z.add_comm (2 * m)), So. f_equal.
      Z.to_euclidean_division_equations; lia. }
  assert (Hp : 0 <= p < 1024).
  { unfold p, binned_pixel. apply binned_reference_RAW10_bound. exact Hbytes. }
  destruct (RAW10_grp10_decode d' row (2 * m) x' y' (5 * m)) as [D1 D2].
  - lia.
  - intros t Ht.
    replace (y' * (5 * m) + 5 * (x' / 4) + t)
      with (5 * m * y' + 5 * (x' / 4) + t) by lia.
    apply Hgrp; lia.
  - rewrite Hsample. exact Hp.
  - rewrite Hsample in D1. split; [exact D1|].
    intros Hx4. rewrite (D2 Hx4).
    rewrite <- Hsample.
    replace (Z.even x') with true; [reflexivity|].
    symmetry. apply Z.even_spec. exists (2 * (x' / 4)).
    Z.to_euclidean_division_equations; lia.
Qed.

End BinnedFrame10End.

Lemma cropAndBin_RAW10_pixels_witness :
  let c := sample_streamer 0 0 true false in
  let b := sample_buffer PixelFormat.RAW10 16 8 20 in
  let b' := cropAndBin two_byte_codec c b in
  width b' = 8 /\ height b' = 4 /\
  RAW10 (bytes (data b')) 5 3 (rowStride b') / 4
  = binned_pixel RAW10 (bytes (data b)) 16 8 20 0 0 5 3 / 4 /\
  RAW10 (bytes (data b')) 4 2 (rowStride b')
  = binned_pixel RAW10 (bytes (data b)) 16 8 20 0 0 4 2.
Proof.
  intros c b b'.
  assert (Hpix := cropAndBin_RAW10_pixels two_byte_codec c b eq_refl eq_refl
                    (sample_region_bytes _)).
  fold b' in Hpix.
  split; [reflexivity|]. split; [reflexivity|].
  split.
  - apply (Hpix ltac:(in_bounds) ltac:(in_bounds) ltac:(in_bounds)
             eq_refl ltac:(in_bounds) eq_refl ltac:(in_bounds)
             ltac:(in_bounds) 5 3);
      vm_compute; intuition congruence.
  - apply (Hpix ltac:(in_bounds) ltac:(in_bounds) ltac:(in_bounds)
             eq_refl ltac:(in_bounds) eq_refl ltac:(in_bounds)
             ltac:(in_bounds) 4 2);
      vm_compute; intuition congruence.
Defined.

(** ** The order of the frames in a container *)

Section Order.
Context {Metadata : Type}.
Variable encodeFunc : list Z -> list Z.
Implicit Types (c : @RawBufferStreamer Metadata) (b : @RawImageBuffer Metadata).
Implicit Types (st : @Pipeline.state Metadata).

Lemma doProcess_step_in_order frames i st :
  in_order frames st ->
  in_order frames (Pipeline.doProcess_step encodeFunc i st).
Proof.
  intros (Hone & Hinv). unfold Pipeline.doProcess_step.
  destruct (Pipeline.processThreads st !! i) as [p|] eqn:Hi;
    [|split; assumption].
  destruct (Pipeline.processThreads st) as [|p0 [|p1 ps]] eqn:Hps;
    [discriminate| |simpl in Hone; lia].
  destruct i as [|i]; [|discriminate].
  injection Hi as ->.
  unfold in_order, pending_for in *.
  destruct p as [| |b|].
  - (* PLoop *)
    split; [rewrite ?length_insert; unfold INT_MAX; simpl; lia|]. intros j w Hj. specialize (Hinv j w Hj).
    cbn [Pipeline.streamer Pipeline.processThreads Pipeline.ioThreads] in *.
    rewrite Hps in Hinv.
    destruct (mRunning (Pipeline.streamer st)); exact Hinv.
  - (* PWait *)
    destruct (mUnprocessedBuffers (Pipeline.streamer st)) as [|b q] eqn:Hq.
    + split; [rewrite ?length_insert; unfold INT_MAX; simpl; lia|]. intros j w Hj. specialize (Hinv j w Hj).
      cbn [Pipeline.streamer Pipeline.processThreads Pipeline.ioThreads] in *.
      rewrite Hps in Hinv. rewrite Hq. exact Hinv.
    + split; [rewrite ?length_insert; unfold INT_MAX; simpl; lia|]. intros j w Hj. specialize (Hinv j w Hj).
      cbn [Pipeline.streamer Pipeline.processThreads Pipeline.ioThreads
           Pipeline.setUnprocessed mReadyBuffers mUnprocessedBuffers] in *.
      rewrite Hps in Hinv.
      destruct (before_unprocessed w).
      * simpl in *. rewrite app_nil_r in Hinv.
        rewrite <- (app_assoc _ [b] q). exact Hinv.
      * etrans; [|exact Hinv]. apply fmap_sublist.
        apply sublist_app; [reflexivity|]. simpl.
        apply sublist_cons. reflexivity.
  - (* PHold *)
    split; [rewrite ?length_insert; unfold INT_MAX; simpl; lia|]. intros j w Hj. specialize (Hinv j w Hj).
    cbn [Pipeline.streamer Pipeline.processThreads Pipeline.ioThreads
         Pipeline.setReady mReadyBuffers mUnprocessedBuffers] in *.
    rewrite Hps in Hinv.
    destruct (before_unprocessed w); [|exact Hinv].
    simpl in *. rewrite app_nil_r.
    repeat (rewrite fmap_app in * || rewrite fmap_cons in * ).
    rewrite processBuffer_metadata. exact Hinv.
  - (* PDone *)
    split; [rewrite Hps; unfold INT_MAX; simpl; lia|]. intros j w Hj.
    exact (Hinv j w Hj).
Qed.


Lemma in_order_update frames st c' j w w' t :
  in_order frames st ->
  Pipeline.ioThreads st !! j = Some w ->
  let st' :=
    Pipeline.mkState c' (Pipeline.processThreads st)
      (<[j := w']> (Pipeline.ioThreads st)) t in
  metadata <$> (Pipeline.container w' ++ pending_for st' w')
  `sublist_of` metadata <$> (Pipeline.container w ++ pending_for st w) ->
  (forall wk, metadata <$> pending_for st' wk
              `sublist_of` metadata <$> pending_for st wk) ->
  in_order frames st'.
Proof.
  intros (Hone & Hinv) Hj st' Hown Hothers.
  split; [exact Hone|]. intros k wk Hk.
  cbn [Pipeline.ioThreads st'] in Hk.
  apply list_lookup_insert_Some in Hk.
  destruct Hk as [(_ & <- & _) | (_ & Hk)].
  - etrans; [exact Hown|]. exact (Hinv j w Hj).
  - etrans; [|exact (Hinv k wk Hk)].
    rewrite !fmap_app. apply sublist_app; [reflexivity|]. apply Hothers.
Qed.

Lemma doStream_step_in_order frames j st :
  in_order frames st ->
  in_order frames (Pipeline.doStream_step encodeFunc j st).
Proof.
  intros Hinv. unfold Pipeline.doStream_step.
  destruct (Pipeline.ioThreads st !! j) as [w|] eqn:Hj; [|exact Hinv].
  destruct (Pipeline.pc w) eqn:Hpc.
  - (* WLoop *)
    apply (in_order_update frames st _ j w _ _ Hinv Hj);
      [|intros wk; reflexivity].
    unfold pending_for, before_unprocessed.
    cbn [Pipeline.pc Pipeline.container Pipeline.streamer
         Pipeline.processThreads].
    rewrite Hpc. destruct (mRunning (Pipeline.streamer st)); reflexivity.
  - (* WWait *)
    destruct (mReadyBuffers (Pipeline.streamer st)) as [|b q] eqn:Hq.
    + apply (in_order_update frames st _ j w _ _ Hinv Hj).
      * unfold pending_for, before_unprocessed.
        cbn [Pipeline.pc Pipeline.container Pipeline.streamer
             Pipeline.processThreads].
        rewrite Hpc, Hq. reflexivity.
      * intros wk. unfold pending_for.
        cbn [Pipeline.streamer Pipeline.processThreads]. rewrite Hq.
        reflexivity.
    + destruct (account_fields
                  (Pipeline.setReady (Pipeline.streamer st) q) b)
        as (_ & A2 & A3).
      apply (in_order_update frames st _ j w _ _ Hinv Hj).
      * unfold pending_for, before_unprocessed, Pipeline.write_frame.
        cbn [Pipeline.pc Pipeline.container Pipeline.streamer
             Pipeline.processThreads].
        rewrite Hpc, A2, A3, Hq.
        cbn [Pipeline.setReady mReadyBuffers mUnprocessedBuffers].
        rewrite <- !app_assoc. reflexivity.
      * intros wk. unfold pending_for.
        cbn [Pipeline.streamer Pipeline.processThreads].
        rewrite A2, A3, Hq.
        cbn [Pipeline.setReady mReadyBuffers mUnprocessedBuffers].
        apply fmap_sublist. apply sublist_app; [|reflexivity].
        destruct (before_unprocessed wk); [|reflexivity].
        simpl. apply sublist_cons. reflexivity.
  - (* WFlushReady *)
    destruct (mReadyBuffers (Pipeline.streamer st)) as [|b q] eqn:Hq.
    + apply (in_order_update frames st _ j w _ _ Hinv Hj).
      * unfold pending_for, before_unprocessed.
        cbn [Pipeline.pc Pipeline.container Pipeline.streamer
             Pipeline.processThreads].
        rewrite Hpc, Hq. apply fmap_sublist.
        apply sublist_app; [reflexivity|].
        apply sublist_app; [apply sublist_nil_l|reflexivity].
      * intros wk. unfold pending_for.
        cbn [Pipeline.streamer Pipeline.processThreads]. rewrite Hq.
        reflexivity.
    + destruct (account_fields
                  (Pipeline.setReady (Pipeline.streamer st) q) b)
        as (_ & A2 & A3).
      apply (in_order_update frames st _ j w _ _ Hinv Hj).
      * unfold pending_for, before_unprocessed, Pipeline.write_frame.
        cbn [Pipeline.pc Pipeline.container Pipeline.streamer
             Pipeline.processThreads].
        rewrite Hpc, A2, A3, Hq.
        cbn [Pipeline.setReady mReadyBuffers mUnprocessedBuffers].
        rewrite <- !app_assoc. reflexivity.
      * intros wk. unfold pending_for.
        cbn [Pipeline.streamer Pipeline.processThreads].
        rewrite A2, A3, Hq.
        cbn [Pipeline.setReady mReadyBuffers mUnprocessedBuffers].
        apply fmap_sublist. apply sublist_app; [|reflexivity].
        destruct (before_unprocessed wk); [|reflexivity].
        simpl. apply sublist_cons. reflexivity.
  - (* WFlushUnprocessed *)
    destruct (mUnprocessedBuffers (Pipeline.streamer st)) as [|b q] eqn:Hq.
    + apply (in_order_update frames st _ j w _ _ Hinv Hj).
      * unfold pending_for, before_unprocessed.
        cbn [Pipeline.pc Pipeline.container Pipeline.streamer
             Pipeline.processThreads].
        rewrite Hpc, Hq. reflexivity.
      * intros wk. unfold pending_for.
        cbn [Pipeline.streamer Pipeline.processThreads]. rewrite Hq.
        reflexivity.
    + set (b' := processBuffer encodeFunc (Pipeline.streamer st) b).
      destruct (account_fields
                  (Pipeline.setUnprocessed (Pipeline.streamer st) q) b')
        as (_ & A2 & A3).
      apply (in_order_update frames st _ j w _ _ Hinv Hj).
      * unfold pending_for, before_unprocessed, Pipeline.write_frame.
        cbn [Pipeline.pc Pipeline.container Pipeline.streamer
             Pipeline.processThreads].
        rewrite Hpc, A2, Hq.
        cbn [Pipeline.setUnprocessed mReadyBuffers mUnprocessedBuffers].
        rewrite <- !app_assoc. cbn [app].
        rewrite !fmap_app, !fmap_cons. unfold b'.
        rewrite processBuffer_metadata. reflexivity.
      * intros wk. unfold pending_for.
        cbn [Pipeline.streamer Pipeline.processThreads].
        rewrite A2, A3, Hq.
        cbn [Pipeline.setUnprocessed mReadyBuffers mUnprocessedBuffers].
        apply fmap_sublist. apply sublist_app; [reflexivity|].
        apply sublist_cons. reflexivity.
  - (* WCommit *)
    apply (in_order_update frames st _ j w _ _ Hinv Hj);
      [|intros wk; reflexivity].
    unfold pending_for, before_unprocessed.
    cbn [Pipeline.pc Pipeline.container Pipeline.streamer
         Pipeline.processThreads].
    rewrite Hpc. reflexivity.
  - (* WDone *)
    exact Hinv.
Qed.

Lemma run_in_order tr : forall frames st,
  in_order frames st ->
  in_order (frames ++ Pipeline.submitted tr) (Pipeline.run encodeFunc tr st).
Proof.
  induction tr as [|a tr IH]; intros frames st H.
  - simpl. rewrite app_nil_r. exact H.
  - change (Pipeline.run encodeFunc (a :: tr) st)
      with (Pipeline.run encodeFunc tr (Pipeline.step encodeFunc a st)).
    destruct a as [f| |i|j|bin|w0 h0].
    + change (Pipeline.submitted (Pipeline.Add f :: tr))
        with ([f] ++ Pipeline.submitted tr).
      rewrite app_assoc. apply IH.
      destruct H as (Hone & Hinv). split; [exact Hone|].
      intros k w Hk. specialize (Hinv k w Hk).
      unfold pending_for in *.
      cbn [Pipeline.step Pipeline.streamer Pipeline.processThreads add
           mReadyBuffers mUnprocessedBuffers].
      set (P := if before_unprocessed w then _ else _) in *.
      replace (Pipeline.container w
               ++ P ++ mUnprocessedBuffers (Pipeline.streamer st) ++ [f])
        with ((Pipeline.container w
               ++ P ++ mUnprocessedBuffers (Pipeline.streamer st)) ++ [f])
        by (rewrite <- !app_assoc; reflexivity).
      rewrite (fmap_app _ _ [f]), (fmap_app _ frames).
      apply sublist_app; [exact Hinv|reflexivity].
    + apply IH. exact H.
    + apply IH. apply doProcess_step_in_order. exact H.
    + apply IH. apply doStream_step_in_order. exact H.
    + apply IH. exact H.
    + apply IH. cbn [Pipeline.step]. unfold setCropAmount.
      destruct (negb (mRunning (Pipeline.streamer st))); exact H.
Qed.

(** X21.  With a single [doProcess] thread every container holds its
    frames in the order in which they were submitted: in every state that a
    run reaches from [start] with [numThreads] at most 1, the frames of
    each container are, by their metadata, a subsequence of the submitted
    frames, however many writers there are and however the threads
    interleave. *)
Theorem containers_in_submission_order c numFds enableCompression numThreads
    tr j w :
  (0 < numFds)%nat -> numThreads <= 1 ->
  mUnprocessedBuffers c = [] -> mReadyBuffers c = [] ->
  let st :=
    Pipeline.run encodeFunc tr
      (Pipeline.start c numFds enableCompression numThreads) in
  Pipeline.ioThreads st !! j = Some w ->
  metadata <$> Pipeline.container w
  `sublist_of` metadata <$> Pipeline.submitted tr.
Proof.
  intros Hn Hone Hu Hr st Hj.
  assert (H0 : in_order []
                 (Pipeline.start c numFds enableCompression numThreads)).
  { destruct numFds as [|k]; [lia|].
    unfold in_order, pending_for, Pipeline.start.
    cbn [Pipeline.streamer Pipeline.processThreads Pipeline.ioThreads
         mReadyBuffers mUnprocessedBuffers].
    rewrite Hu, Hr.
    replace (Z.to_nat (Z.max numThreads 1)) with 1%nat by lia.
    split; [unfold INT_MAX; simpl; lia|].
    intros i wi Hi. apply lookup_replicate in Hi. destruct Hi as [-> _].
    cbn. reflexivity. }
  destruct (run_in_order tr [] _ H0) as (_ & Hinv).
  specialize (Hinv j w Hj). cbn [app] in Hinv.
  etrans; [|exact Hinv].
  apply fmap_sublist. apply sublist_inserts_r. reflexivity.
Qed.

End Order.

Lemma containers_in_submission_order_witness :
  let f1 := sample_buffer PixelFormat.RAW10 8 4 10 in
  let f2 := sample_buffer PixelFormat.RAW12 8 4 12 in
  let f3 := sample_buffer PixelFormat.RAW16 8 4 16 in
  let tr :=
    [Pipeline.Add f1; Pipeline.Add f2; Pipeline.Process 0;
     Pipeline.Process 0; Pipeline.Process 0; Pipeline.Add f3;
     Pipeline.Stop; Pipeline.Stream 0; Pipeline.Stream 0; Pipeline.Stream 0;
     Pipeline.Stream 0; Pipeline.Stream 0] in
  let st :=
    Pipeline.run two_byte_codec tr
      (Pipeline.start Pipeline.new_streamer 1 false 1) in
  exists w,
    Pipeline.ioThreads st !! 0%nat = Some w /\
    length (Pipeline.container w) = 3%nat /\
    metadata <$> Pipeline.container w
    `sublist_of` metadata <$> Pipeline.submitted tr.
Proof.
  intros f1 f2 f3 tr st.
  destruct (Pipeline.ioThreads st !! 0%nat) as [w|] eqn:Hw;
    [|vm_compute in Hw; discriminate].
  exists w. split; [reflexivity|]. split.
  - vm_compute in Hw. injection Hw as <-. reflexivity.
  - apply (containers_in_submission_order two_byte_codec
             Pipeline.new_streamer 1 false 1 tr 0 w);
      [lia|lia|reflexivity|reflexivity|exact Hw].
Defined.

(** ** Binning with compression *)

Lemma length_binned_row_reference read data width height rowStride xstart
    half y :
  0 <= half ->
  Z.of_nat (length (binned_row_reference read data width height rowStride
                      xstart half y))
  = 2 * half.
Proof.
  intros H. unfold binned_row_reference.
  rewrite length_app, !length_map, !length_seqZ. lia.
Qed.

Lemma vget_binned_row_reference read data width height rowStride xstart
    half y X :
  0 <= X < half ->
  vget (binned_row_reference read data width height rowStride xstart half y) X
  = bin_sample read data width height rowStride (xstart + 4 * X) y /\
  vget (binned_row_reference read data width height rowStride xstart half y)
    (X + half)
  = bin_sample read data width height rowStride (xstart + 4 * X + 1) y.
Proof.
  intros HX. unfold binned_row_reference. split.
  - replace X with (Z.of_nat (Z.to_nat X)) at 1 by lia.
    apply vget_lookup.
    rewrite lookup_app_l by (rewrite length_map, length_seqZ; lia).
    rewrite list_lookup_fmap, lookup_seqZ_lt by lia. simpl.
    do 3 f_equal. lia.
  - replace (X + half) with (Z.of_nat (Z.to_nat half + Z.to_nat X)) by lia.
    apply vget_lookup.
    rewrite lookup_app_r by (rewrite length_map, length_seqZ; lia).
    rewrite length_map, length_seqZ.
    replace (Z.to_nat half + Z.to_nat X - Z.to_nat half)%nat
      with (Z.to_nat X) by lia.
    rewrite list_lookup_fmap, lookup_seqZ_lt by lia. simpl.
    do 3 f_equal. lia.
Qed.

(** The block loop overwrites every entry of both row vectors. *)
Lemma bin_rows_reference read idx0 data width height rowStride xstart half y
    row0 row1 :
  (forall i, 0 <= i < 2 * half -> idx0 i = i) ->
  0 <= half ->
  Z.of_nat (length row0) = 2 * half ->
  Z.of_nat (length row1) = 2 * half ->
  bin_rows read idx0 data width height rowStride xstart (xstart + 4 * half)
    (2 * half) y (row0, row1)
  = (binned_row_reference read data width height rowStride xstart half y,
     binned_row_reference read data width height rowStride xstart half
       (y + 1)).
Proof.
  intros Hidx Hhalf Hl0 Hl1.
  destruct (bin_rows_samples read idx0 data width height rowStride xstart
              half y row0 row1 Hidx Hhalf Hl0 Hl1)
    as (_ & _ & Hr0 & Hr1 & Hrows).
  destruct (bin_rows read idx0 data width height rowStride xstart
              (xstart + 4 * half) (2 * half) y (row0, row1)) as [r0 r1].
  cbn [fst snd] in *.
  pose proof (length_binned_row_reference read data width height rowStride
                xstart half y Hhalf) as L0.
  pose proof (length_binned_row_reference read data width height rowStride
                xstart half (y + 1) Hhalf) as L1.
  f_equal; apply vget_ext; try lia; intros i Hi.
  - destruct (Z.lt_ge_cases i half) as [Hlo | Hhi].
    + destruct (Hrows i ltac:(lia) ltac:(lia)) as (S1 & _).
      destruct (vget_binned_row_reference read data width height rowStride
                  xstart half y i ltac:(lia)) as (V1 & _).
      rewrite S1, V1. reflexivity.
    + destruct (Hrows (i - half) ltac:(lia) ltac:(lia)) as (_ & S2 & _).
      destruct (vget_binned_row_reference read data width height rowStride
                  xstart half y (i - half) ltac:(lia)) as (_ & V2).
      replace (i - half + half) with i in S2, V2 by lia.
      rewrite S2, V2. reflexivity.
  - destruct (Z.lt_ge_cases i half) as [Hlo | Hhi].
    + destruct (Hrows i ltac:(lia) ltac:(lia)) as (_ & _ & S3 & _).
      destruct (vget_binned_row_reference read data width height rowStride
                  xstart half (y + 1) i ltac:(lia)) as (V1 & _).
      rewrite S3, V1. reflexivity.
    + destruct (Hrows (i - half) ltac:(lia) ltac:(lia)) as (_ & _ & _ & S4).
      destruct (vget_binned_row_reference read data width height rowStride
                  xstart half (y + 1) (i - half) ltac:(lia)) as (_ & V2).
      replace (i - half + half) with i in S4, V2 by lia.
      rewrite S4, V2. reflexivity.
Qed.

Section CompressedBinning.
Context {Metadata : Type}.
Variable encodeFunc : list Z -> list Z.
Implicit Types (c : @RawBufferStreamer Metadata) (b : @RawImageBuffer Metadata).

Lemma cropAndBin_compress_rows read idx0 pack width height rowStride xstart
    half ystart K row0 row1 mem0 :
  (forall i, 0 <= i < 2 * half -> idx0 i = i) ->
  0 <= half -> 0 <= K ->
  Z.of_nat (length row0) = 2 * half ->
  Z.of_nat (length row1) = 2 * half ->
  snd (for_range ystart (ystart + 4 * K) 4
         (cropAndBin_body encodeFunc read idx0 pack true width height
            rowStride xstart (xstart + 4 * half) (2 * half))
         ((row0, row1), mem0))
  = compress_blocks_reference encodeFunc read width height rowStride xstart
      half (map (fun k => ystart + 4 * k) (seqZ 0 K)) mem0.
Proof.
  intros Hidx Hhalf HK Hl0 Hl1.
  destruct (for_range_inv
    (fun j (s : (list Z * list Z) * (list Z * Z)) =>
       exists k, j = ystart + 4 * k /\ 0 <= k <= K /\
       Z.of_nat (length (fst (fst s))) = 2 * half /\
       Z.of_nat (length (snd (fst s))) = 2 * half /\
       snd s = compress_blocks_reference encodeFunc read width height
                 rowStride xstart half
                 (map (fun k => ystart + 4 * k) (seqZ 0 k)) mem0)
    ystart (ystart + 4 * K) 4
    (cropAndBin_body encodeFunc read idx0 pack true width height
       rowStride xstart (xstart + 4 * half) (2 * half))
    ((row0, row1), mem0))
    as (j & Hj1 & Hj2 & k & Hjk & Hk & _ & _ & Hmem).
  - lia.
  - exists 0. cbn [fst snd]. repeat split; try lia; reflexivity.
  - intros j [[r0 r1] mem] Hj (k & -> & Hk & H0 & H1 & Hmem).
    cbn [fst snd] in *. exists (k + 1).
    split; [lia|]. split; [lia|].
    unfold cropAndBin_body. cbn [fst snd].
    rewrite (bin_rows_reference read idx0 (fst mem) width height rowStride
               xstart half (ystart + 4 * k) r0 r1 Hidx Hhalf H0 H1).
    cbn [fst snd].
    split; [apply length_binned_row_reference; exact Hhalf|].
    split; [apply length_binned_row_reference; exact Hhalf|].
    rewrite seqZ_app by lia. rewrite map_app.
    unfold compress_blocks_reference. rewrite fold_left_app.
    fold (compress_blocks_reference encodeFunc read width height rowStride
            xstart half (map (fun k => ystart + 4 * k) (seqZ 0 k)) mem0).
    rewrite <- Hmem. cbn [seqZ map fold_left]. 
    change (seqZ (0 + k) 1) with [0 + k]. cbn [map fold_left].
    rewrite Z.add_0_l. reflexivity.
  - assert (k = K) as -> by lia. exact Hmem.
Qed.


(** X22.  Binning with compression.  For a frame of a supported format
    whose width and height are multiples of 4, [cropAndBin] with
    compression enabled leaves in the region, block row after block row,
    the encoding of the binned row [y] followed by that of the binned row
    [y+1], each written where the one before ended, and sets the valid range
    to [(0, total encoded length)].  The two row vectors are reused from one
    block row to the next; every entry is overwritten, so that no sample of
    an earlier block row is encoded again.  The samples are binned from the
    region as it is when the block row is reached. *)
Theorem cropAndBin_compressed c b :
  mEnableCompression c = true ->
  PixelFormat.supported (pixelFormat b) = true ->
  0 <= mCropWidth c <= 100 -> 0 <= mCropHeight c <= 100 ->
  0 <= width b <= 131072 -> width b mod 4 = 0 ->
  0 <= height b <= INT_MAX -> height b mod 4 = 0 ->
  let hc := horizontalCrop c b in
  let vc := verticalCrop c b in
  let out :=
    compress_blocks_reference encodeFunc (reader_of (pixelFormat b))
      (width b) (height b) (rowStride b) hc ((width b - 2 * hc) / 4)
      (map (fun k => vc + 4 * k) (seqZ 0 ((height b - 2 * vc) / 4)))
      (bytes (data b), 0) in
  let b' := cropAndBin encodeFunc c b in
  bytes (data b') = fst out /\ validRange (data b') = (0, snd out).
Proof.
  intros Hcomp Hfmt Hcw Hch Hw Hw4 Hh Hh4 hc vc out b'.
  assert (Hwe : Z.even (width b) = true).
  { apply Z.even_spec. exists (2 * (width b / 4)).
    Z.to_euclidean_division_equations; lia. }
  assert (Hhe : Z.even (height b) = true).
  { apply Z.even_spec. exists (2 * (height b / 4)).
    Z.to_euclidean_division_equations; lia. }
  destruct (horizontalCrop_range c b Hcw ltac:(unfold INT_MAX in *; lia) Hwe)
    as [Hc0 Hc1].
  destruct (verticalCrop_range c b Hch Hh Hhe) as [Hv0 Hv1].
  pose proof (horizontalCrop_aligned c b) as Hc4.
  pose proof (verticalCrop_aligned c b) as Hv2.
  rewrite Z.rem_mod_nonneg in Hc4, Hv2 by lia.
  fold hc in Hc0, Hc1, Hc4. fold vc in Hv0, Hv1, Hv2.
  set (half := (width b - 2 * hc) / 4) in *.
  set (K := (height b - 2 * vc) / 4) in *.
  assert (Hhalf : 0 <= half) by (unfold half; apply Z.div_pos; lia).
  assert (HK : 0 <= K) by (unfold K; apply Z.div_pos; lia).
  assert (Hbw : Z.quot (croppedWidth c b) 2 = 2 * half).
  { unfold croppedWidth. fold hc. rewrite Z.quot_div_nonneg by lia.
    unfold half. Z.to_euclidean_division_equations; lia. }
  assert (Hxend : width b - hc = hc + 4 * half)
    by (unfold half; Z.to_euclidean_division_equations; lia).
  assert (Hyend : height b - vc = vc + 4 * K)
    by (unfold K; Z.to_euclidean_division_equations; lia).
  assert (Hu16 : forall i, 0 <= i < 2 * half -> u16 i = i).
  { intros i Hi. rewrite u16_mod. apply Z.mod_small.
    unfold half in Hi. Z.to_euclidean_division_equations; lia. }
  assert (Hrow : Z.of_nat (length (new_row (2 * half))) = 2 * half)
    by (apply length_new_row; lia).
  assert (Hres : forall idx0 pack,
    (forall i, 0 <= i < 2 * half -> idx0 i = i) ->
    cropAndBin_loop encodeFunc (reader_of (pixelFormat b)) idx0 pack b
      (bytes (lock (data b))) vc (vc + 4 * K) hc (hc + 4 * half) (2 * half)
      true = out).
  { intros idx0 pack Hidx. unfold cropAndBin_loop.
    apply cropAndBin_compress_rows; auto. }
  subst b'. unfold cropAndBin. fold hc vc.
  rewrite Hbw, Hxend, Hyend, Hcomp.
  destruct (pixelFormat b) eqn:Efmt; try discriminate;
    unfold cropAndBin_RAW10, cropAndBin_RAW12, cropAndBin_RAW16;
    cbn [reader_of] in Hres.
  - rewrite (Hres u16 pack_RAW10 Hu16).
    unfold cropAndBin_finish. destruct out as [bs e]. rewrite Hcomp.
    split; reflexivity.
  - rewrite (Hres id pack_RAW12 (fun i _ => eq_refl)).
    unfold cropAndBin_finish. destruct out as [bs e]. rewrite Hcomp.
    split; reflexivity.
  - rewrite (Hres id pack_RAW12 (fun i _ => eq_refl)).
    unfold cropAndBin_finish. destruct out as [bs e]. rewrite Hcomp.
    split; reflexivity.
Qed.

End CompressedBinning.

Lemma cropAndBin_compressed_witness :
  let c := sample_streamer 0 0 true true in
  let b := sample_buffer PixelFormat.RAW10 16 8 20 in
  let out :=
    compress_blocks_reference two_byte_codec RAW10 16 8 20 0 4 [0; 4]
      (bytes (data b), 0) in
  let b' := cropAndBin two_byte_codec c b in
  bytes (data b') = fst out /\ validRange (data b') = (0, snd out) /\
  snd out = 64.
Proof.
  intros c b out b'.
  assert (H1 : 0 <= mCropWidth c <= 100) by (cbn; lia).
  assert (H2 : 0 <= mCropHeight c <= 100) by (cbn; lia).
  assert (H3 : 0 <= width b <= 131072) by (cbn; lia).
  assert (H4 : width b mod 4 = 0) by reflexivity.
  assert (H5 : 0 <= height b <= INT_MAX) by (unfold INT_MAX; cbn; lia).
  assert (H6 : height b mod 4 = 0) by reflexivity.
  destruct (cropAndBin_compressed two_byte_codec c b eq_refl eq_refl
              H1 H2 H3 H4 H5 H6) as [Hb Hv].
  split; [exact Hb|]. split; [exact Hv|]. vm_compute. reflexivity.
Defined.
